(** * xpra codec glue: the x264 and vpx encode/decode contexts

    A shallow embedding of [src/xpra/x264/x264lib.c] and
    [src/xpra/vpx/vpxlib.c], as they are built outside Windows (the
    branches [#ifndef _WIN32]) with [SUPPORT_CSC_MODES] defined.

    - C [int] values are [Z]; pointers are [option handle] ([None] is NULL).
    - C [double] and [float] values are IEEE 754 binary64 and binary32
      numbers, represented by [spec_float] with the operations of the
      Standard Library's [SpecFloat] (correctly rounded, ties to even).
    - The external libraries (x264, libswscale, libavcodec, libvpx) are a
      [world]: tables of the live library objects, a log of the library
      calls made, and the list of the values the libraries are going to
      return ([env]); every quantification over worlds is therefore a
      quantification over all behaviours of the libraries.
    - Undefined behaviour (a NULL or dangling pointer handed to a library)
      is the result [None]. *)

From Stdlib Require Import ZArith List String Bool Lia QArith Qround.
From Stdlib Require Import Floats.SpecFloat.
From stdpp Require Import base option gmap.

Local Open Scope Z_scope.

(** ** C numbers *)

Module CNum.

(** [double]: binary64. *)
Definition dprec : Z := 53.
Definition demax : Z := 1024.
(** [float]: binary32. *)
Definition fprec : Z := 24.
Definition femax : Z := 128.

(** Conversion of an [int] to [double] (exact for 32-bit values). *)
Definition double_of_int (z : Z) : spec_float :=
  binary_normalize dprec demax z 0 false.

(** Conversion of an integer to [float]. *)
Definition float_of_int (z : Z) : spec_float :=
  binary_normalize fprec femax z 0 false.

(** The literal [12.5] = 25 * 2^-1. *)
Definition double_12_5 : spec_float :=
  binary_normalize dprec demax 25 (-1) false.

Definition dmul := SFmul dprec demax.
Definition ddiv := SFdiv dprec demax.
Definition dsub := SFsub dprec demax.
(** The comparisons [x < y] and [x > y] on [double]. *)
Definition dlt (x y : spec_float) : bool := SFltb x y.
Definition dgt (x y : spec_float) : bool := SFltb y x.

(** Implicit conversion [double] -> [float] at a call of a [float]
    function: round to nearest, ties to even. *)
Definition float_of_double (x : spec_float) : spec_float :=
  match x with
  | S754_finite s m e => binary_normalize fprec femax (cond_Zopp s (Zpos m)) e s
  | _ => x
  end.

(** [roundf] of <math.h>: the nearest integer, halfway cases away from
    zero, as a [float]. *)
Definition roundf (x : spec_float) : spec_float :=
  match x with
  | S754_finite s m e =>
      if 0 <=? e then x
      else
        let d := 2 ^ (- e) in
        let q := Zpos m / d in
        let r := Zpos m mod d in
        let n := if d <=? 2 * r then q + 1 else q in
        binary_normalize fprec femax (cond_Zopp s n) 0 s
  | _ => x
  end.

Definition INT_MIN : Z := - 2 ^ 31.
Definition INT_MAX : Z := 2 ^ 31 - 1.

(** Conversion [double] -> [int] in an initialisation: the fractional part
    is discarded (truncation toward zero); undefined when the value does not
    fit. *)
Definition int_of_double (x : spec_float) : option Z :=
  match x with
  | S754_zero _ => Some 0
  | S754_finite s m e =>
      let mag := if 0 <=? e then Zpos m * 2 ^ e else Zpos m / 2 ^ (- e) in
      let v := cond_Zopp s mag in
      if (INT_MIN <=? v) && (v <=? INT_MAX) then Some v else None
  | _ => None
  end.

(** [int] arithmetic and conversions to [int]: two's complement on 32
    bits. *)
Definition wrap_int (z : Z) : Z := (z + 2 ^ 31) mod 2 ^ 32 - 2 ^ 31.

(** Structural equality test on [spec_float]. *)
Definition sf_eqb (x y : spec_float) : bool :=
  match x, y with
  | S754_zero s, S754_zero t => Bool.eqb s t
  | S754_infinity s, S754_infinity t => Bool.eqb s t
  | S754_nan, S754_nan => true
  | S754_finite s m e, S754_finite t n f =>
      Bool.eqb s t && Pos.eqb m n && Z.eqb e f
  | _, _ => false
  end.

(** The C comparison [x != y] on floating-point values. *)
Definition fneq (x y : spec_float) : bool := negb (SFeqb x y).

(** The macros [MAX] and [MIN] on [int] arguments:
    [((a) > (b) ? a : b)] and [((a) < (b) ? a : b)]. *)
Definition MAX (a b : Z) : Z := if a >? b then a else b.
Definition MIN (a b : Z) : Z := if a <? b then a else b.

End CNum.
Import CNum.

(** ** The quality policy of x264lib.c *)

Definition I422_MIN_QUALITY : Z := 80.
Definition I444_MIN_QUALITY : Z := 90.

(** [float get_x264_quality(int pct)]:
    [roundf(50.0 - (MIN(100, MAX(0, pct)) * 49.0 / 100.0))]. *)
Definition get_x264_quality (pct : Z) : spec_float :=
  roundf (float_of_double
    (dsub (double_of_int 50)
          (ddiv (dmul (double_of_int (MIN 100 (MAX 0 pct))) (double_of_int 49))
                (double_of_int 100)))).

(** The local [new_preset] of [set_encoding_speed]:
    [int new_preset = 7-MAX(0, MIN(7, pct/12.5));].  The macros expand to
    conditional expressions whose operands are [int] and [double], so the
    whole expression is a [double]; the initialisation truncates it. *)
Definition speed_MIN (pct : Z) : spec_float :=
  let b := ddiv (double_of_int pct) double_12_5 in
  if dlt (double_of_int 7) b then double_of_int 7 else b.

Definition speed_MAX (pct : Z) : spec_float :=
  let b := speed_MIN pct in
  if dgt (double_of_int 0) b then double_of_int 0 else b.

Definition new_preset (pct : Z) : option Z :=
  int_of_double (dsub (double_of_int 7) (speed_MAX pct)).

(** ** The formulas of the specification, in exact rational arithmetic *)

Module Spec.

(** [round]: the nearest integer, halfway cases away from zero. *)
Definition round (q : Q) : Z :=
  if Qle_bool 0 q then Qfloor (q + (1 # 2))%Q else Qceiling (q - (1 # 2))%Q.

Definition clamp (x lo hi : Z) : Z := Z.max lo (Z.min hi x).

(** [quantizer = round(Q_MAX - qualityPct * (Q_MAX - Q_MIN) / 100)] with
    [Q_MIN = 1] and [Q_MAX = 50]. *)
Definition quantizer (pct : Z) : Z :=
  round (50 - inject_Z pct * 49 / 100)%Q.

(** [presetIndex = 7 - clamp(round(speedPct/12.5), 0, 7)]. *)
Definition presetIndex (pct : Z) : Z :=
  7 - clamp (round (inject_Z pct / (25 # 2))%Q) 0 7.

(** What the code computes instead: the quotient is rounded up. *)
Definition presetIndex_ceil (pct : Z) : Z :=
  7 - clamp (Qceiling (inject_Z pct / (25 # 2))%Q) 0 7.

End Spec.

(** ** The external headers and libraries *)

(** A pointer to a library object: [None] is NULL. *)
Definition handle : Type := positive.

(** A pointer to raw bytes, as an address; [NULL] is 0. *)
Definition ptr : Type := Z.
Definition NULL : ptr := 0.

(** The part of [x264_param_t] this code works with: the fields it assigns,
    and the names it hands to [x264_param_default_preset] and
    [x264_param_apply_profile], which stand for all the settings x264
    derives from them. *)
Record x264_param_t := {
  param_preset : option string;
  param_tune : option string;
  param_profile : option string;
  i_threads : Z;
  i_width : Z;
  i_height : Z;
  i_csp : Z;
  i_log_level : Z;
  f_rf_constant : spec_float }.

(** The fields of [AVCodecContext] this code assigns. *)
Record AVCodecContext := {
  av_width : Z;
  av_height : Z;
  pix_fmt : Z;
  av_opened : bool }.

(** The constants of <x264.h>, <libavutil/pixfmt.h>, <libswscale/swscale.h>,
    <libavcodec/avcodec.h> and <vpx/vpx_encoder.h> used by the code, and what
    the libraries fill in by default.  The headers are not part of the
    repository: the constants are parameters of the development. *)
Class Headers := {
  X264_CSP_I420 : Z;
  X264_CSP_I422 : Z;
  X264_CSP_I444 : Z;
  PIX_FMT_RGB24 : Z;
  PIX_FMT_YUV420P : Z;
  PIX_FMT_YUV422P : Z;
  PIX_FMT_YUV444P : Z;
  SWS_SINC : Z;
  SWS_ACCURATE_RND : Z;
  CODEC_ID_H264 : Z;
  VPX_CODEC_CX_FRAME_PKT : Z;
  (** the block [x264_param_default] fills in *)
  x264_param_default : x264_param_t;
  (** the context [avcodec_alloc_context3] returns *)
  avcodec_context_default : AVCodecContext }.

(** The values of x264 (build 125), FFmpeg 1.0 and libvpx 1.1, against which
    the code was written; used for the concrete runs below. *)
Definition headers_2012 : Headers := {|
  X264_CSP_I420 := 1;
  X264_CSP_I422 := 4;
  X264_CSP_I444 := 7;
  PIX_FMT_RGB24 := 2;
  PIX_FMT_YUV420P := 0;
  PIX_FMT_YUV422P := 4;
  PIX_FMT_YUV444P := 5;
  SWS_SINC := 256;
  SWS_ACCURATE_RND := 262144;
  CODEC_ID_H264 := 28;
  VPX_CODEC_CX_FRAME_PKT := 0;
  x264_param_default := {|
    param_preset := None; param_tune := None; param_profile := None;
    i_threads := 0; i_width := 0; i_height := 0; i_csp := 1;
    i_log_level := 2; f_rf_constant := float_of_int 23 |};
  avcodec_context_default := {|
    av_width := 0; av_height := 0; pix_fmt := -1; av_opened := false |} |}.

(** [x264_preset_names] of <x264.h>, as quoted in the comment of
    [struct x264lib_ctx]; the array ends with a null pointer. *)
Definition x264_preset_names : list (option string) :=
  (Some "ultrafast" :: Some "superfast" :: Some "veryfast" :: Some "faster"
   :: Some "fast" :: Some "medium" :: Some "slow" :: Some "slower"
   :: Some "veryslow" :: Some "placebo" :: None :: nil)%string.

(** A state and error monad: [None] is undefined behaviour. *)
Module StateErr.

Definition M (S A : Type) : Type := S -> option (A * S).

Definition ret {S A} (a : A) : M S A := fun s => Some (a, s).

Definition bind {S A B} (c : M S A) (k : A -> M S B) : M S B :=
  fun s => match c s with
           | Some (a, s') => k a s'
           | None => None
           end.

Definition crash {S A} : M S A := fun _ => None.

Definition get {S} : M S S := fun s => Some (s, s).

Definition put {S} (s : S) : M S unit := fun _ => Some (tt, s).

End StateErr.
Import StateErr.

Declare Scope cmd_scope.
Delimit Scope cmd_scope with cmd.
Notation "x <- c ;; k" := (bind c (fun x => k))
  (at level 100, c at next level, right associativity) : cmd_scope.
Notation "c ;;; k" := (bind c (fun _ => k))
  (at level 100, right associativity) : cmd_scope.

(** ** x264lib.c *)

Module X264.

(** A libswscale context is bound to the arguments of [sws_getContext]. *)
Record SwsContext := {
  srcW : Z; srcH : Z; srcFormat : Z;
  dstW : Z; dstH : Z; dstFormat : Z;
  sws_flags : Z }.

(** An [x264_picture_t] allocated by [x264_picture_alloc]. *)
Record x264_picture_t := {
  pic_csp : Z;
  pic_width : Z;
  pic_height : Z;
  i_pts : Z;
  (** the per-frame parameter block, [pic_in->param] *)
  pic_param : option x264_param_t }.

(** The decoded [AVFrame]: plane pointers and line sizes. *)
Record AVFrame := {
  frame_data : list ptr;
  linesize : list Z }.

(** The calls to the libraries, and the messages printed on stderr. *)
Inductive call :=
| Call_x264_encoder_open (p : x264_param_t) (r : option handle)
| Call_x264_encoder_close (e : handle)
| Call_x264_encoder_reconfig (e : handle) (p : x264_param_t)
| Call_x264_encoder_encode (e : handle) (pic : handle) (frame_size : Z)
| Call_x264_picture_alloc (pic : handle)
| Call_free_picture (pic : handle)
| Call_sws_getContext (c : SwsContext) (r : option handle)
| Call_sws_freeContext (c : handle)
| Call_sws_scale (c : handle) (src : ptr) (stride : Z)
| Call_avcodec_find_decoder (id : Z) (r : option Z)
| Call_avcodec_alloc_context3 (r : option handle)
| Call_avcodec_open2 (c : handle) (r : Z)
| Call_avcodec_close (c : handle)
| Call_av_free (c : handle)
| Call_avcodec_decode_video2 (c : handle) (data : ptr) (size : Z) (len : Z)
    (got_picture : Z)
| Call_stderr (msg : string).

Record world := {
  (** the next fresh address *)
  next : handle;
  (** the open encoders, with their current parameters *)
  encoders : gmap handle x264_param_t;
  (** the live libswscale contexts *)
  scalers : gmap handle SwsContext;
  (** the allocated pictures *)
  pictures : gmap handle x264_picture_t;
  (** the allocated libavcodec contexts *)
  codec_ctxs : gmap handle AVCodecContext;
  (** the library calls made so far, latest first *)
  log : list call;
  (** the values the libraries are going to return; 0 when exhausted *)
  env : list Z }.

Definition with_next (w : world) (n : handle) : world :=
  {| next := n; encoders := encoders w; scalers := scalers w;
     pictures := pictures w; codec_ctxs := codec_ctxs w; log := log w;
     env := env w |}.
Definition with_encoders (w : world) (m : gmap handle x264_param_t) : world :=
  {| next := next w; encoders := m; scalers := scalers w;
     pictures := pictures w; codec_ctxs := codec_ctxs w; log := log w;
     env := env w |}.
Definition with_scalers (w : world) (m : gmap handle SwsContext) : world :=
  {| next := next w; encoders := encoders w; scalers := m;
     pictures := pictures w; codec_ctxs := codec_ctxs w; log := log w;
     env := env w |}.
Definition with_pictures (w : world) (m : gmap handle x264_picture_t) : world :=
  {| next := next w; encoders := encoders w; scalers := scalers w;
     pictures := m; codec_ctxs := codec_ctxs w; log := log w;
     env := env w |}.
Definition with_codec_ctxs (w : world) (m : gmap handle AVCodecContext) : world :=
  {| next := next w; encoders := encoders w; scalers := scalers w;
     pictures := pictures w; codec_ctxs := m; log := log w;
     env := env w |}.
Definition with_log (w : world) (l : list call) : world :=
  {| next := next w; encoders := encoders w; scalers := scalers w;
     pictures := pictures w; codec_ctxs := codec_ctxs w; log := l;
     env := env w |}.
Definition with_env (w : world) (l : list Z) : world :=
  {| next := next w; encoders := encoders w; scalers := scalers w;
     pictures := pictures w; codec_ctxs := codec_ctxs w; log := log w;
     env := l |}.

(** A world with no library object, in which every call succeeds. *)
Definition world0 : world :=
  {| next := 1%positive; encoders := ∅; scalers := ∅; pictures := ∅;
     codec_ctxs := ∅; log := nil; env := nil |}.

Local Open Scope cmd_scope.

Definition Cmd (A : Type) : Type := M world A.

(** A fresh address. *)
Definition fresh : Cmd handle :=
  fun w => Some (next w, with_next w (Pos.succ (next w))).

(** The next value returned by a library. *)
Definition answer : Cmd Z :=
  fun w => match env w with
           | nil => Some (0, w)
           | a :: rest => Some (a, with_env w rest)
           end.

Definition record (c : call) : Cmd unit :=
  fun w => Some (tt, with_log w (c :: log w)).

(** A library function that returns a pointer to a new object, or NULL:
    the environment decides (0: success). *)
Definition allocate : Cmd (option handle) :=
  a <- answer ;;
  if a =? 0 then (h <- fresh ;; ret (Some h)) else ret None.

(** Dereferencing a pointer: NULL is undefined behaviour. *)
Definition deref {A} (p : option A) : Cmd A :=
  match p with
  | Some a => ret a
  | None => crash
  end.

(** [struct x264lib_ctx].  [codec] points to the decoder libavcodec has
    registered for a codec id; it is represented by that id. *)
Record x264lib_ctx := {
  (* Both *)
  width : Z;
  height : Z;
  csc_format : Z;
  (* Decoding *)
  codec : option Z;
  codec_ctx : option handle;
  yuv2rgb : option handle;
  (* Encoding *)
  encoder : option handle;
  rgb2yuv : option handle;
  quality : Z;
  supports_csc_option : Z;
  encoding_preset : Z;
  x264_quality : spec_float;
  colour_sampling : Z;
  profile : option string;
  preset : option string;
  csc_algo : Z }.

(** Assignments to the fields of the context. *)
Definition set_width (c : x264lib_ctx) (v : Z) : x264lib_ctx :=
  {| width := v; height := height c; csc_format := csc_format c; codec :=
  codec c; codec_ctx := codec_ctx c; yuv2rgb := yuv2rgb c; encoder :=
  encoder c; rgb2yuv := rgb2yuv c; quality := quality c; supports_csc_option
  := supports_csc_option c; encoding_preset := encoding_preset c;
  x264_quality := x264_quality c; colour_sampling := colour_sampling c;
  profile := profile c; preset := preset c; csc_algo := csc_algo c |}.
Definition set_height (c : x264lib_ctx) (v : Z) : x264lib_ctx :=
  {| width := width c; height := v; csc_format := csc_format c; codec :=
  codec c; codec_ctx := codec_ctx c; yuv2rgb := yuv2rgb c; encoder :=
  encoder c; rgb2yuv := rgb2yuv c; quality := quality c; supports_csc_option
  := supports_csc_option c; encoding_preset := encoding_preset c;
  x264_quality := x264_quality c; colour_sampling := colour_sampling c;
  profile := profile c; preset := preset c; csc_algo := csc_algo c |}.
Definition set_csc_format (c : x264lib_ctx) (v : Z) : x264lib_ctx :=
  {| width := width c; height := height c; csc_format := v; codec := codec
  c; codec_ctx := codec_ctx c; yuv2rgb := yuv2rgb c; encoder := encoder c;
  rgb2yuv := rgb2yuv c; quality := quality c; supports_csc_option :=
  supports_csc_option c; encoding_preset := encoding_preset c; x264_quality
  := x264_quality c; colour_sampling := colour_sampling c; profile :=
  profile c; preset := preset c; csc_algo := csc_algo c |}.
Definition set_codec (c : x264lib_ctx) (v : option Z) : x264lib_ctx :=
  {| width := width c; height := height c; csc_format := csc_format c; codec
  := v; codec_ctx := codec_ctx c; yuv2rgb := yuv2rgb c; encoder := encoder
  c; rgb2yuv := rgb2yuv c; quality := quality c; supports_csc_option :=
  supports_csc_option c; encoding_preset := encoding_preset c; x264_quality
  := x264_quality c; colour_sampling := colour_sampling c; profile :=
  profile c; preset := preset c; csc_algo := csc_algo c |}.
Definition set_codec_ctx (c : x264lib_ctx) (v : option handle) : x264lib_ctx :=
  {| width := width c; height := height c; csc_format := csc_format c; codec
  := codec c; codec_ctx := v; yuv2rgb := yuv2rgb c; encoder := encoder c;
  rgb2yuv := rgb2yuv c; quality := quality c; supports_csc_option :=
  supports_csc_option c; encoding_preset := encoding_preset c; x264_quality
  := x264_quality c; colour_sampling := colour_sampling c; profile :=
  profile c; preset := preset c; csc_algo := csc_algo c |}.
Definition set_yuv2rgb (c : x264lib_ctx) (v : option handle) : x264lib_ctx :=
  {| width := width c; height := height c; csc_format := csc_format c; codec
  := codec c; codec_ctx := codec_ctx c; yuv2rgb := v; encoder := encoder c;
  rgb2yuv := rgb2yuv c; quality := quality c; supports_csc_option :=
  supports_csc_option c; encoding_preset := encoding_preset c; x264_quality
  := x264_quality c; colour_sampling := colour_sampling c; profile :=
  profile c; preset := preset c; csc_algo := csc_algo c |}.
Definition set_encoder (c : x264lib_ctx) (v : option handle) : x264lib_ctx :=
  {| width := width c; height := height c; csc_format := csc_format c; codec
  := codec c; codec_ctx := codec_ctx c; yuv2rgb := yuv2rgb c; encoder := v;
  rgb2yuv := rgb2yuv c; quality := quality c; supports_csc_option :=
  supports_csc_option c; encoding_preset := encoding_preset c; x264_quality
  := x264_quality c; colour_sampling := colour_sampling c; profile :=
  profile c; preset := preset c; csc_algo := csc_algo c |}.
Definition set_rgb2yuv (c : x264lib_ctx) (v : option handle) : x264lib_ctx :=
  {| width := width c; height := height c; csc_format := csc_format c; codec
  := codec c; codec_ctx := codec_ctx c; yuv2rgb := yuv2rgb c; encoder :=
  encoder c; rgb2yuv := v; quality := quality c; supports_csc_option :=
  supports_csc_option c; encoding_preset := encoding_preset c; x264_quality
  := x264_quality c; colour_sampling := colour_sampling c; profile :=
  profile c; preset := preset c; csc_algo := csc_algo c |}.
Definition set_quality (c : x264lib_ctx) (v : Z) : x264lib_ctx :=
  {| width := width c; height := height c; csc_format := csc_format c; codec
  := codec c; codec_ctx := codec_ctx c; yuv2rgb := yuv2rgb c; encoder :=
  encoder c; rgb2yuv := rgb2yuv c; quality := v; supports_csc_option :=
  supports_csc_option c; encoding_preset := encoding_preset c; x264_quality
  := x264_quality c; colour_sampling := colour_sampling c; profile :=
  profile c; preset := preset c; csc_algo := csc_algo c |}.
Definition set_supports_csc_option (c : x264lib_ctx) (v : Z) : x264lib_ctx :=
  {| width := width c; height := height c; csc_format := csc_format c; codec
  := codec c; codec_ctx := codec_ctx c; yuv2rgb := yuv2rgb c; encoder :=
  encoder c; rgb2yuv := rgb2yuv c; quality := quality c; supports_csc_option
  := v; encoding_preset := encoding_preset c; x264_quality := x264_quality
  c; colour_sampling := colour_sampling c; profile := profile c; preset :=
  preset c; csc_algo := csc_algo c |}.
Definition set_encoding_preset (c : x264lib_ctx) (v : Z) : x264lib_ctx :=
  {| width := width c; height := height c; csc_format := csc_format c; codec
  := codec c; codec_ctx := codec_ctx c; yuv2rgb := yuv2rgb c; encoder :=
  encoder c; rgb2yuv := rgb2yuv c; quality := quality c; supports_csc_option
  := supports_csc_option c; encoding_preset := v; x264_quality :=
  x264_quality c; colour_sampling := colour_sampling c; profile := profile
  c; preset := preset c; csc_algo := csc_algo c |}.
Definition set_x264_quality (c : x264lib_ctx) (v : spec_float) : x264lib_ctx :=
  {| width := width c; height := height c; csc_format := csc_format c; codec
  := codec c; codec_ctx := codec_ctx c; yuv2rgb := yuv2rgb c; encoder :=
  encoder c; rgb2yuv := rgb2yuv c; quality := quality c; supports_csc_option
  := supports_csc_option c; encoding_preset := encoding_preset c;
  x264_quality := v; colour_sampling := colour_sampling c; profile :=
  profile c; preset := preset c; csc_algo := csc_algo c |}.
Definition set_colour_sampling (c : x264lib_ctx) (v : Z) : x264lib_ctx :=
  {| width := width c; height := height c; csc_format := csc_format c; codec
  := codec c; codec_ctx := codec_ctx c; yuv2rgb := yuv2rgb c; encoder :=
  encoder c; rgb2yuv := rgb2yuv c; quality := quality c; supports_csc_option
  := supports_csc_option c; encoding_preset := encoding_preset c;
  x264_quality := x264_quality c; colour_sampling := v; profile := profile
  c; preset := preset c; csc_algo := csc_algo c |}.
Definition set_profile (c : x264lib_ctx) (v : option string) : x264lib_ctx :=
  {| width := width c; height := height c; csc_format := csc_format c; codec
  := codec c; codec_ctx := codec_ctx c; yuv2rgb := yuv2rgb c; encoder :=
  encoder c; rgb2yuv := rgb2yuv c; quality := quality c; supports_csc_option
  := supports_csc_option c; encoding_preset := encoding_preset c;
  x264_quality := x264_quality c; colour_sampling := colour_sampling c;
  profile := v; preset := preset c; csc_algo := csc_algo c |}.
Definition set_preset (c : x264lib_ctx) (v : option string) : x264lib_ctx :=
  {| width := width c; height := height c; csc_format := csc_format c; codec
  := codec c; codec_ctx := codec_ctx c; yuv2rgb := yuv2rgb c; encoder :=
  encoder c; rgb2yuv := rgb2yuv c; quality := quality c; supports_csc_option
  := supports_csc_option c; encoding_preset := encoding_preset c;
  x264_quality := x264_quality c; colour_sampling := colour_sampling c;
  profile := profile c; preset := v; csc_algo := csc_algo c |}.
Definition set_csc_algo (c : x264lib_ctx) (v : Z) : x264lib_ctx :=
  {| width := width c; height := height c; csc_format := csc_format c; codec
  := codec c; codec_ctx := codec_ctx c; yuv2rgb := yuv2rgb c; encoder :=
  encoder c; rgb2yuv := rgb2yuv c; quality := quality c; supports_csc_option
  := supports_csc_option c; encoding_preset := encoding_preset c;
  x264_quality := x264_quality c; colour_sampling := colour_sampling c;
  profile := profile c; preset := preset c; csc_algo := v |}.

(** Assignments to the fields of a parameter block. *)
Definition set_param_preset (p : x264_param_t) (v : option string) : x264_param_t :=
  {| param_preset := v; param_tune := param_tune p; param_profile :=
  param_profile p; i_threads := i_threads p; i_width := i_width p; i_height
  := i_height p; i_csp := i_csp p; i_log_level := i_log_level p;
  f_rf_constant := f_rf_constant p |}.
Definition set_param_tune (p : x264_param_t) (v : option string) : x264_param_t :=
  {| param_preset := param_preset p; param_tune := v; param_profile :=
  param_profile p; i_threads := i_threads p; i_width := i_width p; i_height
  := i_height p; i_csp := i_csp p; i_log_level := i_log_level p;
  f_rf_constant := f_rf_constant p |}.
Definition set_param_profile (p : x264_param_t) (v : option string) : x264_param_t :=
  {| param_preset := param_preset p; param_tune := param_tune p;
  param_profile := v; i_threads := i_threads p; i_width := i_width p;
  i_height := i_height p; i_csp := i_csp p; i_log_level := i_log_level p;
  f_rf_constant := f_rf_constant p |}.
Definition set_i_threads (p : x264_param_t) (v : Z) : x264_param_t :=
  {| param_preset := param_preset p; param_tune := param_tune p;
  param_profile := param_profile p; i_threads := v; i_width := i_width p;
  i_height := i_height p; i_csp := i_csp p; i_log_level := i_log_level p;
  f_rf_constant := f_rf_constant p |}.
Definition set_i_width (p : x264_param_t) (v : Z) : x264_param_t :=
  {| param_preset := param_preset p; param_tune := param_tune p;
  param_profile := param_profile p; i_threads := i_threads p; i_width := v;
  i_height := i_height p; i_csp := i_csp p; i_log_level := i_log_level p;
  f_rf_constant := f_rf_constant p |}.
Definition set_i_height (p : x264_param_t) (v : Z) : x264_param_t :=
  {| param_preset := param_preset p; param_tune := param_tune p;
  param_profile := param_profile p; i_threads := i_threads p; i_width :=
  i_width p; i_height := v; i_csp := i_csp p; i_log_level := i_log_level p;
  f_rf_constant := f_rf_constant p |}.
Definition set_i_csp (p : x264_param_t) (v : Z) : x264_param_t :=
  {| param_preset := param_preset p; param_tune := param_tune p;
  param_profile := param_profile p; i_threads := i_threads p; i_width :=
  i_width p; i_height := i_height p; i_csp := v; i_log_level := i_log_level
  p; f_rf_constant := f_rf_constant p |}.
Definition set_i_log_level (p : x264_param_t) (v : Z) : x264_param_t :=
  {| param_preset := param_preset p; param_tune := param_tune p;
  param_profile := param_profile p; i_threads := i_threads p; i_width :=
  i_width p; i_height := i_height p; i_csp := i_csp p; i_log_level := v;
  f_rf_constant := f_rf_constant p |}.
Definition set_f_rf_constant (p : x264_param_t) (v : spec_float) : x264_param_t :=
  {| param_preset := param_preset p; param_tune := param_tune p;
  param_profile := param_profile p; i_threads := i_threads p; i_width :=
  i_width p; i_height := i_height p; i_csp := i_csp p; i_log_level :=
  i_log_level p; f_rf_constant := v |}.

(** The context after [memset(ctx, 0, sizeof(struct x264lib_ctx))]. *)
Definition zeroed_ctx : x264lib_ctx :=
  {| width := 0; height := 0; csc_format := 0; codec := None;
     codec_ctx := None; yuv2rgb := None; encoder := None; rgb2yuv := None;
     quality := 0; supports_csc_option := 0; encoding_preset := 0;
     x264_quality := S754_zero false; colour_sampling := 0; profile := None;
     preset := None; csc_algo := 0 |}.

Section WithHeaders.
Context `{hdr : Headers}.

(** *** The library functions *)

(** [x264_param_default_preset(&param, preset, tune)]. *)
Definition x264_param_default_preset (preset tune : option string)
  : x264_param_t :=
  set_param_tune (set_param_preset x264_param_default preset) tune.

(** [x264_param_apply_profile(&param, profile)]. *)
Definition x264_param_apply_profile (p : x264_param_t)
  (profile : option string) : x264_param_t :=
  set_param_profile p profile.

(** [x264_encoder_open(&param)]: a new encoder holding a copy of the
    parameters, or NULL. *)
Definition x264_encoder_open (p : x264_param_t) : Cmd (option handle) :=
  r <- allocate ;;
  w <- get ;;
  put (match r with
       | Some e => with_encoders w (<[e := p]> (encoders w))
       | None => w
       end) ;;;
  record (Call_x264_encoder_open p r) ;;;
  ret r.

(** The parameters of a live encoder; anything else is undefined. *)
Definition live_encoder (e : option handle) : Cmd (handle * x264_param_t) :=
  h <- deref e ;;
  w <- get ;;
  p <- deref (encoders w !! h) ;;
  ret (h, p).

(** [x264_encoder_close(e)]. *)
Definition x264_encoder_close (e : option handle) : Cmd unit :=
  hp <- live_encoder e ;;
  w <- get ;;
  put (with_encoders w (delete (fst hp) (encoders w))) ;;;
  record (Call_x264_encoder_close (fst hp)).

(** [x264_encoder_parameters(e, &param)]. *)
Definition x264_encoder_parameters (e : option handle) : Cmd x264_param_t :=
  hp <- live_encoder e ;;
  ret (snd hp).

(** [x264_encoder_reconfig(e, &param)]: x264 copies the settings that can
    change on a live encoder (the analysis settings, which the preset, tune
    and profile names stand for, and the rate-control constant) and keeps
    the others. *)
Definition reconfigured (old new : x264_param_t) : x264_param_t :=
  {| param_preset := param_preset new; param_tune := param_tune new;
     param_profile := param_profile new; i_threads := i_threads old;
     i_width := i_width old; i_height := i_height old; i_csp := i_csp old;
     i_log_level := i_log_level old; f_rf_constant := f_rf_constant new |}.

Definition x264_encoder_reconfig (e : option handle) (p : x264_param_t)
  : Cmd unit :=
  hp <- live_encoder e ;;
  w <- get ;;
  put (with_encoders w (<[fst hp := reconfigured (snd hp) p]> (encoders w))) ;;;
  record (Call_x264_encoder_reconfig (fst hp) p).

(** [sws_getContext(srcW, srcH, srcFormat, dstW, dstH, dstFormat, flags,
    NULL, NULL, NULL)]. *)
Definition sws_getContext (sw sh sf dw dh df flags : Z)
  : Cmd (option handle) :=
  let c := {| srcW := sw; srcH := sh; srcFormat := sf;
              dstW := dw; dstH := dh; dstFormat := df; sws_flags := flags |} in
  r <- allocate ;;
  w <- get ;;
  put (match r with
       | Some h => with_scalers w (<[h := c]> (scalers w))
       | None => w
       end) ;;;
  record (Call_sws_getContext c r) ;;;
  ret r.

Definition live_scaler (c : option handle) : Cmd handle :=
  h <- deref c ;;
  w <- get ;;
  deref (scalers w !! h) ;;;
  ret h.

(** [sws_freeContext(c)], for a context that is not NULL. *)
Definition sws_freeContext (c : option handle) : Cmd unit :=
  h <- live_scaler c ;;
  w <- get ;;
  put (with_scalers w (delete h (scalers w))) ;;;
  record (Call_sws_freeContext h).

(** [sws_scale(c, &in, &stride, ...)]. *)
Definition sws_scale (c : option handle) (src : ptr) (stride : Z) : Cmd unit :=
  h <- live_scaler c ;;
  record (Call_sws_scale h src stride).

Definition live_picture (pic : option handle) : Cmd (handle * x264_picture_t) :=
  h <- deref pic ;;
  w <- get ;;
  p <- deref (pictures w !! h) ;;
  ret (h, p).

(** [malloc(sizeof(x264_picture_t))] followed by
    [x264_picture_alloc(pic, i_csp, width, height)]. *)
Definition x264_picture_alloc (i_csp width height : Z) : Cmd (option handle) :=
  h <- fresh ;;
  w <- get ;;
  put (with_pictures w
         (<[h := {| pic_csp := i_csp; pic_width := width; pic_height := height;
                    i_pts := 0; pic_param := None |}]> (pictures w))) ;;;
  record (Call_x264_picture_alloc h) ;;;
  ret (Some h).

(** Assignment to a field of a live picture. *)
Definition update_picture (pic : option handle)
  (f : x264_picture_t -> x264_picture_t) : Cmd unit :=
  hp <- live_picture pic ;;
  w <- get ;;
  put (with_pictures w (<[fst hp := f (snd hp)]> (pictures w))).

(** [x264_encoder_encode(e, &nals, &i_nals, pic_in, &pic_out)]: the frame
    size, negative on error, and [nals[0].p_payload]. *)
Definition x264_encoder_encode (e pic_in : option handle) : Cmd (Z * ptr) :=
  he <- live_encoder e ;;
  hp <- live_picture pic_in ;;
  frame_size <- answer ;;
  payload <- answer ;;
  record (Call_x264_encoder_encode (fst he) (fst hp) frame_size) ;;;
  ret (frame_size, payload).

(** [fprintf(stderr, format, ...)]: the format is logged up to its first
    conversion or line end. *)
Definition fprintf_stderr (msg : string) : Cmd unit :=
  record (Call_stderr msg).

(** [avcodec_find_decoder(id)]: the registered decoder, or NULL. *)
Definition avcodec_find_decoder (id : Z) : Cmd (option Z) :=
  a <- answer ;;
  let r := if a =? 0 then Some id else None in
  record (Call_avcodec_find_decoder id r) ;;;
  ret r.

(** [avcodec_alloc_context3(codec)]. *)
Definition avcodec_alloc_context3 : Cmd (option handle) :=
  r <- allocate ;;
  w <- get ;;
  put (match r with
       | Some h => with_codec_ctxs w (<[h := avcodec_context_default]> (codec_ctxs w))
       | None => w
       end) ;;;
  record (Call_avcodec_alloc_context3 r) ;;;
  ret r.

Definition live_codec_ctx (c : option handle) : Cmd (handle * AVCodecContext) :=
  h <- deref c ;;
  w <- get ;;
  a <- deref (codec_ctxs w !! h) ;;
  ret (h, a).

(** Assignment to the fields of a libavcodec context. *)
Definition update_codec_ctx (c : option handle)
  (f : AVCodecContext -> AVCodecContext) : Cmd unit :=
  ha <- live_codec_ctx c ;;
  w <- get ;;
  put (with_codec_ctxs w (<[fst ha := f (snd ha)]> (codec_ctxs w))).

Definition set_av_opened (a : AVCodecContext) (b : bool) : AVCodecContext :=
  {| av_width := av_width a; av_height := av_height a; pix_fmt := pix_fmt a;
     av_opened := b |}.

(** [avcodec_open2(c, codec, NULL)]: negative on error. *)
Definition avcodec_open2 (c : option handle) : Cmd Z :=
  ha <- live_codec_ctx c ;;
  r <- answer ;;
  (if r <? 0 then ret tt else update_codec_ctx c (fun a => set_av_opened a true)) ;;;
  record (Call_avcodec_open2 (fst ha) r) ;;;
  ret r.

(** [avcodec_close(c)]. *)
Definition avcodec_close (c : option handle) : Cmd unit :=
  ha <- live_codec_ctx c ;;
  update_codec_ctx c (fun a => set_av_opened a false) ;;;
  record (Call_avcodec_close (fst ha)).

(** [av_free(c)]. *)
Definition av_free (c : option handle) : Cmd unit :=
  ha <- live_codec_ctx c ;;
  w <- get ;;
  put (with_codec_ctxs w (delete (fst ha) (codec_ctxs w))) ;;;
  record (Call_av_free (fst ha)).

(** The frame after [avcodec_get_frame_defaults(&picture)]. *)
Definition frame_defaults : AVFrame :=
  {| frame_data := NULL :: NULL :: NULL :: NULL :: nil;
     linesize := 0 :: 0 :: 0 :: 0 :: nil |}.

(** [avcodec_decode_video2(c, &picture, &got_picture, &avpkt)], for a packet
    of [size] bytes at [data]: the number of bytes used, negative on error;
    [got_picture] is non-zero when a frame was produced, and only then is
    [picture] written. *)
Definition avcodec_decode_video2 (c : option handle) (picture : AVFrame)
  (data : ptr) (size : Z) : Cmd (Z * Z * AVFrame) :=
  ha <- live_codec_ctx c ;;
  len <- answer ;;
  got_picture <- answer ;;
  d0 <- answer ;; d1 <- answer ;; d2 <- answer ;;
  l0 <- answer ;; l1 <- answer ;; l2 <- answer ;;
  record (Call_avcodec_decode_video2 (fst ha) data size len got_picture) ;;;
  if (len <? 0) || (got_picture =? 0) then ret (len, 0, picture)
  else ret (len, got_picture,
            {| frame_data := d0 :: d1 :: d2 :: NULL :: nil;
               linesize := l0 :: l1 :: l2 :: 0 :: nil |}).

(** *** The functions of x264lib.c *)

Definition get_encoder_pixel_format (ctx : x264lib_ctx) : Z := csc_format ctx.

Definition get_encoder_quality (ctx : x264lib_ctx) : Z := quality ctx.

(** [get_x264_colour_sampling], with [SUPPORT_CSC_MODES] defined. *)
Definition get_x264_colour_sampling (ctx : x264lib_ctx) (pct : Z) : Z :=
  if (supports_csc_option ctx =? 0) || (pct <? I422_MIN_QUALITY)
  then X264_CSP_I420
  else if pct <? I444_MIN_QUALITY then X264_CSP_I422
  else X264_CSP_I444.

Definition get_csc_format_for_x264_format (i_csp : Z) : Z :=
  if i_csp =? X264_CSP_I420 then PIX_FMT_YUV420P
  else if i_csp =? X264_CSP_I422 then PIX_FMT_YUV422P
  else if i_csp =? X264_CSP_I444 then PIX_FMT_YUV444P
  else -1.

Definition get_csc_algo_for_quality (initial_quality : Z) : Z :=
  Z.lor SWS_SINC SWS_ACCURATE_RND.

Definition PROFILE_BASELINE : string := "baseline".
Definition PROFILE_MAIN : string := "main".
Definition PROFILE_HIGH : string := "high".
Definition PROFILE_HIGH10 : string := "high10".
Definition PROFILE_HIGH422 : string := "high422".
Definition PROFILE_HIGH444_PREDICTIVE : string := "high444".

Definition get_profile_for_quality (pct : Z) : string :=
  if pct <? I422_MIN_QUALITY then PROFILE_BASELINE
  else if pct <? I444_MIN_QUALITY then PROFILE_HIGH422
  else PROFILE_HIGH444_PREDICTIVE.

(** [init_encoder_csc]: returns the context as it leaves it, and the new
    converter. *)
Definition init_encoder_csc (ctx : x264lib_ctx)
  : Cmd (x264lib_ctx * option handle) :=
  ctx <- (match rgb2yuv ctx with
          | Some _ => sws_freeContext (rgb2yuv ctx) ;;;
                      ret (set_rgb2yuv ctx None)
          | None => ret ctx
          end) ;;
  r <- sws_getContext (width ctx) (height ctx) PIX_FMT_RGB24
                      (width ctx) (height ctx) (csc_format ctx)
                      (csc_algo ctx) ;;
  ret (ctx, r).

(** [x264_preset_names[i]]: reading outside the array is undefined. *)
Definition preset_name (i : Z) : Cmd (option string) :=
  if i <? 0 then crash else deref (nth_error x264_preset_names (Z.to_nat i)).

Definition do_init_encoder (ctx : x264lib_ctx)
  (width height initial_quality supports_csc_option : Z) : Cmd x264lib_ctx :=
  let ctx := set_quality ctx initial_quality in
  let ctx := set_supports_csc_option ctx supports_csc_option in
  let ctx := set_colour_sampling ctx (get_x264_colour_sampling ctx initial_quality) in
  let ctx := set_x264_quality ctx (get_x264_quality initial_quality) in
  let ctx := set_csc_format ctx (get_csc_format_for_x264_format (colour_sampling ctx)) in
  let ctx := set_encoding_preset ctx 2 in
  name <- preset_name (encoding_preset ctx) ;;
  let ctx := set_preset ctx name in
  let ctx := set_profile ctx (Some (get_profile_for_quality initial_quality)) in
  let ctx := set_csc_algo ctx (get_csc_algo_for_quality initial_quality) in
  let param := x264_param_default_preset (preset ctx) (Some "zerolatency"%string) in
  let param := set_i_threads param 1 in
  let param := set_i_width param width in
  let param := set_i_height param height in
  let param := set_i_csp param (colour_sampling ctx) in
  let param := set_f_rf_constant param (x264_quality ctx) in
  let param := set_i_log_level param 0 in
  let param := x264_param_apply_profile param (profile ctx) in
  e <- x264_encoder_open param ;;
  let ctx := set_encoder ctx e in
  let ctx := set_width ctx width in
  let ctx := set_height ctx height in
  cr <- init_encoder_csc ctx ;;
  ret (set_rgb2yuv (fst cr) (snd cr)).

Definition init_encoder (width height initial_quality supports_csc_option : Z)
  : Cmd x264lib_ctx :=
  do_init_encoder zeroed_ctx width height initial_quality supports_csc_option.

Definition clean_encoder (ctx : x264lib_ctx) : Cmd x264lib_ctx :=
  ctx <- (match rgb2yuv ctx with
          | Some _ => sws_freeContext (rgb2yuv ctx) ;;;
                      ret (set_rgb2yuv ctx None)
          | None => ret ctx
          end) ;;
  match encoder ctx with
  | Some _ => x264_encoder_close (encoder ctx) ;;;
              ret (set_encoder ctx None)
  | None => ret ctx
  end.

(** Assignments [ctx->codec_ctx->width = ...], [->height], [->pix_fmt]. *)
Definition set_av_width (a : AVCodecContext) (v : Z) : AVCodecContext :=
  {| av_width := v; av_height := av_height a; pix_fmt := pix_fmt a;
     av_opened := av_opened a |}.
Definition set_av_height (a : AVCodecContext) (v : Z) : AVCodecContext :=
  {| av_width := av_width a; av_height := v; pix_fmt := pix_fmt a;
     av_opened := av_opened a |}.
Definition set_pix_fmt (a : AVCodecContext) (v : Z) : AVCodecContext :=
  {| av_width := av_width a; av_height := av_height a; pix_fmt := v;
     av_opened := av_opened a |}.

(** [init_decoder_context]: the context as it leaves it, and the result
    (messages are logged without their line end). *)
Definition init_decoder_context (ctx : x264lib_ctx)
  (width height csc_fmt : Z) : Cmd (x264lib_ctx * Z) :=
  let csc_fmt := if csc_fmt <? 0 then PIX_FMT_YUV420P else csc_fmt in
  let ctx := set_width ctx width in
  let ctx := set_height ctx height in
  let ctx := set_csc_format ctx csc_fmt in
  let ctx := set_csc_algo ctx (get_csc_algo_for_quality 100) in
  y <- sws_getContext (X264.width ctx) (X264.height ctx) (csc_format ctx)
                      (X264.width ctx) (X264.height ctx) PIX_FMT_RGB24
                      (csc_algo ctx) ;;
  let ctx := set_yuv2rgb ctx y in
  c <- avcodec_find_decoder CODEC_ID_H264 ;;
  let ctx := set_codec ctx c in
  match codec ctx with
  | None => fprintf_stderr "codec H264 not found!" ;;; ret (ctx, 1)
  | Some _ =>
      cc <- avcodec_alloc_context3 ;;
      let ctx := set_codec_ctx ctx cc in
      update_codec_ctx (codec_ctx ctx) (fun a => set_av_width a (X264.width ctx)) ;;;
      update_codec_ctx (codec_ctx ctx) (fun a => set_av_height a (X264.height ctx)) ;;;
      update_codec_ctx (codec_ctx ctx) (fun a => set_pix_fmt a csc_fmt) ;;;
      r <- avcodec_open2 (codec_ctx ctx) ;;
      if r <? 0 then fprintf_stderr "could not open codec" ;;; ret (ctx, 1)
      else ret (ctx, 0)
  end.

(** [init_decoder]: NULL when the initialisation fails. *)
Definition init_decoder (width height csc_fmt : Z) : Cmd (option x264lib_ctx) :=
  cr <- init_decoder_context zeroed_ctx width height csc_fmt ;;
  if snd cr =? 0 then ret (Some (fst cr)) else ret None.

Definition clean_decoder (ctx : x264lib_ctx) : Cmd x264lib_ctx :=
  ctx <- (match codec_ctx ctx with
          | Some _ => avcodec_close (codec_ctx ctx) ;;;
                      av_free (codec_ctx ctx) ;;;
                      ret (set_codec_ctx ctx None)
          | None => ret ctx
          end) ;;
  match yuv2rgb ctx with
  | Some _ => sws_freeContext (yuv2rgb ctx) ;;;
              ret (set_yuv2rgb ctx None)
  | None => ret ctx
  end.

(** [csc_image_rgb2yuv]: the converted picture, or NULL. *)
Definition csc_image_rgb2yuv (ctx : x264lib_ctx) (in_ : ptr) (stride : Z)
  : Cmd (option handle) :=
  match encoder ctx, rgb2yuv ctx with
  | Some _, Some _ =>
      pic_in <- x264_picture_alloc (colour_sampling ctx) (width ctx) (height ctx) ;;
      sws_scale (rgb2yuv ctx) in_ stride ;;;
      ret pic_in
  | _, _ => ret None
  end.

(** [free_csc_image]: [x264_picture_clean(image); free(image);]. *)
Definition free_csc_image (image : option handle) : Cmd unit :=
  hp <- live_picture image ;;
  w <- get ;;
  put (with_pictures w (delete (fst hp) (pictures w))) ;;;
  record (Call_free_picture (fst hp)).

(** The cells [*out] and [*outsz] of the caller. *)
Record outbuf := { out : ptr; outsz : Z }.

Definition set_pic_i_pts (p : x264_picture_t) (v : Z) : x264_picture_t :=
  {| pic_csp := pic_csp p; pic_width := pic_width p; pic_height := pic_height p;
     i_pts := v; pic_param := pic_param p |}.
Definition set_pic_param (p : x264_picture_t) (v : option x264_param_t)
  : x264_picture_t :=
  {| pic_csp := pic_csp p; pic_width := pic_width p; pic_height := pic_height p;
     i_pts := i_pts p; pic_param := v |}.

(** [compress_image]: the result, and the cells [*out], [*outsz] as it
    leaves them. *)
Definition compress_image (ctx : x264lib_ctx) (pic_in : option handle)
  (o : outbuf) (quality_override : Z) : Cmd (Z * outbuf) :=
  match encoder ctx, rgb2yuv ctx with
  | Some _, Some _ =>
      update_picture pic_in (fun p => set_pic_i_pts p 1) ;;;
      (if 0 <=? quality_override then
         let new_q := get_x264_quality quality_override in
         if fneq new_q (x264_quality ctx) then
           param <- x264_encoder_parameters (encoder ctx) ;;
           let param := set_f_rf_constant param new_q in
           update_picture pic_in (fun p => set_pic_param p (Some param))
         else ret tt
       else ret tt) ;;;
      fp <- x264_encoder_encode (encoder ctx) pic_in ;;
      let frame_size := fst fp in
      if frame_size <? 0 then
        fprintf_stderr "Problem during x264_encoder_encode: frame_size is invalid!" ;;;
        free_csc_image pic_in ;;;
        ret (2, {| out := NULL; outsz := 0 |})
      else
        free_csc_image pic_in ;;;
        ret (0, {| out := snd fp; outsz := frame_size |})
  | _, _ =>
      free_csc_image pic_in ;;;
      ret (1, {| out := NULL; outsz := 0 |})
  end.

Definition set_decoder_csc_format (ctx : x264lib_ctx) (csc_fmt : Z)
  : Cmd x264lib_ctx :=
  let csc_fmt := if csc_fmt <? 0 then PIX_FMT_YUV420P else csc_fmt in
  if negb (csc_format ctx =? csc_fmt) then
    ctx <- clean_decoder ctx ;;
    cr <- init_decoder_context ctx (width ctx) (height ctx) csc_fmt ;;
    (if negb (snd cr =? 0)
     then fprintf_stderr "Failed to reconfigure decoder" else ret tt) ;;;
    ret (fst cr)
  else ret ctx.

(** The arrays [*out], [*outstride] (three elements each) and the cell
    [*outsize] of the caller of [decompress_image]. *)
Record decoded := {
  dec_out : list ptr;
  dec_outsize : Z;
  dec_outstride : list Z }.

(** The loop [for (i = 0; i < 3; i++)] of [decompress_image], from [i] for
    [n] rounds. *)
Fixpoint copy_planes (height : Z) (picture : AVFrame) (i n : nat)
  (o : decoded) : decoded :=
  match n with
  | O => o
  | S n' =>
      copy_planes height picture (S i) n'
        {| dec_out := <[i := nth i (frame_data picture) NULL]> (dec_out o);
           dec_outsize :=
             wrap_int (dec_outsize o
                       + wrap_int (height * nth i (linesize picture) 0));
           dec_outstride := <[i := nth i (linesize picture) 0]> (dec_outstride o) |}
  end.

Definition set_dec_out (o : decoded) (v : list ptr) : decoded :=
  {| dec_out := v; dec_outsize := dec_outsize o;
     dec_outstride := dec_outstride o |}.

(** [decompress_image]: the result, and the caller's cells as it leaves
    them. *)
Definition decompress_image (ctx : x264lib_ctx) (in_ : ptr) (size : Z)
  (o : decoded) : Cmd (Z * decoded) :=
  match codec_ctx ctx, codec ctx with
  | Some _, Some _ =>
      r <- avcodec_decode_video2 (codec_ctx ctx) frame_defaults in_ size ;;
      let len := fst (fst r) in
      let picture := snd r in
      if len <? 0 then
        fprintf_stderr "Error while decoding frame" ;;;
        ret (2, set_dec_out o (NULL :: NULL :: NULL :: nil))
      else
        let o := copy_planes (height ctx) picture 0 3 o in
        if dec_outsize o =? 0 then
          fprintf_stderr "Decoded image, size" ;;;
          ret (3, o)
        else ret (0, o)
  | _, _ => ret (1, o)
  end.

Definition set_encoding_speed (ctx : x264lib_ctx) (pct : Z) : Cmd x264lib_ctx :=
  param <- x264_encoder_parameters (encoder ctx) ;;
  new_preset <- deref (new_preset pct) ;;
  if new_preset =? encoding_preset ctx then ret ctx
  else
    let ctx := set_encoding_preset ctx new_preset in
    name <- preset_name (encoding_preset ctx) ;;
    let param := x264_param_default_preset name (Some "zerolatency"%string) in
    let param := x264_param_apply_profile param (Some "baseline"%string) in
    x264_encoder_reconfig (encoder ctx) param ;;;
    ret ctx.

Definition set_encoding_quality (ctx : x264lib_ctx) (pct : Z) : Cmd x264lib_ctx :=
  if negb (supports_csc_option ctx =? 0)
     && negb (colour_sampling ctx =? get_x264_colour_sampling ctx pct)
  then
    (* pixel encoding has changed, we must re-init everything *)
    ctx <- clean_encoder ctx ;;
    do_init_encoder ctx (width ctx) (height ctx) pct (supports_csc_option ctx)
  else
    ctx <- (if negb (Z.land (quality ctx) (Z.lnot 1) =? Z.land pct (Z.lnot 1))
            then
              let new_quality := get_x264_quality pct in
              param <- x264_encoder_parameters (encoder ctx) ;;
              let ctx := set_quality ctx pct in
              let ctx := set_x264_quality ctx new_quality in
              let param := set_f_rf_constant param new_quality in
              x264_encoder_reconfig (encoder ctx) param ;;;
              ret ctx
            else ret ctx) ;;
    let old_csc_algo := csc_algo ctx in
    let ctx := set_csc_algo ctx (get_csc_algo_for_quality pct) in
    if negb (old_csc_algo =? csc_algo ctx) then
      cr <- init_encoder_csc ctx ;;
      ret (set_rgb2yuv (fst cr) (snd cr))
    else ret ctx.

End WithHeaders.

End X264.

(** ** vpxlib.c *)

Module Vpx.

(** The fields of [vpx_image_t] this code works with.  [img_data_live] tells
    whether the pixel buffer of the image is allocated; [self_allocd] whether
    libvpx allocated the descriptor itself (it did not when the descriptor
    was handed to [vpx_img_alloc], as [csc_image_rgb2yuv] does). *)
Record vpx_image_t := {
  img_w : Z; img_h : Z; d_w : Z; d_h : Z;
  x_chroma_shift : Z; y_chroma_shift : Z; bps : Z;
  planes : list ptr;
  stride : list Z;
  img_data_live : bool;
  self_allocd : bool }.

(** A [vpx_codec_cx_pkt_t]: its kind and [data.frame.buf], [data.frame.sz]. *)
Record vpx_codec_cx_pkt_t := {
  kind : Z;
  frame_buf : ptr;
  frame_sz : Z }.

(** The fields [planes], [stride] and [h] of a frame returned by the
    decoder. *)
Record decoded_frame := {
  frame_planes : list ptr;
  frame_stride : list Z;
  frame_h : Z }.

Inductive call :=
| Call_vpx_codec_encode (img : handle) (r : Z)
| Call_vpx_codec_get_cx_data (r : option vpx_codec_cx_pkt_t)
| Call_vpx_img_free (img : handle)
| Call_vpx_codec_decode (data : ptr) (size : Z) (r : Z)
| Call_vpx_codec_get_frame (r : option decoded_frame)
| Call_printf (msg : string).

Record world := {
  (** the image descriptors that are allocated *)
  images : gmap handle vpx_image_t;
  (** the library calls made so far, latest first *)
  log : list call;
  (** the values libvpx is going to return; 0 when exhausted *)
  env : list Z }.

Definition with_images (w : world) (m : gmap handle vpx_image_t) : world :=
  {| images := m; log := log w; env := env w |}.
Definition with_log (w : world) (l : list call) : world :=
  {| images := images w; log := l; env := env w |}.
Definition with_env (w : world) (l : list Z) : world :=
  {| images := images w; log := log w; env := l |}.

(** [struct vpx_context]; the embedded [vpx_codec_ctx_t codec] is state of
    libvpx. *)
Record vpx_context := {
  rgb2yuv : option handle;
  yuv2rgb : option handle;
  width : Z;
  height : Z }.

(** The cells [*out] and [*outsz] of the caller of [compress_image]. *)
Record outbuf := { out : ptr; outsz : Z }.

(** The arrays [*out], [*outstride] and the cell [*outsize] of the caller of
    [decompress_image]. *)
Record decoded := {
  dec_out : list ptr;
  dec_outsize : Z;
  dec_outstride : list Z }.

Local Open Scope cmd_scope.

Definition Cmd (A : Type) : Type := M world A.

Definition answer : Cmd Z :=
  fun w => match env w with
           | nil => Some (0, w)
           | a :: rest => Some (a, with_env w rest)
           end.

Definition record (c : call) : Cmd unit :=
  fun w => Some (tt, with_log w (c :: log w)).

Definition deref {A} (p : option A) : Cmd A :=
  match p with
  | Some a => ret a
  | None => crash
  end.

Definition live_image (image : option handle) : Cmd (handle * vpx_image_t) :=
  h <- deref image ;;
  w <- get ;;
  i <- deref (images w !! h) ;;
  ret (h, i).

(** Assignment to fields of a live image. *)
Definition update_image (image : option handle)
  (f : vpx_image_t -> vpx_image_t) : Cmd unit :=
  hi <- live_image image ;;
  w <- get ;;
  put (with_images w (<[fst hi := f (snd hi)]> (images w))).

(** [image->x_chroma_shift = 0; image->y_chroma_shift = 0; image->bps = 8;] *)
Definition set_encoding_fields (i : vpx_image_t) : vpx_image_t :=
  {| img_w := img_w i; img_h := img_h i; d_w := d_w i; d_h := d_h i;
     x_chroma_shift := 0; y_chroma_shift := 0; bps := 8;
     planes := planes i; stride := stride i;
     img_data_live := img_data_live i; self_allocd := self_allocd i |}.

Definition release_data (i : vpx_image_t) : vpx_image_t :=
  {| img_w := img_w i; img_h := img_h i; d_w := d_w i; d_h := d_h i;
     x_chroma_shift := x_chroma_shift i; y_chroma_shift := y_chroma_shift i;
     bps := bps i; planes := planes i; stride := stride i;
     img_data_live := false; self_allocd := self_allocd i |}.

(** [vpx_img_free(img)]: frees the pixel buffer, and the descriptor when
    libvpx allocated it. *)
Definition vpx_img_free (image : option handle) : Cmd unit :=
  hi <- live_image image ;;
  w <- get ;;
  put (with_images w
         (if self_allocd (snd hi) then delete (fst hi) (images w)
          else <[fst hi := release_data (snd hi)]> (images w))) ;;;
  record (Call_vpx_img_free (fst hi)).

(** [vpx_codec_encode(&ctx->codec, image, ...)]: 0 on success. *)
Definition vpx_codec_encode (image : option handle) : Cmd Z :=
  hi <- live_image image ;;
  r <- answer ;;
  record (Call_vpx_codec_encode (fst hi) r) ;;;
  ret r.

(** [vpx_codec_get_cx_data(&ctx->codec, &iter)]: the next packet, or NULL. *)
Definition vpx_codec_get_cx_data : Cmd (option vpx_codec_cx_pkt_t) :=
  a <- answer ;;
  k <- answer ;;
  b <- answer ;;
  s <- answer ;;
  let r := if a =? 0
           then Some {| kind := k; frame_buf := b; frame_sz := s |}
           else None in
  record (Call_vpx_codec_get_cx_data r) ;;;
  ret r.

(** [vpx_codec_decode(&ctx->codec, frame, frame_sz, NULL, 0)]. *)
Definition vpx_codec_decode (data : ptr) (size : Z) : Cmd Z :=
  r <- answer ;;
  record (Call_vpx_codec_decode data size r) ;;;
  ret r.

(** [vpx_codec_get_frame(&ctx->codec, &iter)]: the next decoded frame, owned
    by libvpx, or NULL. *)
Definition vpx_codec_get_frame : Cmd (option decoded_frame) :=
  a <- answer ;;
  p0 <- answer ;; p1 <- answer ;; p2 <- answer ;;
  s0 <- answer ;; s1 <- answer ;; s2 <- answer ;;
  h <- answer ;;
  let r := if a =? 0
           then Some {| frame_planes := p0 :: p1 :: p2 :: NULL :: nil;
                        frame_stride := s0 :: s1 :: s2 :: 0 :: nil;
                        frame_h := h |}
           else None in
  record (Call_vpx_codec_get_frame r) ;;;
  ret r.

(** [codec_error]: prints the name of the failed call. *)
Definition codec_error (s : string) : Cmd unit :=
  record (Call_printf s).

Section WithHeaders.
Context `{hdr : Headers}.

(** [compress_image]: the result, and the cells [*out], [*outsz] as it
    leaves them. *)
Definition compress_image (ctx : vpx_context) (image : option handle)
  (o : outbuf) : Cmd (Z * outbuf) :=
  update_image image set_encoding_fields ;;;
  i <- vpx_codec_encode image ;;
  if negb (i =? 0) then
    codec_error "vpx_codec_encode" ;;;
    vpx_img_free image ;;;
    ret (i, o)
  else
    p <- vpx_codec_get_cx_data ;;
    pkt <- deref p ;;
    if negb (kind pkt =? VPX_CODEC_CX_FRAME_PKT) then
      vpx_img_free image ;;;
      ret (1, o)
    else
      let o := {| out := frame_buf pkt; outsz := wrap_int (frame_sz pkt) |} in
      vpx_img_free image ;;;
      ret (0, o).

(** The loop [for (i = 0; i < 3; i++)] of [decompress_image], from [i] for
    [n] rounds. *)
Fixpoint copy_planes (img : decoded_frame) (i n : nat) (o : decoded)
  : decoded :=
  match n with
  | O => o
  | S n' =>
      copy_planes img (S i) n'
        {| dec_out := <[i := nth i (frame_planes img) NULL]> (dec_out o);
           dec_outsize :=
             wrap_int (dec_outsize o
                            + wrap_int (nth i (frame_stride img) 0 * frame_h img));
           dec_outstride := <[i := nth i (frame_stride img) 0]> (dec_outstride o) |}
  end.

Definition set_dec_outsize (o : decoded) (v : Z) : decoded :=
  {| dec_out := dec_out o; dec_outsize := v;
     dec_outstride := dec_outstride o |}.

(** [decompress_image]: the result, and the caller's cells as it leaves
    them. *)
Definition decompress_image (ctx : vpx_context) (in_ : ptr) (size : Z)
  (o : decoded) : Cmd (Z * decoded) :=
  r <- vpx_codec_decode in_ size ;;
  if negb (r =? 0) then
    codec_error "vpx_codec_decode" ;;;
    ret (-1, o)
  else
    img <- vpx_codec_get_frame ;;
    match img with
    | None =>
        codec_error "vpx_codec_get_frame" ;;;
        ret (-1, o)
    | Some img =>
        let o := set_dec_outsize o 0 in
        ret (0, copy_planes img 0 3 o)
    end.

End WithHeaders.

End Vpx.

(** ** What the properties are stated with *)

(** The integers [n - 1], ..., [0]: the percentages are [below 101]. *)
Fixpoint below (n : nat) : list Z :=
  match n with
  | O => nil
  | S k => Z.of_nat k :: below k
  end.

Module X264Props.
Import X264.

Section WithHeaders.
Context `{hdr : Headers}.

(** The profile is the one that goes with the colour sampling. *)
Definition consistent (ctx : x264lib_ctx) : Prop :=
  (colour_sampling ctx = X264_CSP_I420
   /\ profile ctx = Some PROFILE_BASELINE)
  \/ (colour_sampling ctx = X264_CSP_I422
      /\ profile ctx = Some PROFILE_HIGH422)
  \/ (colour_sampling ctx = X264_CSP_I444
      /\ profile ctx = Some PROFILE_HIGH444_PREDICTIVE).

(** The encoder contexts obtained by [init_encoder] at quality [q0] with the
    flag [s0], followed by any number of calls of [set_encoding_quality]. *)
Inductive opened_with (q0 s0 : Z) : x264lib_ctx -> world -> Prop :=
| opened_init width height w ctx w' :
    init_encoder width height q0 s0 w = Some (ctx, w') ->
    opened_with q0 s0 ctx w'
| opened_set_quality ctx w pct ctx' w' :
    opened_with q0 s0 ctx w ->
    set_encoding_quality ctx pct w = Some (ctx', w') ->
    opened_with q0 s0 ctx' w'.

(** The rate-control constant of the encoder of a context. *)
Definition engine_quantizer (ctx : x264lib_ctx) (w : world)
  : option spec_float :=
  match encoder ctx with
  | Some e => match encoders w !! e with
              | Some p => Some (f_rf_constant p)
              | None => None
              end
  | None => None
  end.


(** The state in which [decompress_image] refuses to decode. *)
Definition refuses_decoding (ctx : x264lib_ctx) : Prop :=
  codec_ctx ctx = None \/ codec ctx = None.

End WithHeaders.

End X264Props.

Module VpxProps.
Import Vpx.

(** The pixel buffer of the image at [h] is not allocated (any more). *)
Definition buffer_released (w : world) (h : handle) : Prop :=
  match images w !! h with
  | Some i => img_data_live i = false
  | None => True
  end.

End VpxProps.

(** ** Concrete runs

    The runs below use the header values of 2012 and start from [world0],
    in which the libraries return 0 (success) unless [env] says otherwise. *)

Module Samples.
Import X264.

(** The result of a command that returns, or [d]. *)
Definition result {A : Type} (r : option (A * world)) (d : A) : A * world :=
  match r with
  | Some aw => aw
  | None => (d, world0)
  end.

(** [init_encoder(640, 480, 50, 1)]: chroma switching enabled. *)
Definition opened50 : x264lib_ctx * world :=
  Eval vm_compute in
    result (init_encoder (hdr := headers_2012) 640 480 50 1 world0) zeroed_ctx.

(** [init_encoder(640, 480, 85, 0)]: chroma switching disabled. *)
Definition opened85_fixed : x264lib_ctx * world :=
  Eval vm_compute in
    result (init_encoder (hdr := headers_2012) 640 480 85 0 world0) zeroed_ctx.

(** [set_encoding_quality(ctx, 95)] on [opened50]. *)
Definition opened50_then95 : x264lib_ctx * world :=
  Eval vm_compute in
    result (set_encoding_quality (hdr := headers_2012)
              (fst opened50) 95 (snd opened50)) zeroed_ctx.

(** A world in which the fourth library call of the second initialisation
    of a decoder, [avcodec_open2], returns -1. *)
Definition world_open2_fails : world :=
  with_env world0 (0 :: 0 :: 0 :: 0 :: 0 :: 0 :: 0 :: -1 :: nil).

(** [init_decoder(640, 480, PIX_FMT_YUV420P)]. *)
Definition decoder420 : x264lib_ctx * world :=
  Eval vm_compute in
    match init_decoder (hdr := headers_2012) 640 480 0 world_open2_fails with
    | Some (Some ctx, w) => (ctx, w)
    | _ => (zeroed_ctx, world0)
    end.

(** [set_decoder_csc_format(ctx, PIX_FMT_YUV444P)] on [decoder420]: the
    re-initialisation fails in [avcodec_open2]. *)
Definition decoder_failed444 : x264lib_ctx * world :=
  Eval vm_compute in
    result (set_decoder_csc_format (hdr := headers_2012)
              (fst decoder420) 5 (snd decoder420)) zeroed_ctx.


(** The address of a compressed packet of 1377 bytes. *)
Definition packet : ptr := 8192.

(** The caller's cells before a call of [decompress_image]. *)
Definition cleared : decoded :=
  {| dec_out := NULL :: NULL :: NULL :: nil; dec_outsize := 0;
     dec_outstride := 0 :: 0 :: 0 :: nil |}.

End Samples.

Module VpxSamples.
Import Vpx.

Definition a_context : vpx_context :=
  {| rgb2yuv := Some 1%positive; yuv2rgb := None; width := 640; height := 480 |}.

(** A 640x480 I420 image as [csc_image_rgb2yuv] builds it. *)
Definition an_image : vpx_image_t :=
  {| img_w := 640; img_h := 480; d_w := 640; d_h := 480;
     x_chroma_shift := 1; y_chroma_shift := 1; bps := 12;
     planes := 4096 :: 311296 :: 388096 :: NULL :: nil;
     stride := 640 :: 320 :: 320 :: 0 :: nil;
     img_data_live := true; self_allocd := false |}.

(** The image at address 2; libvpx returns the values [answers]. *)
Definition world_with (answers : list Z) : world :=
  {| images := {[ 2%positive := an_image ]}; log := nil; env := answers |}.

(** Cells of a caller that hold the result of an earlier frame. *)
Definition stale : outbuf := {| out := 8192; outsz := 1377 |}.

(** The address of a compressed packet of 1377 bytes. *)
Definition packet : ptr := 8192.

(** The caller's cells before a call of [decompress_image]. *)
Definition cleared : decoded :=
  {| dec_out := NULL :: NULL :: NULL :: nil; dec_outsize := 0;
     dec_outstride := 0 :: 0 :: 0 :: nil |}.

End VpxSamples.

(** ** Sessions of an encoder and of a decoder *)

Module X264Sessions.
Import X264.

Section WithHeaders.
Context `{hdr : Headers}.

(** What a caller does with an encoder, starting in the world [w0]: it
    opens it, then changes the quality or the speed, or encodes a frame
    ([csc_image_rgb2yuv], then [compress_image] on the picture). *)
Inductive encoder_session (w0 : world) : x264lib_ctx -> world -> Prop :=
| session_open width height q s ctx w :
    init_encoder width height q s w0 = Some (ctx, w) ->
    encoder_session w0 ctx w
| session_quality ctx w pct ctx' w' :
    encoder_session w0 ctx w ->
    set_encoding_quality ctx pct w = Some (ctx', w') ->
    encoder_session w0 ctx' w'
| session_speed ctx w pct ctx' w' :
    encoder_session w0 ctx w ->
    set_encoding_speed ctx pct w = Some (ctx', w') ->
    encoder_session w0 ctx' w'
| session_frame ctx w in_ stride pic_in w1 o quality_override r w' :
    encoder_session w0 ctx w ->
    csc_image_rgb2yuv ctx in_ stride w = Some (pic_in, w1) ->
    compress_image ctx pic_in o quality_override w1 = Some (r, w') ->
    encoder_session w0 ctx w'.

(** The converter [init_encoder_csc] asks for. *)
Definition encoder_converter (ctx : x264lib_ctx) : SwsContext :=
  {| srcW := width ctx; srcH := height ctx; srcFormat := PIX_FMT_RGB24;
     dstW := width ctx; dstH := height ctx; dstFormat := csc_format ctx;
     sws_flags := csc_algo ctx |}.

(** The library objects of the world are exactly those of the context: its
    encoder, set to the colour sampling and the size of the context, its
    converter, from RGB24 to the pixel format of the context, and no
    picture. *)
Definition encoder_owns (ctx : x264lib_ctx) (w : world) : Prop :=
  match encoder ctx with
  | Some e => exists p, encoders w = {[ e := p ]}
                        /\ i_csp p = colour_sampling ctx
                        /\ i_width p = width ctx
                        /\ i_height p = height ctx
  | None => encoders w = ∅
  end
  /\ match rgb2yuv ctx with
     | Some c => scalers w = {[ c := encoder_converter ctx ]}
     | None => scalers w = ∅
     end
  /\ pictures w = ∅
  /\ csc_format ctx = get_csc_format_for_x264_format (colour_sampling ctx).

(** What a caller does with a decoder. *)
Inductive decoder_session (w0 : world) : x264lib_ctx -> world -> Prop :=
| dsession_open width height csc_fmt ctx w :
    init_decoder width height csc_fmt w0 = Some (Some ctx, w) ->
    decoder_session w0 ctx w
| dsession_format ctx w csc_fmt ctx' w' :
    decoder_session w0 ctx w ->
    set_decoder_csc_format ctx csc_fmt w = Some (ctx', w') ->
    decoder_session w0 ctx' w'
| dsession_frame ctx w in_ size o r w' :
    decoder_session w0 ctx w ->
    decompress_image ctx in_ size o w = Some (r, w') ->
    decoder_session w0 ctx w'.

(** The converter [init_decoder_context] asks for. *)
Definition decoder_converter (ctx : x264lib_ctx) : SwsContext :=
  {| srcW := width ctx; srcH := height ctx; srcFormat := csc_format ctx;
     dstW := width ctx; dstH := height ctx; dstFormat := PIX_FMT_RGB24;
     sws_flags := csc_algo ctx |}.

(** The library objects of the world are exactly those of the context: its
    codec context, set to the size and the format of the context, and its
    converter, from that format to RGB24. *)
Definition decoder_owns (ctx : x264lib_ctx) (w : world) : Prop :=
  match codec_ctx ctx with
  | Some c => exists a, codec_ctxs w = {[ c := a ]}
                        /\ pix_fmt a = csc_format ctx
                        /\ av_width a = width ctx
                        /\ av_height a = height ctx
  | None => codec_ctxs w = ∅
  end
  /\ match yuv2rgb ctx with
     | Some c => scalers w = {[ c := decoder_converter ctx ]}
     | None => scalers w = ∅
     end.

(** The context of [init_decoder_context] once the converter [y] and the
    decoder [c] are stored in it. *)
Definition decoder_base (ctx : x264lib_ctx) (width height f : Z)
  (y : option handle) (c : option Z) : x264lib_ctx :=
  set_codec
    (set_yuv2rgb
       (set_csc_algo
          (set_csc_format (set_height (set_width ctx width) height) f)
          (get_csc_algo_for_quality 100)) y) c.

(** A world without library objects. *)
Definition empty_tables (w : world) : Prop :=
  encoders w = ∅ /\ scalers w = ∅ /\ pictures w = ∅ /\ codec_ctxs w = ∅.

End WithHeaders.

End X264Sessions.

(** ** vpxlib.c: the life of a context and of an image *)

(** The fields of [vpx_codec_enc_cfg_t] that vpxlib.c assigns; all three
    are [unsigned int]. *)
Record vpx_codec_enc_cfg_t := {
  g_w : Z;
  g_h : Z;
  rc_target_bitrate : Z }.

(** What this part of vpxlib.c takes from the headers of libswscale and
    libvpx, and the configuration [vpx_codec_enc_config_default] fills
    in. *)
Class VpxHeaders := {
  SWS_FAST_BILINEAR : Z;
  VPX_IMG_FMT_I420 : Z;
  vpx_enc_cfg_default : vpx_codec_enc_cfg_t }.

(** The values of FFmpeg 1.0 and of the VP8 encoder of libvpx 1.1. *)
Definition vpx_headers_2012 : VpxHeaders := {|
  SWS_FAST_BILINEAR := 1;
  VPX_IMG_FMT_I420 := 258;
  vpx_enc_cfg_default := {| g_w := 320; g_h := 240; rc_target_bitrate := 256 |}
|}.

Module VpxLife.
Import CNum.

(** Conversion to [unsigned int]. *)
Definition to_uint (z : Z) : Z := z mod 2 ^ 32.

(** What [vpx_codec_enc_init] or [vpx_codec_dec_init] has set up in the
    [codec] member of a context. *)
Inductive codec_state :=
| Encoding (cfg : vpx_codec_enc_cfg_t)
| Decoding.

Inductive call :=
| Call_vpx_codec_enc_config_default (r : Z)
| Call_malloc (r : handle)
| Call_free (p : handle)
| Call_vpx_codec_enc_init (ctx : handle) (cfg : vpx_codec_enc_cfg_t) (r : Z)
| Call_vpx_codec_dec_init (ctx : handle) (r : Z)
| Call_vpx_codec_destroy (ctx : handle)
| Call_sws_getContext (c : X264.SwsContext) (r : option handle)
| Call_vpx_img_alloc (img : handle) (fmt d_w d_h : Z) (ok : bool)
| Call_sws_scale (c : handle) (src : ptr) (stride : Z) (img : handle)
| Call_malloc_bytes (size : Z) (r : handle)
| Call_sws_scale_planes (c : handle) (src stride : ptr) (h : Z)
    (dst : handle) (dststride : Z)
| Call_printf (msg : string).

(** The world of these functions.  [malloc] is taken to succeed. *)
Record world := {
  (** the image descriptors, in the world of [Vpx.compress_image] *)
  frames : Vpx.world;
  (** the [struct vpx_context] blocks that are allocated *)
  structs : gset handle;
  (** the codecs that are initialised, by the address of their context *)
  codecs : gmap handle codec_state;
  (** the libswscale contexts that are allocated *)
  scalers : gmap handle X264.SwsContext;
  (** the RGB buffers that are allocated, with the size asked for *)
  buffers : gmap handle Z;
  (** the next fresh address *)
  next : handle;
  (** the library calls made so far, latest first *)
  calls : list call;
  (** the values the libraries are going to return; 0 when exhausted *)
  answers : list Z }.

Definition with_frames (w : world) (v : Vpx.world) : world :=
  {| frames := v; structs := structs w; codecs := codecs w;
     scalers := scalers w; buffers := buffers w; next := next w;
     calls := calls w; answers := answers w |}.
Definition with_structs (w : world) (v : gset handle) : world :=
  {| frames := frames w; structs := v; codecs := codecs w;
     scalers := scalers w; buffers := buffers w; next := next w;
     calls := calls w; answers := answers w |}.
Definition with_codecs (w : world) (v : gmap handle codec_state) : world :=
  {| frames := frames w; structs := structs w; codecs := v;
     scalers := scalers w; buffers := buffers w; next := next w;
     calls := calls w; answers := answers w |}.
Definition with_scalers (w : world) (v : gmap handle X264.SwsContext) : world :=
  {| frames := frames w; structs := structs w; codecs := codecs w;
     scalers := v; buffers := buffers w; next := next w;
     calls := calls w; answers := answers w |}.
Definition with_next (w : world) (v : handle) : world :=
  {| frames := frames w; structs := structs w; codecs := codecs w;
     scalers := scalers w; buffers := buffers w; next := v;
     calls := calls w; answers := answers w |}.
Definition with_calls (w : world) (v : list call) : world :=
  {| frames := frames w; structs := structs w; codecs := codecs w;
     scalers := scalers w; buffers := buffers w; next := next w;
     calls := v; answers := answers w |}.
Definition with_answers (w : world) (v : list Z) : world :=
  {| frames := frames w; structs := structs w; codecs := codecs w;
     scalers := scalers w; buffers := buffers w; next := next w;
     calls := calls w; answers := v |}.

(** No object, no call, the libraries return [l]. *)
Definition empty_world (l : list Z) : world :=
  {| frames := {| Vpx.images := ∅; Vpx.log := nil; Vpx.env := nil |};
     structs := ∅; codecs := ∅; scalers := ∅; buffers := ∅;
     next := 1%positive;
     calls := nil; answers := l |}.

Local Open Scope cmd_scope.

Definition Cmd (A : Type) : Type := M world A.

Definition fresh : Cmd handle :=
  fun w => Some (next w, with_next w (Pos.succ (next w))).

Definition answer : Cmd Z :=
  fun w => match answers w with
           | nil => Some (0, w)
           | a :: rest => Some (a, with_answers w rest)
           end.

Definition record (c : call) : Cmd unit :=
  fun w => Some (tt, with_calls w (c :: calls w)).

Definition deref {A} (p : option A) : Cmd A :=
  match p with
  | Some a => ret a
  | None => crash
  end.

(** A [struct vpx_context *] that has been returned: the address of the
    block and what the block holds. *)
Record context := {
  self : handle;
  fields : Vpx.vpx_context }.

(** [malloc(sizeof(struct vpx_context))]. *)
Definition malloc_context : Cmd handle :=
  h <- fresh ;;
  w <- get ;;
  put (with_structs w ({[ h ]} ∪ structs w)) ;;;
  record (Call_malloc h) ;;;
  ret h.

(** Using a context block that is not allocated is undefined. *)
Definition live_struct (p : handle) : Cmd unit :=
  w <- get ;;
  if bool_decide (p ∈ structs w) then ret tt else crash.

(** [free(ctx)]. *)
Definition free_context (p : handle) : Cmd unit :=
  live_struct p ;;;
  w <- get ;;
  put (with_structs w (structs w ∖ {[ p ]})) ;;;
  record (Call_free p).

Section WithHeaders.
Context `{hdr : Headers} `{vhdr : VpxHeaders}.

(** [vpx_codec_enc_config_default(enc_interface, &cfg, 0)]: the result and
    the configuration. *)
Definition vpx_codec_enc_config_default : Cmd (Z * vpx_codec_enc_cfg_t) :=
  r <- answer ;;
  record (Call_vpx_codec_enc_config_default r) ;;;
  ret (r, vpx_enc_cfg_default).

(** [vpx_codec_enc_init(&ctx->codec, enc_interface, &cfg, 0)]. *)
Definition vpx_codec_enc_init (ctx : handle) (cfg : vpx_codec_enc_cfg_t)
  : Cmd Z :=
  live_struct ctx ;;;
  r <- answer ;;
  w <- get ;;
  put (if r =? 0 then with_codecs w (<[ctx := Encoding cfg]> (codecs w))
       else w) ;;;
  record (Call_vpx_codec_enc_init ctx cfg r) ;;;
  ret r.

(** [vpx_codec_dec_init(&ctx->codec, dec_interface, NULL, flags)]. *)
Definition vpx_codec_dec_init (ctx : handle) : Cmd Z :=
  live_struct ctx ;;;
  r <- answer ;;
  w <- get ;;
  put (if r =? 0 then with_codecs w (<[ctx := Decoding]> (codecs w))
       else w) ;;;
  record (Call_vpx_codec_dec_init ctx r) ;;;
  ret r.

(** [vpx_codec_destroy(&ctx->codec)]. *)
Definition vpx_codec_destroy (ctx : handle) : Cmd unit :=
  live_struct ctx ;;;
  w <- get ;;
  put (with_codecs w (delete ctx (codecs w))) ;;;
  record (Call_vpx_codec_destroy ctx).

(** [sws_getContext(srcW, srcH, srcFormat, dstW, dstH, dstFormat, flags,
    NULL, NULL, NULL)]: a new converter, or NULL. *)
Definition sws_getContext (sw sh sf dw dh df flags : Z)
  : Cmd (option handle) :=
  let c := {| X264.srcW := sw; X264.srcH := sh; X264.srcFormat := sf;
              X264.dstW := dw; X264.dstH := dh; X264.dstFormat := df;
              X264.sws_flags := flags |} in
  a <- answer ;;
  r <- (if a =? 0 then (h <- fresh ;; ret (Some h)) else ret None) ;;
  w <- get ;;
  put (match r with
       | Some h => with_scalers w (<[h := c]> (scalers w))
       | None => w
       end) ;;;
  record (Call_sws_getContext c r) ;;;
  ret r.

(** [codec_error]: prints the name of the failed call. *)
Definition codec_error (s : string) : Cmd unit :=
  record (Call_printf s).

(** The right-hand side of
    [cfg.rc_target_bitrate = width * height * cfg.rc_target_bitrate
                             / cfg.g_w / cfg.g_h;]:
    the product of the two [int]s is converted to [unsigned int] for the
    multiplication by the bitrate, and the divisions are unsigned. *)
Definition target_bitrate (width height : Z) (cfg : vpx_codec_enc_cfg_t)
  : option Z :=
  if (g_w cfg =? 0) || (g_h cfg =? 0) then None
  else Some (to_uint (to_uint (wrap_int (width * height))
                      * rc_target_bitrate cfg)
             / g_w cfg / g_h cfg).

(** [init_encoder] of vpxlib.c.  The block is not cleared, and [yuv2rgb]
    is never assigned: it holds what the block held, [garbage]. *)
Definition init_encoder (garbage : option handle) (width height : Z)
  : Cmd (option context) :=
  rc <- vpx_codec_enc_config_default ;;
  if negb (fst rc =? 0) then ret None
  else
    rate <- deref (target_bitrate width height (snd rc)) ;;
    let cfg := {| g_w := to_uint width; g_h := to_uint height;
                  rc_target_bitrate := rate |} in
    ctx <- malloc_context ;;
    r <- vpx_codec_enc_init ctx cfg ;;
    if negb (r =? 0) then
      codec_error "vpx_codec_enc_init" ;;;
      free_context ctx ;;;
      ret None
    else
      y <- sws_getContext width height PIX_FMT_RGB24
                          width height PIX_FMT_YUV420P SWS_FAST_BILINEAR ;;
      ret (Some {| self := ctx;
                   fields := {| Vpx.rgb2yuv := y; Vpx.yuv2rgb := garbage;
                                Vpx.width := width;
                                Vpx.height := height |} |}).

Definition clean_encoder (ctx : context) : Cmd unit :=
  vpx_codec_destroy (self ctx) ;;;
  free_context (self ctx).

(** [init_decoder] of vpxlib.c; here [rgb2yuv] is never assigned. *)
Definition init_decoder (garbage : option handle) (width height : Z)
  : Cmd (option context) :=
  ctx <- malloc_context ;;
  i <- vpx_codec_dec_init ctx ;;
  if negb (i =? 0) then
    codec_error "vpx_codec_dec_init" ;;;
    record (Call_printf "vpx_codec_dec_init(..) failed with error") ;;;
    free_context ctx ;;;
    ret None
  else
    y <- sws_getContext width height PIX_FMT_YUV420P
                        width height PIX_FMT_RGB24 SWS_FAST_BILINEAR ;;
    ret (Some {| self := ctx;
                 fields := {| Vpx.rgb2yuv := garbage; Vpx.yuv2rgb := y;
                              Vpx.width := width;
                              Vpx.height := height |} |}).

Definition clean_decoder (ctx : context) : Cmd unit :=
  vpx_codec_destroy (self ctx) ;;;
  free_context (self ctx).

(** *** Images *)

Definition set_image (h : handle) (i : Vpx.vpx_image_t) : Cmd unit :=
  w <- get ;;
  put (with_frames w
         (Vpx.with_images (frames w) (<[h := i]> (Vpx.images (frames w))))).

Definition live_image (h : handle) : Cmd Vpx.vpx_image_t :=
  w <- get ;;
  deref (Vpx.images (frames w) !! h).

(** The block [malloc(sizeof(vpx_image_t))] returns, before anything is
    written to it. *)
Definition blank_image : Vpx.vpx_image_t :=
  {| Vpx.img_w := 0; Vpx.img_h := 0; Vpx.d_w := 0; Vpx.d_h := 0;
     Vpx.x_chroma_shift := 0; Vpx.y_chroma_shift := 0; Vpx.bps := 0;
     Vpx.planes := nil; Vpx.stride := nil;
     Vpx.img_data_live := false; Vpx.self_allocd := false |}.

(** [malloc(sizeof(vpx_image_t))]. *)
Definition malloc_image : Cmd handle :=
  h <- fresh ;;
  set_image h blank_image ;;;
  record (Call_malloc h) ;;;
  ret h.

(** [vpx_img_alloc(image, VPX_IMG_FMT_I420, d_w, d_h, 1)] on a descriptor
    the caller has allocated: libvpx clears the descriptor and allocates
    the pixel buffer; it does not own the descriptor ([self_allocd] is 0).
    The result tells whether it succeeded. *)
Definition vpx_img_alloc (image : handle) (d_w d_h : Z) : Cmd bool :=
  live_image image ;;;
  a <- answer ;;
  w <- answer ;; h <- answer ;;
  p0 <- answer ;; p1 <- answer ;; p2 <- answer ;;
  s0 <- answer ;; s1 <- answer ;; s2 <- answer ;;
  let ok := a =? 0 in
  set_image image
    (if ok then
       {| Vpx.img_w := w; Vpx.img_h := h; Vpx.d_w := d_w; Vpx.d_h := d_h;
          Vpx.x_chroma_shift := 1; Vpx.y_chroma_shift := 1; Vpx.bps := 12;
          Vpx.planes := p0 :: p1 :: p2 :: NULL :: nil;
          Vpx.stride := s0 :: s1 :: s2 :: 0 :: nil;
          Vpx.img_data_live := true; Vpx.self_allocd := false |}
     else blank_image) ;;;
  record (Call_vpx_img_alloc image VPX_IMG_FMT_I420 d_w d_h ok) ;;;
  ret ok.

(** [sws_scale(c, &in, &stride, 0, height, image->planes,
    image->stride)]. *)
Definition sws_scale (c : option handle) (src : ptr) (stride : Z)
  (image : handle) : Cmd unit :=
  h <- deref c ;;
  w <- get ;;
  deref (scalers w !! h) ;;;
  live_image image ;;;
  record (Call_sws_scale h src stride image).

(** [image->w = ctx->width; image->h = ctx->height;
     image->d_w = ctx->width; image->d_h = ctx->height;] *)
Definition set_size (i : Vpx.vpx_image_t) (width height : Z)
  : Vpx.vpx_image_t :=
  {| Vpx.img_w := width; Vpx.img_h := height;
     Vpx.d_w := width; Vpx.d_h := height;
     Vpx.x_chroma_shift := Vpx.x_chroma_shift i;
     Vpx.y_chroma_shift := Vpx.y_chroma_shift i; Vpx.bps := Vpx.bps i;
     Vpx.planes := Vpx.planes i; Vpx.stride := Vpx.stride i;
     Vpx.img_data_live := Vpx.img_data_live i;
     Vpx.self_allocd := Vpx.self_allocd i |}.

(** [csc_image_rgb2yuv] of vpxlib.c: the image, or NULL. *)
Definition csc_image_rgb2yuv (ctx : Vpx.vpx_context) (in_ : ptr) (stride : Z)
  : Cmd (option handle) :=
  image <- malloc_image ;;
  ok <- vpx_img_alloc image (Vpx.width ctx) (Vpx.height ctx) ;;
  if negb ok then
    record (Call_printf "Failed to allocate image") ;;;
    ret None
  else
    sws_scale (Vpx.rgb2yuv ctx) in_ stride image ;;;
    i <- live_image image ;;
    set_image image (set_size i (Vpx.width ctx) (Vpx.height ctx)) ;;;
    ret (Some image).

(** *** Decoded frames *)





End WithHeaders.

End VpxLife.

(** ** What an encoder context records *)

Module X264Records.
Import X264.

Section WithHeaders.
Context `{hdr : Headers}.

(** The quantizer, the colour sampling, the pixel format and the
    conversion algorithm of the context are those of the quality it
    reports. *)
Definition recorded (ctx : x264lib_ctx) : Prop :=
  x264_quality ctx = get_x264_quality (get_encoder_quality ctx)
  /\ colour_sampling ctx
     = get_x264_colour_sampling ctx (get_encoder_quality ctx)
  /\ get_encoder_pixel_format ctx
     = get_csc_format_for_x264_format (colour_sampling ctx)
  /\ csc_algo ctx = Z.lor SWS_SINC SWS_ACCURATE_RND.

End WithHeaders.

End X264Records.

(** ** More runs *)

Module MoreSamples.
Import X264 Samples.

(** [set_encoding_speed(ctx, 5)] on [opened50]. *)
Definition opened50_speed5 : x264lib_ctx * world :=
  Eval vm_compute in
    result (set_encoding_speed (hdr := headers_2012)
              (fst opened50) 5 (snd opened50)) zeroed_ctx.

(** A world in which the fourth library call of the initialisation of a
    decoder, [avcodec_open2], returns -1. *)
Definition world_first_open2_fails : world :=
  with_env world0 (0 :: 0 :: 0 :: -1 :: nil).

(** The world after [init_decoder(640, 480, PIX_FMT_YUV420P)] has failed
    in it. *)
Definition decoder_refused : world :=
  Eval vm_compute in
    match init_decoder (hdr := headers_2012) 640 480 0
            world_first_open2_fails with
    | Some (None, w) => w
    | _ => world0
    end.

(** The caller's cells when they still hold the size of an earlier
    frame. *)
Definition stale_cells : decoded :=
  {| dec_out := NULL :: NULL :: NULL :: nil; dec_outsize := 1377;
     dec_outstride := 0 :: 0 :: 0 :: nil |}.

(** [decoder420] in a world in which the decoder takes five bytes and
    produces no picture. *)
Definition world_no_picture : world :=
  with_env (snd decoder420) (5 :: 0 :: nil).

(** [init_encoder(640, 480)] of vpxlib.c, with every library call
    succeeding, in a block whose [yuv2rgb] bytes were zero. *)
Definition vpx_encoder : VpxLife.context * VpxLife.world :=
  Eval vm_compute in
    match VpxLife.init_encoder (hdr := headers_2012)
            (vhdr := vpx_headers_2012) None 640 480
            (VpxLife.empty_world nil) with
    | Some (Some ctx, w) => (ctx, w)
    | _ => ({| VpxLife.self := 1%positive;
               VpxLife.fields := VpxSamples.a_context |},
            VpxLife.empty_world nil)
    end.

(** The world after [init_encoder(640, 480)] of vpxlib.c has failed in
    [vpx_codec_enc_init]. *)
Definition vpx_refused : VpxLife.world :=
  Eval vm_compute in
    match VpxLife.init_encoder (hdr := headers_2012)
            (vhdr := vpx_headers_2012) None 640 480
            (VpxLife.empty_world (0 :: 1 :: nil)) with
    | Some (None, w) => w
    | _ => VpxLife.empty_world nil
    end.



End MoreSamples.

(** * Properties *)

(** ** Checking a property on every percentage *)

Section Enumeration.

Lemma in_below (n : nat) (z : Z) : 0 <= z < Z.of_nat n -> In z (below n).
Proof.
  induction n as [|k IH]; intros Hz.
  - lia.
  - destruct (Z.eq_dec z (Z.of_nat k)) as [->|Hne].
    + now left.
    + right. apply IH. lia.
Qed.

Lemma forallb_below (P : Z -> bool) (n : nat) :
  forallb P (below n) = true ->
  forall z, 0 <= z < Z.of_nat n -> P z = true.
Proof.
  intros Hall z Hz.
  rewrite forallb_forall in Hall.
  apply Hall, in_below, Hz.
Qed.

Lemma sf_eqb_eq (x y : spec_float) : sf_eqb x y = true -> x = y.
Proof.
  destruct x as [s|s| |s m e], y as [t|t| |t n f]; simpl; try discriminate.
  - intros H. apply Bool.eqb_prop in H. now subst.
  - intros H. apply Bool.eqb_prop in H. now subst.
  - reflexivity.
  - intros H.
    apply andb_prop in H as [H He].
    apply andb_prop in H as [Hs Hm].
    apply Bool.eqb_prop in Hs. apply Pos.eqb_eq in Hm. apply Z.eqb_eq in He.
    now subst.
Qed.

End Enumeration.

(** ** The quantizer *)

(** At quality 50 the exact value is 25.5, which [roundf] rounds away from
    zero. *)
Example get_x264_quality_50 : get_x264_quality 50 = float_of_int 26.
Proof. vm_compute. reflexivity. Qed.

Example get_x264_quality_51 : get_x264_quality 51 = float_of_int 25.
Proof. vm_compute. reflexivity. Qed.

Example get_x264_quality_negative : get_x264_quality (-7) = float_of_int 50.
Proof. vm_compute. reflexivity. Qed.

Lemma MIN_MAX_range (pct : Z) : 0 <= MIN 100 (MAX 0 pct) <= 100.
Proof.
  unfold MIN, MAX.
  destruct (0 >? pct) eqn:H0.
  - simpl. lia.
  - destruct (100 <? pct) eqn:H1; lia.
Qed.

Lemma MIN_MAX_id (pct : Z) : 0 <= pct <= 100 -> MIN 100 (MAX 0 pct) = pct.
Proof.
  intros H. unfold MIN, MAX.
  destruct (0 >? pct) eqn:H0; [lia|].
  destruct (100 <? pct) eqn:H1; lia.
Qed.

(** On percentages the code computes [(5050 - 49 * pct) / 100] (integer
    division), which is what the formula of the specification gives. *)
Lemma get_x264_quality_percent (pct : Z) :
  0 <= pct <= 100 ->
  get_x264_quality pct = float_of_int ((5050 - 49 * pct) / 100).
Proof.
  intros H.
  apply sf_eqb_eq.
  apply (forallb_below
           (fun p => sf_eqb (get_x264_quality p)
                            (float_of_int ((5050 - 49 * p) / 100))) 101).
  - vm_compute. reflexivity.
  - lia.
Qed.

Lemma spec_quantizer_percent (pct : Z) :
  0 <= pct <= 100 ->
  Spec.quantizer pct = (5050 - 49 * pct) / 100.
Proof.
  intros H.
  apply Z.eqb_eq.
  apply (forallb_below
           (fun p => Spec.quantizer p =? (5050 - 49 * p) / 100) 101).
  - vm_compute. reflexivity.
  - lia.
Qed.

Lemma get_x264_quality_clamps (pct : Z) :
  get_x264_quality pct = get_x264_quality (MIN 100 (MAX 0 pct)).
Proof.
  unfold get_x264_quality.
  now rewrite (MIN_MAX_id (MIN 100 (MAX 0 pct))) by apply MIN_MAX_range.
Qed.

(** C1: for every quality percentage in [0,100] the quantizer the code
    derives is [round(50 - pct * 49 / 100)]; quality 100 gives the lowest
    quantizer, 1, and quality 0 the highest, 50. *)
Theorem C1_quantizer_formula (pct : Z) :
  0 <= pct <= 100 ->
  get_x264_quality pct = float_of_int (Spec.quantizer pct)
  /\ get_x264_quality 100 = float_of_int 1
  /\ get_x264_quality 0 = float_of_int 50.
Proof.
  intros H. split; [|split].
  - rewrite spec_quantizer_percent by exact H.
    now apply get_x264_quality_percent.
  - vm_compute. reflexivity.
  - vm_compute. reflexivity.
Qed.

Lemma C1_quantizer_formula_witness :
  0 <= 50 <= 100
  /\ get_x264_quality 50 = float_of_int (Spec.quantizer 50)
  /\ get_x264_quality 100 = float_of_int 1
  /\ get_x264_quality 0 = float_of_int 50.
Proof.
  split; [lia | apply (C1_quantizer_formula 50); lia].
Defined.

(** C10: the quantizer derivation is defined on every integer: it clamps
    the percentage into [0,100], returns what it returns for the clamped
    percentage, and its result is an integer of [1,50]. *)
Theorem C10_quantizer_total_clamped (pct : Z) :
  0 <= MIN 100 (MAX 0 pct) <= 100
  /\ get_x264_quality pct = get_x264_quality (MIN 100 (MAX 0 pct))
  /\ exists q : Z, 1 <= q <= 50 /\ get_x264_quality pct = float_of_int q.
Proof.
  pose proof (MIN_MAX_range pct) as Hr.
  split; [exact Hr|]. split; [apply get_x264_quality_clamps|].
  exists ((5050 - 49 * MIN 100 (MAX 0 pct)) / 100). split.
  - split.
    + apply Z.div_le_lower_bound; lia.
    + apply Z.lt_succ_r, Z.div_lt_upper_bound; lia.
  - rewrite get_x264_quality_clamps.
    now apply get_x264_quality_percent.
Qed.

(** ** The speed preset *)

Example new_preset_50 : new_preset 50 = Some 3.
Proof. vm_compute. reflexivity. Qed.

Example new_preset_1 : new_preset 1 = Some 6.
Proof. vm_compute. reflexivity. Qed.

(** On percentages the code computes [7 - ceil(pct / 12.5)]: the [double]
    [7 - pct/12.5] is truncated, so the quotient is rounded up, not to the
    nearest integer. *)
Lemma new_preset_percent (pct : Z) :
  0 <= pct <= 100 -> new_preset pct = Some (Spec.presetIndex_ceil pct).
Proof.
  intros H.
  assert (Hb : (match new_preset pct with
                | Some n => n =? Spec.presetIndex_ceil pct
                | None => false
                end) = true).
  { apply (forallb_below
             (fun p => match new_preset p with
                       | Some n => n =? Spec.presetIndex_ceil p
                       | None => false
                       end) 101).
    - vm_compute. reflexivity.
    - lia. }
  destruct (new_preset pct) as [n|]; [|discriminate].
  apply Z.eqb_eq in Hb. now subst.
Qed.

Lemma presetIndex_ceil_range (pct : Z) : 0 <= Spec.presetIndex_ceil pct <= 7.
Proof. unfold Spec.presetIndex_ceil, Spec.clamp. lia. Qed.

(** The claimed formula differs from the code at speed 5: the code computes
    [(int)(7 - 0.4) = 6], the formula gives [7 - round(0.4) = 7]. *)
Lemma C5_counterexample :
  new_preset 5 = Some 6 /\ Spec.presetIndex 5 = 7
  /\ new_preset 5 <> Some (Spec.presetIndex 5).
Proof.
  split; [|split].
  - vm_compute. reflexivity.
  - vm_compute. reflexivity.
  - vm_compute. discriminate.
Qed.

(** ** Reasoning about commands *)

Lemma bind_inv {S A B} (c : M S A) (k : A -> M S B) (s s'' : S) (b : B) :
  bind c k s = Some (b, s'') ->
  exists a s', c s = Some (a, s') /\ k a s' = Some (b, s'').
Proof.
  unfold bind. destruct (c s) as [[a s']|]; [|discriminate].
  intros H. now exists a, s'.
Qed.

Lemma ret_inv {S A} (a b : A) (s s' : S) :
  ret a s = Some (b, s') -> a = b /\ s = s'.
Proof. unfold ret. intros H. now inversion H. Qed.

Lemma bind_run {S A B} (c : M S A) (k : A -> M S B) (s s' : S) (a : A) :
  c s = Some (a, s') -> bind c k s = k a s'.
Proof. unfold bind. now intros ->. Qed.

(** Splits the run of a sequence of two commands. *)
Tactic Notation "step" hyp(H) "as" simple_intropattern(a)
  simple_intropattern(w) simple_intropattern(Ha) :=
  apply bind_inv in H as (a & w & Ha & H).

(** The run of [ret]: the final world is the current one. *)
Tactic Notation "done_with" hyp(H) :=
  let Hw := fresh "Hw" in
  apply ret_inv in H as [H Hw];
  match type of Hw with _ = ?w => subst w end.

Arguments get_x264_quality : simpl never.

Module X264Facts.
Import X264 X264Props.

Section WithHeaders.
Context `{hdr : Headers}.

(** Unfolds the primitive commands. *)
Ltac prim :=
  unfold x264_encoder_open, x264_encoder_close, x264_encoder_parameters,
    x264_encoder_reconfig, x264_encoder_encode, live_encoder,
    sws_getContext, sws_freeContext, sws_scale, live_scaler,
    x264_picture_alloc, update_picture, live_picture, free_csc_image,
    avcodec_find_decoder, avcodec_alloc_context3, avcodec_open2,
    avcodec_close, av_free, update_codec_ctx, live_codec_ctx,
    fprintf_stderr, allocate, fresh, answer, record, deref,
    bind, ret, get, put, crash in *.

Ltac prim_inv H :=
  prim; repeat (case_match; simplify_eq/=); try (inversion H; clear H; subst; simpl).

(** *** What the library calls change *)

Lemma sws_getContext_inv sw sh sf dw dh df fl w r w' :
  sws_getContext sw sh sf dw dh df fl w = Some (r, w') ->
  encoders w' = encoders w /\ codec_ctxs w' = codec_ctxs w
  /\ pictures w' = pictures w
  /\ match r with
     | Some h =>
         scalers w'
         = <[h := {| srcW := sw; srcH := sh; srcFormat := sf; dstW := dw;
                     dstH := dh; dstFormat := df; sws_flags := fl |}]>
             (scalers w)
     | None => scalers w' = scalers w
     end.
Proof. intros H. prim_inv H; auto. Qed.

Lemma sws_freeContext_inv c w u w' :
  sws_freeContext c w = Some (u, w') ->
  encoders w' = encoders w /\ codec_ctxs w' = codec_ctxs w
  /\ pictures w' = pictures w
  /\ exists h, c = Some h /\ scalers w' = delete h (scalers w).
Proof. intros H. prim_inv H; eauto 10. Qed.

Lemma x264_encoder_open_inv p w r w' :
  x264_encoder_open p w = Some (r, w') ->
  scalers w' = scalers w /\ codec_ctxs w' = codec_ctxs w
  /\ pictures w' = pictures w
  /\ match r with
     | Some e => encoders w' = <[e := p]> (encoders w)
     | None => encoders w' = encoders w
     end.
Proof. intros H. prim_inv H; auto. Qed.

Lemma x264_encoder_parameters_inv e w p w' :
  x264_encoder_parameters e w = Some (p, w') ->
  w' = w /\ exists h, e = Some h /\ encoders w !! h = Some p.
Proof. intros H. prim_inv H; eauto. Qed.

Lemma x264_encoder_parameters_live h p w :
  encoders w !! h = Some p ->
  x264_encoder_parameters (Some h) w = Some (p, w).
Proof. intros H. prim. simpl. now rewrite H. Qed.

Lemma x264_encoder_reconfig_live h p0 p w :
  encoders w !! h = Some p0 ->
  x264_encoder_reconfig (Some h) p w
  = Some (tt, with_log (with_encoders w (<[h := reconfigured p0 p]> (encoders w)))
                (Call_x264_encoder_reconfig h p :: log w)).
Proof. intros H. prim. simpl. now rewrite H. Qed.

Lemma reconfigured_rf p q :
  reconfigured p (set_f_rf_constant p q) = set_f_rf_constant p q.
Proof. reflexivity. Qed.

(** *** The encoder functions *)

Lemma set_rgb2yuv_None_id ctx :
  rgb2yuv ctx = None -> set_rgb2yuv ctx None = ctx.
Proof. destruct ctx; simpl; intros ->; reflexivity. Qed.

Lemma set_encoder_None_id ctx :
  encoder ctx = None -> set_encoder ctx None = ctx.
Proof. destruct ctx; simpl; intros ->; reflexivity. Qed.

Lemma set_csc_algo_id ctx : set_csc_algo ctx (csc_algo ctx) = ctx.
Proof. now destruct ctx. Qed.

(** The colour sampling depends on the context through its flag only. *)
Lemma get_x264_colour_sampling_flag ctx ctx' pct :
  supports_csc_option ctx' = supports_csc_option ctx ->
  get_x264_colour_sampling ctx' pct = get_x264_colour_sampling ctx pct.
Proof. unfold get_x264_colour_sampling. now intros ->. Qed.

Lemma init_encoder_csc_inv ctx w cr w' :
  init_encoder_csc ctx w = Some (cr, w') ->
  fst cr = set_rgb2yuv ctx None /\ encoders w' = encoders w.
Proof.
  unfold init_encoder_csc. intros H.
  step H as c1 w1 H1. step H as r w2 H2. done_with H. subst cr. simpl.
  apply sws_getContext_inv in H2 as (He & _).
  destruct (rgb2yuv ctx) eqn:Hrgb.
  - step H1 as u w0 H0. apply ret_inv in H1 as [<- <-].
    apply sws_freeContext_inv in H0 as (He1 & _).
    split; [reflexivity | congruence].
  - apply ret_inv in H1 as [<- <-].
    split; [symmetry; now apply set_rgb2yuv_None_id | exact He].
Qed.

Lemma do_init_encoder_inv ctx width height q s w ctx' w' :
  do_init_encoder ctx width height q s w = Some (ctx', w') ->
  (quality ctx' = q /\ supports_csc_option ctx' = s
   /\ colour_sampling ctx' = get_x264_colour_sampling ctx' q
   /\ x264_quality ctx' = get_x264_quality q
   /\ profile ctx' = Some (get_profile_for_quality q)
   /\ csc_algo ctx' = get_csc_algo_for_quality q
   /\ X264.width ctx' = width /\ X264.height ctx' = height)
  /\ forall e, encoder ctx' = Some e ->
       exists p, encoders w' !! e = Some p
                 /\ f_rf_constant p = get_x264_quality q
                 /\ i_csp p = colour_sampling ctx'
                 /\ param_profile p = profile ctx'.
Proof.
  unfold do_init_encoder. intros H.
  step H as name w1 H1. step H as e0 w2 H2. step H as cr w3 H3.
  done_with H. subst ctx'.
  apply init_encoder_csc_inv in H3 as [-> Hen].
  apply x264_encoder_open_inv in H2 as (_ & _ & _ & Hopen).
  split.
  - simpl. repeat split; reflexivity.
  - simpl. intros e ->. rewrite Hen, Hopen.
    eexists. split; [apply lookup_insert_eq|].
    simpl. repeat split; reflexivity.
Qed.

Lemma clean_encoder_inv ctx w ctx' w' :
  clean_encoder ctx w = Some (ctx', w') ->
  ctx' = set_encoder (set_rgb2yuv ctx None) None.
Proof.
  unfold clean_encoder. intros H.
  apply bind_inv in H as (c1 & w1 & H1 & H).
  assert (E1 : c1 = set_rgb2yuv ctx None).
  { destruct (rgb2yuv ctx) eqn:Hrgb.
    - step H1 as u w0 H0. done_with H1. now subst.
    - apply ret_inv in H1 as [<- _]. symmetry. now apply set_rgb2yuv_None_id. }
  destruct (encoder c1) eqn:Henc.
  - step H as u w0 H0. done_with H. now subst.
  - apply ret_inv in H as [<- _]. subst c1.
    symmetry. now apply set_encoder_None_id.
Qed.

(** When neither the colour sampling, nor the percentage above its lowest
    bit, nor the conversion algorithm changes, [set_encoding_quality] calls
    no library function and leaves the context as it is. *)
Lemma set_encoding_quality_noop ctx pct w :
  supports_csc_option ctx = 0
  \/ colour_sampling ctx = get_x264_colour_sampling ctx pct ->
  Z.land (quality ctx) (Z.lnot 1) = Z.land pct (Z.lnot 1) ->
  csc_algo ctx = get_csc_algo_for_quality pct ->
  set_encoding_quality ctx pct w = Some (ctx, w).
Proof.
  intros Hcs Hq Ha. unfold set_encoding_quality.
  assert (negb (supports_csc_option ctx =? 0)
          && negb (colour_sampling ctx =? get_x264_colour_sampling ctx pct)
          = false) as ->.
  { destruct Hcs as [->| <-]; [reflexivity|].
    rewrite Z.eqb_refl. simpl. apply andb_false_r. }
  rewrite Hq, Z.eqb_refl.
  change (negb true) with false. cbv iota.
  rewrite (bind_run _ _ w w ctx) by reflexivity.
  cbv zeta.
  replace (csc_algo (set_csc_algo ctx (get_csc_algo_for_quality pct)))
    with (csc_algo ctx) by (now rewrite Ha).
  rewrite Z.eqb_refl.
  change (negb true) with false. cbv iota.
  now rewrite <- Ha, set_csc_algo_id.
Qed.

(** What a call of [set_encoding_quality] that returns leaves in the
    context: either everything was re-initialised for the new percentage, or
    colour sampling and profile are untouched. *)
Lemma set_encoding_quality_inv ctx pct w ctx' w' :
  set_encoding_quality ctx pct w = Some (ctx', w') ->
  supports_csc_option ctx' = supports_csc_option ctx
  /\ csc_algo ctx' = get_csc_algo_for_quality pct
  /\ Z.land (quality ctx') (Z.lnot 1) = Z.land pct (Z.lnot 1)
  /\ ((supports_csc_option ctx <> 0
       /\ colour_sampling ctx' = get_x264_colour_sampling ctx' pct
       /\ profile ctx' = Some (get_profile_for_quality pct))
      \/ ((supports_csc_option ctx = 0
           \/ colour_sampling ctx = get_x264_colour_sampling ctx pct)
          /\ colour_sampling ctx' = colour_sampling ctx
          /\ profile ctx' = profile ctx)).
Proof.
  unfold set_encoding_quality. intros H.
  destruct (negb (supports_csc_option ctx =? 0)
            && negb (colour_sampling ctx =? get_x264_colour_sampling ctx pct))
    eqn:Hhard.
  - apply andb_prop in Hhard as [Hs _].
    apply negb_true_iff, Z.eqb_neq in Hs.
    step H as a w0 Hc.
    apply clean_encoder_inv in Hc. subst a.
    apply do_init_encoder_inv in H as [(Hq & Hsup & Hcol & _ & Hp & Ha & _) _].
    simpl in Hsup.
    repeat split; try assumption.
    + now rewrite Hq.
    + left. auto.
  - assert (Hsoft : supports_csc_option ctx = 0
                    \/ colour_sampling ctx = get_x264_colour_sampling ctx pct).
    { apply andb_false_iff in Hhard as [Hs|Hs];
        apply negb_false_iff, Z.eqb_eq in Hs; auto. }
    apply bind_inv in H as (c1 & w1 & H1 & H).
    assert (Hc1 : supports_csc_option c1 = supports_csc_option ctx
                  /\ Z.land (quality c1) (Z.lnot 1) = Z.land pct (Z.lnot 1)
                  /\ colour_sampling c1 = colour_sampling ctx
                  /\ profile c1 = profile ctx).
    { destruct (negb (Z.land (quality ctx) (Z.lnot 1) =? Z.land pct (Z.lnot 1)))
        eqn:Hg.
      - step H1 as p w0 Hp. step H1 as u w2 Hr. done_with H1.
        subst c1. simpl. auto.
      - apply ret_inv in H1 as [<- _].
        apply negb_false_iff, Z.eqb_eq in Hg. auto. }
    destruct Hc1 as (Hs1 & Hq1 & Hcol1 & Hp1).
    assert (Hfin : ctx' = set_csc_algo c1 (get_csc_algo_for_quality pct)
                   \/ exists r, ctx' = set_rgb2yuv
                                         (set_rgb2yuv
                                            (set_csc_algo c1 (get_csc_algo_for_quality pct))
                                            None) r).
    { cbv zeta in H.
      destruct (negb (csc_algo c1
                      =? csc_algo (set_csc_algo c1 (get_csc_algo_for_quality pct)))).
      - step H as cr w2 Hcsc. done_with H.
        apply init_encoder_csc_inv in Hcsc as [Hf _].
        right. exists (snd cr). now rewrite <- Hf.
      - apply ret_inv in H as [<- _]. now left. }
    destruct Hfin as [->|[r ->]]; simpl;
      (repeat split; try assumption; right; auto).
Qed.

(** With the flag set, the colour sampling and the profile selected for one
    percentage go together. *)
Lemma policy_consistent ctx q :
  supports_csc_option ctx <> 0 ->
  colour_sampling ctx = get_x264_colour_sampling ctx q ->
  profile ctx = Some (get_profile_for_quality q) ->
  consistent ctx.
Proof.
  intros Hs Hc Hp. unfold consistent. rewrite Hc, Hp.
  unfold get_x264_colour_sampling, get_profile_for_quality.
  apply Z.eqb_neq in Hs. rewrite Hs. simpl.
  destruct (q <? I422_MIN_QUALITY); [now left|].
  destruct (q <? I444_MIN_QUALITY); [right; now left | right; now right].
Qed.

Lemma preset_name_defined (i : Z) (w : world) :
  0 <= i <= 7 -> exists name, preset_name i w = Some (name, w).
Proof.
  intros Hi. unfold preset_name.
  destruct (i <? 0) eqn:Hneg; [lia|].
  assert (Hn : (Z.to_nat i < 8)%nat) by lia.
  destruct (Z.to_nat i) as [|[|[|[|[|[|[|[|n]]]]]]]]; simpl;
    try (eexists; reflexivity); lia.
Qed.

(** [set_encoding_speed] on a live encoder returns, with the new preset
    index in the context. *)
Lemma set_encoding_speed_preset ctx pct w e p n :
  encoder ctx = Some e -> encoders w !! e = Some p ->
  new_preset pct = Some n -> 0 <= n <= 7 ->
  exists ctx' w', set_encoding_speed ctx pct w = Some (ctx', w')
                  /\ encoding_preset ctx' = n.
Proof.
  intros He Hp Hn Hr. unfold set_encoding_speed.
  rewrite He.
  rewrite (bind_run _ _ _ _ _ (x264_encoder_parameters_live _ _ _ Hp)).
  rewrite Hn. simpl deref.
  rewrite (bind_run _ _ w w n) by reflexivity.
  destruct (n =? encoding_preset ctx) eqn:Hsame.
  - apply Z.eqb_eq in Hsame. now exists ctx, w.
  - cbv zeta.
    destruct (preset_name_defined n w Hr) as [name Hname].
    simpl encoding_preset.
    rewrite (bind_run _ _ w w name) by exact Hname.
    simpl encoder. rewrite He.
    rewrite (bind_run _ _ _ _ _ (x264_encoder_reconfig_live _ _ _ _ Hp)).
    eexists _, _. split; [reflexivity|]. reflexivity.
Qed.

End WithHeaders.

End X264Facts.

(** ** The encoder: colour sampling, profile and live reconfiguration *)

Section EncoderClaims.
Import X264 X264Props X264Facts.
Context `{hdr : Headers}.

(** C2: with chroma switching enabled the colour sampling selected for a
    percentage is 4:2:0 below 80, 4:2:2 from 80 to 89 and 4:4:4 from 90;
    with chroma switching disabled it is 4:2:0 for every percentage. *)
Theorem C2_colour_sampling_thresholds (ctx : x264lib_ctx) (pct : Z) :
  0 <= pct <= 100 ->
  (supports_csc_option ctx <> 0 ->
   (pct < 80 -> get_x264_colour_sampling ctx pct = X264_CSP_I420)
   /\ (80 <= pct < 90 -> get_x264_colour_sampling ctx pct = X264_CSP_I422)
   /\ (90 <= pct -> get_x264_colour_sampling ctx pct = X264_CSP_I444))
  /\ (supports_csc_option ctx = 0 ->
      get_x264_colour_sampling ctx pct = X264_CSP_I420).
Proof.
  intros _. unfold get_x264_colour_sampling, I422_MIN_QUALITY, I444_MIN_QUALITY.
  split.
  - intros Hs. apply Z.eqb_neq in Hs. rewrite Hs. simpl.
    repeat split; intros Hp.
    + now apply Z.ltb_lt in Hp as ->.
    + destruct Hp as [Hlo Hhi].
      apply Z.ltb_ge in Hlo as ->. now apply Z.ltb_lt in Hhi as ->.
    + assert (H80 : 80 <= pct) by lia.
      apply Z.ltb_ge in H80 as ->. now apply Z.ltb_ge in Hp as ->.
  - now intros ->.
Qed.

(** C6: a second [set_encoding_quality] with the same percentage returns
    the context and the world of the libraries as the first call left them:
    no library call is logged, no encoder is closed, opened or
    reconfigured, no converter is freed or created. *)
Theorem C6_set_quality_twice (ctx : x264lib_ctx) (pct : Z) (w : world)
  (ctx1 : x264lib_ctx) (w1 : world) :
  set_encoding_quality ctx pct w = Some (ctx1, w1) ->
  set_encoding_quality ctx1 pct w1 = Some (ctx1, w1).
Proof.
  intros H.
  apply set_encoding_quality_inv in H as (Hs & Ha & Hq & Hcases).
  apply set_encoding_quality_noop; try assumption.
  destruct Hcases as [(_ & Hc & _) | ([H0|Hc] & Hc1 & _)].
  - now right.
  - left. congruence.
  - right. rewrite Hc1, Hc. symmetry.
    now apply get_x264_colour_sampling_flag.
Qed.

(** C4, as the code has it: across [init_encoder] and any
    [set_encoding_quality] calls the flag stays as given; when chroma
    switching is enabled the profile is the one that goes with the colour
    sampling; when it is disabled the colour sampling is 4:2:0 and the
    profile is the one the thresholds give for the quality the encoder was
    opened with. *)
Theorem C4_profile_and_sampling (q0 s0 : Z) (ctx : x264lib_ctx) (w : world) :
  opened_with q0 s0 ctx w ->
  supports_csc_option ctx = s0
  /\ (s0 <> 0 -> consistent ctx)
  /\ (s0 = 0 ->
      colour_sampling ctx = X264_CSP_I420
      /\ profile ctx = Some (get_profile_for_quality q0)).
Proof.
  induction 1 as [width height w ctx w' Hinit
                 | ctx w pct ctx' w' Hprev (Hs & Hon & Hoff) Hset].
  - apply do_init_encoder_inv in Hinit as [(_ & Hs & Hc & _ & Hp & _) _].
    split; [exact Hs|]. split.
    + intros Hne. apply (policy_consistent ctx q0); congruence.
    + intros H0. split; [|exact Hp].
      rewrite Hc. unfold get_x264_colour_sampling.
      now rewrite Hs, H0.
  - apply set_encoding_quality_inv in Hset as (Hs' & _ & _ & Hcases).
    split; [congruence|].
    destruct Hcases as [(Hne & Hc & Hp) | (_ & Hc & Hp)].
    + split.
      * intros _. apply (policy_consistent ctx' pct); congruence.
      * intros H0. congruence.
    + split.
      * intros Hne. specialize (Hon Hne).
        unfold consistent in *. now rewrite Hc, Hp.
      * intros H0. rewrite Hc, Hp. now apply Hoff.
Qed.

End EncoderClaims.

Section SoftReconfiguration.
Import X264 X264Props X264Facts.
Context `{hdr : Headers}.

Lemma colour_sampling_below_80 (ctx : x264lib_ctx) (pct : Z) :
  pct < 80 -> get_x264_colour_sampling ctx pct = X264_CSP_I420.
Proof.
  intros Hp. unfold get_x264_colour_sampling, I422_MIN_QUALITY.
  apply Z.ltb_lt in Hp as ->. now rewrite orb_true_r.
Qed.

(** A percentage that keeps the colour sampling but differs from the stored
    one above the lowest bit is a soft reconfiguration: the parameters of
    the live encoder are read, the rate-control constant is patched, and the
    block is written back; nothing else happens. *)
Lemma set_encoding_quality_soft ctx pct w e p0 :
  colour_sampling ctx = get_x264_colour_sampling ctx pct ->
  Z.land (quality ctx) (Z.lnot 1) <> Z.land pct (Z.lnot 1) ->
  csc_algo ctx = get_csc_algo_for_quality pct ->
  encoder ctx = Some e ->
  encoders w !! e = Some p0 ->
  set_encoding_quality ctx pct w
  = Some (set_x264_quality (set_quality ctx pct) (get_x264_quality pct),
          with_log
            (with_encoders w
               (<[e := set_f_rf_constant p0 (get_x264_quality pct)]> (encoders w)))
            (Call_x264_encoder_reconfig e
               (set_f_rf_constant p0 (get_x264_quality pct)) :: log w)).
Proof.
  intros Hc Hq Ha He Hp. unfold set_encoding_quality.
  rewrite <- Hc, Z.eqb_refl.
  change (negb true) with false. rewrite andb_false_r.
  apply Z.eqb_neq in Hq. rewrite Hq.
  change (negb false) with true. cbv iota zeta.
  rewrite He.
  match goal with
  | |- bind ?c _ w = Some (?c1, ?w1) =>
      assert (Hin : c w = Some (c1, w1))
  end.
  { rewrite (bind_run _ _ _ _ _ (x264_encoder_parameters_live _ _ _ Hp)).
    simpl encoder. rewrite He.
    rewrite (bind_run _ _ _ _ _ (x264_encoder_reconfig_live _ _ _ _ Hp)).
    now rewrite reconfigured_rf. }
  rewrite (bind_run _ _ _ _ _ Hin).
  simpl csc_algo. rewrite <- Ha, Z.eqb_refl.
  change (negb true) with false. cbv iota.
  unfold ret. do 2 f_equal.
Qed.

(** C3, as the code has it: after [init_encoder] at quality 50 the colour
    sampling is 4:2:0 and [set_encoding_quality(ctx, 51)] changes nothing:
    same encoder, same parameters, the rate-control constant still the one
    derived for 50, no library call.  The percentage is compared without its
    lowest bit; a percentage below 80 other than 50 and 51 keeps the encoder
    and changes only its rate-control constant, to the value derived for
    that percentage. *)
Theorem C3_quality_51_keeps_quantizer (width height s : Z) (w : world)
  (ctx0 : x264lib_ctx) (w0 : world) :
  init_encoder width height 50 s w = Some (ctx0, w0) ->
  colour_sampling ctx0 = X264_CSP_I420
  /\ set_encoding_quality ctx0 51 w0 = Some (ctx0, w0)
  /\ forall e, encoder ctx0 = Some e ->
       exists p0,
         encoders w0 !! e = Some p0
         /\ f_rf_constant p0 = get_x264_quality 50
         /\ forall pct, pct < 80 -> Z.land pct (Z.lnot 1) <> 50 ->
              set_encoding_quality ctx0 pct w0
              = Some (set_x264_quality (set_quality ctx0 pct)
                        (get_x264_quality pct),
                      with_log
                        (with_encoders w0
                           (<[e := set_f_rf_constant p0 (get_x264_quality pct)]>
                              (encoders w0)))
                        (Call_x264_encoder_reconfig e
                           (set_f_rf_constant p0 (get_x264_quality pct))
                         :: log w0)).
Proof.
  intros Hinit.
  apply do_init_encoder_inv in Hinit as [(Hq & _ & Hc & _ & _ & Ha & _) Hen].
  assert (H420 : colour_sampling ctx0 = X264_CSP_I420).
  { rewrite Hc. apply colour_sampling_below_80. lia. }
  split; [exact H420|]. split.
  - apply set_encoding_quality_noop.
    + right. rewrite H420. symmetry. apply colour_sampling_below_80. lia.
    + now rewrite Hq.
    + exact Ha.
  - intros e He. destruct (Hen e He) as (p0 & Hp0 & Hrf & _).
    exists p0. split; [exact Hp0|]. split; [exact Hrf|].
    intros pct Hlt Hbit.
    apply set_encoding_quality_soft; try assumption.
    + rewrite H420. symmetry. now apply colour_sampling_below_80.
    + rewrite Hq. intros Heq. apply Hbit. now rewrite <- Heq.
Qed.

(** C5, as the code has it: for every speed percentage in [0,100] the
    preset index computed by [set_encoding_speed] is
    [7 - clamp(ceil(pct / 12.5), 0, 7)], and a call on a live encoder stores
    it in the context; speed 100 gives index 0 and speed 0 index 7. *)
Theorem C5_speed_preset_rounds_up (ctx : x264lib_ctx) (w : world)
  (e : handle) (p : x264_param_t) (pct : Z) :
  0 <= pct <= 100 ->
  encoder ctx = Some e ->
  encoders w !! e = Some p ->
  new_preset pct = Some (Spec.presetIndex_ceil pct)
  /\ (exists ctx' w',
        set_encoding_speed ctx pct w = Some (ctx', w')
        /\ encoding_preset ctx' = Spec.presetIndex_ceil pct)
  /\ Spec.presetIndex_ceil 100 = 0
  /\ Spec.presetIndex_ceil 0 = 7.
Proof.
  intros Hpct He Hp.
  pose proof (new_preset_percent pct Hpct) as Hn.
  split; [exact Hn|]. split.
  - apply (set_encoding_speed_preset ctx pct w e p); try assumption.
    apply presetIndex_ceil_range.
  - split; reflexivity.
Qed.

End SoftReconfiguration.

(** ** The encoder on concrete runs *)

Section EncoderRuns.
Import X264 X264Props X264Facts Samples.
#[local] Existing Instance headers_2012.

Lemma opened50_run :
  init_encoder 640 480 50 1 world0 = Some (fst opened50, snd opened50).
Proof. vm_compute. reflexivity. Qed.

Lemma opened50_then95_run :
  set_encoding_quality (fst opened50) 95 (snd opened50)
  = Some (fst opened50_then95, snd opened50_then95).
Proof. vm_compute. reflexivity. Qed.

Lemma opened85_fixed_run :
  init_encoder 640 480 85 0 world0
  = Some (fst opened85_fixed, snd opened85_fixed).
Proof. vm_compute. reflexivity. Qed.

Lemma C2_colour_sampling_thresholds_witness :
  0 <= 85 <= 100
  /\ supports_csc_option (fst opened50) <> 0
  /\ 80 <= 85 < 90
  /\ get_x264_colour_sampling (fst opened50) 85 = X264_CSP_I422.
Proof.
  assert (Hpct : 0 <= 85 <= 100) by lia.
  assert (Hs : supports_csc_option (fst opened50) <> 0)
    by (vm_compute; discriminate).
  assert (Hr : 80 <= 85 < 90) by lia.
  split; [exact Hpct|]. split; [exact Hs|]. split; [exact Hr|].
  destruct (C2_colour_sampling_thresholds (fst opened50) 85 Hpct) as [Hon _].
  destruct (Hon Hs) as (_ & H422 & _).
  exact (H422 Hr).
Defined.

(** At quality 51 the claim fails: the encoder keeps the rate-control
    constant 26 derived for 50, the one derived for 51 is 25. *)
Lemma C3_counterexample :
  init_encoder 640 480 50 1 world0 = Some (fst opened50, snd opened50)
  /\ colour_sampling (fst opened50) = X264_CSP_I420
  /\ set_encoding_quality (fst opened50) 51 (snd opened50)
     = Some (fst opened50, snd opened50)
  /\ engine_quantizer (fst opened50) (snd opened50) = Some (float_of_int 26)
  /\ get_x264_quality 51 = float_of_int 25
  /\ engine_quantizer (fst opened50) (snd opened50)
     <> Some (get_x264_quality 51).
Proof.
  repeat split; try (vm_compute; reflexivity).
  vm_compute. discriminate.
Qed.

Lemma C3_quality_51_keeps_quantizer_witness :
  init_encoder 640 480 50 1 world0 = Some (fst opened50, snd opened50)
  /\ set_encoding_quality (fst opened50) 51 (snd opened50)
     = Some (fst opened50, snd opened50).
Proof.
  split; [exact opened50_run|].
  exact (proj1 (proj2 (C3_quality_51_keeps_quantizer 640 480 1 world0
                         (fst opened50) (snd opened50) opened50_run))).
Defined.

(** With chroma switching disabled, opening at quality 85 selects 4:2:0
    with the profile high422. *)
Lemma C4_counterexample :
  init_encoder 640 480 85 0 world0
  = Some (fst opened85_fixed, snd opened85_fixed)
  /\ colour_sampling (fst opened85_fixed) = X264_CSP_I420
  /\ profile (fst opened85_fixed) = Some PROFILE_HIGH422
  /\ ~ consistent (fst opened85_fixed).
Proof.
  repeat split; try (vm_compute; reflexivity).
  unfold consistent. vm_compute.
  intros [[_ H]|[[H _]|[H _]]]; discriminate.
Qed.

Lemma C4_profile_and_sampling_witness :
  opened_with 50 1 (fst opened50_then95) (snd opened50_then95)
  /\ consistent (fst opened50_then95).
Proof.
  assert (H : opened_with 50 1 (fst opened50_then95) (snd opened50_then95)).
  { eapply opened_set_quality.
    - eapply opened_init. exact opened50_run.
    - exact opened50_then95_run. }
  split; [exact H|].
  destruct (C4_profile_and_sampling 50 1 _ _ H) as (_ & Hon & _).
  apply Hon. discriminate.
Defined.

Lemma C5_speed_preset_rounds_up_witness :
  0 <= 5 <= 100
  /\ new_preset 5 = Some (Spec.presetIndex_ceil 5)
  /\ exists ctx' w',
       set_encoding_speed (fst opened50) 5 (snd opened50) = Some (ctx', w')
       /\ encoding_preset ctx' = Spec.presetIndex_ceil 5.
Proof.
  assert (Hpct : 0 <= 5 <= 100) by lia.
  assert (He : encoder (fst opened50) = Some 1%positive)
    by (vm_compute; reflexivity).
  assert (Hp : { p | encoders (snd opened50) !! 1%positive = Some p }).
  { eexists. vm_compute. reflexivity. }
  destruct Hp as [p Hp].
  destruct (C5_speed_preset_rounds_up (fst opened50) (snd opened50)
              1%positive p 5 Hpct He Hp) as (Hn & Hset & _).
  split; [exact Hpct|]. split; [exact Hn | exact Hset].
Defined.

Lemma C6_set_quality_twice_witness :
  set_encoding_quality (fst opened50) 95 (snd opened50)
  = Some (fst opened50_then95, snd opened50_then95)
  /\ set_encoding_quality (fst opened50_then95) 95 (snd opened50_then95)
     = Some (fst opened50_then95, snd opened50_then95).
Proof.
  split; [exact opened50_then95_run|].
  exact (C6_set_quality_twice _ _ _ _ _ opened50_then95_run).
Defined.

End EncoderRuns.

(** ** The decoder *)

Module X264DecoderFacts.
Import X264 X264Props X264Facts.

Section WithHeaders.
Context `{hdr : Headers}.

Ltac prim :=
  unfold sws_getContext, sws_freeContext, live_scaler,
    avcodec_find_decoder, avcodec_alloc_context3, avcodec_open2,
    avcodec_close, av_free, update_codec_ctx, live_codec_ctx,
    avcodec_decode_video2, x264_encoder_parameters, x264_encoder_encode,
    live_encoder, update_picture, live_picture, free_csc_image,
    fprintf_stderr, allocate, fresh, answer, record, deref,
    bind, ret, get, put, crash in *.

Ltac prim_inv H :=
  prim; repeat (case_match; simplify_eq/=);
  try (inversion H; clear H; subst; simpl).

(** *** What the library calls change *)






(** *** The decoder functions *)

Lemma set_codec_ctx_None_id ctx :
  codec_ctx ctx = None -> set_codec_ctx ctx None = ctx.
Proof. destruct ctx; simpl; intros ->; reflexivity. Qed.

Lemma set_yuv2rgb_None_id ctx :
  yuv2rgb ctx = None -> set_yuv2rgb ctx None = ctx.
Proof. destruct ctx; simpl; intros ->; reflexivity. Qed.

Lemma clean_decoder_inv ctx w ctx' w' :
  clean_decoder ctx w = Some (ctx', w') ->
  ctx' = set_yuv2rgb (set_codec_ctx ctx None) None.
Proof.
  unfold clean_decoder. intros H.
  step H as c1 w1 H1.
  assert (E1 : c1 = set_codec_ctx ctx None).
  { destruct (codec_ctx ctx) eqn:Hcc.
    - step H1 as u1 w2 H2. step H1 as u2 w3 H3. done_with H1. now subst.
    - apply ret_inv in H1 as [<- _]. symmetry.
      now apply set_codec_ctx_None_id. }
  destruct (yuv2rgb c1) eqn:Hy.
  - step H as u w2 H2. done_with H. now subst.
  - apply ret_inv in H as [<- _]. subst c1. symmetry.
    now apply set_yuv2rgb_None_id.
Qed.



End WithHeaders.

End X264DecoderFacts.

Section DecoderClaims.
Import X264 X264Props X264Facts X264DecoderFacts.
Context `{hdr : Headers}.


End DecoderClaims.

Section DecoderRuns.
Import X264 X264Props Samples.
#[local] Existing Instance headers_2012.

Lemma decoder420_run :
  init_decoder 640 480 PIX_FMT_YUV420P world_open2_fails
  = Some (Some (fst decoder420), snd decoder420).
Proof. vm_compute. reflexivity. Qed.

Lemma decoder_failed444_run :
  set_decoder_csc_format (fst decoder420) PIX_FMT_YUV444P (snd decoder420)
  = Some (fst decoder_failed444, snd decoder_failed444).
Proof. vm_compute. reflexivity. Qed.



End DecoderRuns.

(** ** Encoding and decoding one frame with x264lib.c *)

Module X264FrameFacts.
Import X264 X264Props X264Facts X264DecoderFacts.

Section WithHeaders.
Context `{hdr : Headers}.



Lemma avcodec_decode_video2_inv c picture data size w len got picture' w' :
  avcodec_decode_video2 c picture data size w
  = Some ((len, got, picture'), w') ->
  (len < 0 \/ got = 0) -> picture' = picture.
Proof.
  unfold avcodec_decode_video2. intros H Hno.
  step H as ha w1 Hlive.
  step H as len0 w2 H1. step H as got0 w3 H2.
  step H as d0 w4 H3. step H as d1 w5 H4. step H as d2 w6 H5.
  step H as l0 w7 H6. step H as l1 w8 H7. step H as l2 w9 H8.
  step H as u w10 H9.
  destruct ((len0 <? 0) || (got0 =? 0)) eqn:Hcase.
  - done_with H. now inversion H.
  - done_with H. inversion H; subst.
    apply orb_false_iff in Hcase as [Hl Hg].
    apply Z.ltb_ge in Hl. apply Z.eqb_neq in Hg. lia.
Qed.

Lemma copy_planes_no_frame (h : Z) (o : decoded) :
  dec_outsize o = 0 ->
  dec_outsize (copy_planes h frame_defaults 0 3 o) = 0.
Proof.
  intros Ho. simpl. rewrite Ho, Z.mul_0_r. reflexivity.
Qed.

(** [decompress_image] of x264lib.c tells a decoding error from a call that
    produced no frame: the first returns 2, the second never does (it
    returns 3 when the caller had cleared [*outsize]). *)
Lemma x264_decompress_image_codes ctx data size o w r o' w' :
  decompress_image ctx data size o w = Some ((r, o'), w') ->
  (refuses_decoding ctx /\ r = 1)
  \/ exists len got picture w1,
       avcodec_decode_video2 (codec_ctx ctx) frame_defaults data size w
       = Some ((len, got, picture), w1)
       /\ (len < 0 -> r = 2)
       /\ (0 <= len -> r = 0 \/ r = 3)
       /\ (0 <= len -> got = 0 -> dec_outsize o = 0 -> r = 3).
Proof.
  unfold decompress_image, refuses_decoding. intros H.
  destruct (codec_ctx ctx) as [c|] eqn:Hcc; [destruct (codec ctx) as [id|] eqn:Hco|].
  - right. step H as res w1 Hdec. destruct res as [[len got] picture].
    exists len, got, picture, w1. split; [exact Hdec|].
    cbv zeta in H. cbn [fst snd] in H.
    destruct (len <? 0) eqn:Hneg.
    + step H as u w2 Hlog. done_with H. inversion H; subst.
      apply Z.ltb_lt in Hneg.
      split; [reflexivity|]. split; intros; lia.
    + apply Z.ltb_ge in Hneg.
      destruct (dec_outsize (copy_planes (height ctx) picture 0 3 o) =? 0)
        eqn:Hz.
      * step H as u w2 Hlog. done_with H. inversion H; subst.
        split; [lia|]. split; auto.
      * done_with H. inversion H; subst.
        split; [lia|]. split; [auto|].
        intros _ Hgot Ho.
        apply avcodec_decode_video2_inv in Hdec; [|now right]. subst picture.
        rewrite copy_planes_no_frame in Hz by exact Ho. discriminate.
  - left. done_with H. inversion H. auto.
  - left. done_with H. inversion H. auto.
Qed.

End WithHeaders.

End X264FrameFacts.

(** ** Encoding and decoding one frame with vpxlib.c *)

Module VpxFacts.
Import Vpx VpxProps.

Section WithHeaders.
Context `{hdr : Headers}.

Lemma vpx_img_free_inv image w u w' :
  vpx_img_free image w = Some (u, w') ->
  exists h, image = Some h /\ buffer_released w' h.
Proof.
  unfold vpx_img_free, live_image, buffer_released, record, deref, bind, ret,
    get, put, crash.
  intros H. repeat (case_match; simplify_eq/=).
  all: eexists; split; [reflexivity|]; simpl.
  - now rewrite lookup_delete_eq.
  - now rewrite lookup_insert_eq.
Qed.

(** [compress_image] of vpxlib.c: on every path on which it returns the
    pixel buffer of the image has been released; when it does not return 0
    the output cells are as the caller left them. *)
Lemma vpx_compress_image_paths ctx image o w r o' w' :
  compress_image ctx image o w = Some ((r, o'), w') ->
  (exists h, image = Some h /\ buffer_released w' h)
  /\ (r <> 0 -> o' = o).
Proof.
  unfold compress_image. intros H.
  step H as u1 w1 Hset. step H as i w2 Henc.
  destruct (negb (i =? 0)) eqn:Hi.
  - step H as u2 w3 Hlog. step H as u3 w4 Hfree. done_with H.
    inversion H; subst r o'.
    apply vpx_img_free_inv in Hfree. split; [exact Hfree | reflexivity].
  - step H as p w3 Hdata. step H as pkt w4 Hpkt.
    destruct (negb (kind pkt =? VPX_CODEC_CX_FRAME_PKT)).
    + step H as u3 w5 Hfree. done_with H. inversion H; subst r o'.
      apply vpx_img_free_inv in Hfree. split; [exact Hfree | reflexivity].
    + step H as u3 w5 Hfree. done_with H. inversion H; subst r o'.
      apply vpx_img_free_inv in Hfree. split; [exact Hfree|].
      intros Hr. now contradiction Hr.
Qed.

(** [decompress_image] of vpxlib.c has one failure result, -1. *)
Lemma vpx_decompress_image_codes ctx data size o w r o' w' :
  decompress_image ctx data size o w = Some ((r, o'), w') ->
  r = 0 \/ (r = -1 /\ o' = o).
Proof.
  unfold decompress_image. intros H.
  step H as r0 w1 Hdec.
  destruct (negb (r0 =? 0)).
  - step H as u w2 Hlog. done_with H. inversion H. auto.
  - step H as img w2 Hframe. destruct img as [img|].
    + done_with H. inversion H. auto.
    + step H as u w3 Hlog. done_with H. inversion H. auto.
Qed.

End WithHeaders.

End VpxFacts.

Section VpxRuns.
Import Vpx VpxProps VpxSamples.
#[local] Existing Instance headers_2012.

(** C7 at the inputs where the code departs from it: when
    [vpx_codec_encode] fails (it returns 1), and when the packet is not a
    frame packet, [compress_image] of vpxlib.c releases the pixel buffer of
    the image (its descriptor stays allocated) and returns 1, but the cells
    [*out] and [*outsz] still hold what the caller had in them, not NULL
    and 0. *)
Theorem C7_vpx_failure_leaves_output :
  (exists w',
     compress_image a_context (Some 2%positive) stale (world_with (1 :: nil))
     = Some ((1, stale), w')
     /\ buffer_released w' 2%positive
     /\ is_Some (images w' !! 2%positive)
     /\ hd_error (rev (log w')) = Some (Call_vpx_codec_encode 2%positive 1))
  /\ (exists w',
        compress_image a_context (Some 2%positive) stale
          (world_with (0 :: 0 :: 1 :: nil))
        = Some ((1, stale), w')
        /\ buffer_released w' 2%positive)
  /\ out stale <> NULL
  /\ outsz stale <> 0.
Proof.
  split; [|split; [|split]].
  - eexists. split; [vm_compute; reflexivity|].
    split; [vm_compute; reflexivity|].
    split; [|vm_compute; reflexivity].
    eexists. vm_compute. reflexivity.
  - eexists. split; [vm_compute; reflexivity|]. vm_compute. reflexivity.
  - vm_compute. discriminate.
  - vm_compute. discriminate.
Qed.

(** C8 at the inputs where the code departs from it: [decompress_image] of
    vpxlib.c returns -1 when [vpx_codec_decode] reports an error, and the
    same -1 when decoding succeeds and [vpx_codec_get_frame] has no frame. *)
Theorem C8_vpx_no_frame_is_decode_error :
  (exists w',
     decompress_image a_context packet 1377 cleared (world_with (1 :: nil))
     = Some ((-1, cleared), w')
     /\ log w' = Call_printf "vpx_codec_decode"
                 :: Call_vpx_codec_decode packet 1377 1 :: nil)
  /\ (exists w',
        decompress_image a_context packet 1377 cleared
          (world_with (0 :: 1 :: nil))
        = Some ((-1, cleared), w')
        /\ log w' = Call_printf "vpx_codec_get_frame"
                    :: Call_vpx_codec_get_frame None
                    :: Call_vpx_codec_decode packet 1377 0 :: nil).
Proof.
  split.
  - eexists. split; vm_compute; reflexivity.
  - eexists. split; vm_compute; reflexivity.
Qed.

End VpxRuns.

(** * More of x264lib.c *)

(** ** What the library calls change, in full *)

Module X264Effects.
Import X264 X264Props X264Facts X264DecoderFacts X264Sessions.

Section WithHeaders.
Context `{hdr : Headers}.

Ltac prim :=
  unfold x264_encoder_open, x264_encoder_close, x264_encoder_parameters,
    x264_encoder_reconfig, x264_encoder_encode, sws_getContext,
    sws_freeContext, sws_scale, x264_picture_alloc, free_csc_image,
    update_picture, avcodec_find_decoder, avcodec_alloc_context3,
    avcodec_open2, avcodec_close, av_free, avcodec_decode_video2,
    update_codec_ctx, fprintf_stderr in *;
  unfold live_encoder, live_scaler, live_picture, live_codec_ctx, allocate,
    fresh, answer, record, deref, bind, ret, get, put, crash in *.

Ltac prim_inv H :=
  prim; repeat (case_match; simplify_eq/=);
  try (inversion H; clear H; subst; simpl).

Lemma sws_getContext_effect sw sh sf dw dh df fl w r w' :
  sws_getContext sw sh sf dw dh df fl w = Some (r, w') ->
  let c := {| srcW := sw; srcH := sh; srcFormat := sf; dstW := dw;
              dstH := dh; dstFormat := df; sws_flags := fl |} in
  encoders w' = encoders w /\ codec_ctxs w' = codec_ctxs w
  /\ pictures w' = pictures w
  /\ scalers w' = match r with
                  | Some h => <[h := c]> (scalers w)
                  | None => scalers w
                  end
  /\ log w' = Call_sws_getContext c r :: log w.
Proof. intros H. prim_inv H; auto. Qed.

Lemma sws_freeContext_effect c w u w' :
  sws_freeContext c w = Some (u, w') ->
  exists h, c = Some h /\ is_Some (scalers w !! h)
            /\ encoders w' = encoders w /\ codec_ctxs w' = codec_ctxs w
            /\ pictures w' = pictures w
            /\ scalers w' = delete h (scalers w)
            /\ log w' = Call_sws_freeContext h :: log w.
Proof. intros H. prim_inv H; eexists; repeat split; eauto. Qed.

Lemma x264_encoder_open_effect p w r w' :
  x264_encoder_open p w = Some (r, w') ->
  scalers w' = scalers w /\ codec_ctxs w' = codec_ctxs w
  /\ pictures w' = pictures w
  /\ encoders w' = match r with
                   | Some e => <[e := p]> (encoders w)
                   | None => encoders w
                   end
  /\ log w' = Call_x264_encoder_open p r :: log w.
Proof. intros H. prim_inv H; auto. Qed.

Lemma x264_encoder_close_effect e w u w' :
  x264_encoder_close e w = Some (u, w') ->
  exists h, e = Some h /\ is_Some (encoders w !! h)
            /\ scalers w' = scalers w /\ codec_ctxs w' = codec_ctxs w
            /\ pictures w' = pictures w
            /\ encoders w' = delete h (encoders w)
            /\ log w' = Call_x264_encoder_close h :: log w.
Proof. intros H. prim_inv H; eexists; repeat split; eauto. Qed.

Lemma x264_encoder_reconfig_effect e p w u w' :
  x264_encoder_reconfig e p w = Some (u, w') ->
  exists h p0, e = Some h /\ encoders w !! h = Some p0
               /\ w' = with_log
                         (with_encoders w
                            (<[h := reconfigured p0 p]> (encoders w)))
                         (Call_x264_encoder_reconfig h p :: log w).
Proof. intros H. prim_inv H; eauto. Qed.


(** ** The effect of the encoder functions *)

Lemma init_encoder_csc_effect ctx w cr w' :
  rgb2yuv ctx = None ->
  init_encoder_csc ctx w = Some (cr, w') ->
  fst cr = ctx
  /\ encoders w' = encoders w /\ codec_ctxs w' = codec_ctxs w
  /\ pictures w' = pictures w
  /\ scalers w' = match snd cr with
                  | Some c => <[c := encoder_converter ctx]> (scalers w)
                  | None => scalers w
                  end
  /\ log w' = Call_sws_getContext (encoder_converter ctx) (snd cr) :: log w.
Proof.
  intros Hnone. unfold init_encoder_csc. rewrite Hnone. intros H.
  step H as c1 w1 H1. apply ret_inv in H1 as [<- <-].
  step H as r w2 H2. done_with H. subst cr.
  apply sws_getContext_effect in H2 as (He & Hc & Hp & Hs & Hl).
  simpl fst. simpl snd.
  split; [reflexivity|]. split; [exact He|]. split; [exact Hc|].
  split; [exact Hp|]. split; [exact Hs | exact Hl].
Qed.

Lemma do_init_encoder_effect ctx width height q s w ctx' w' :
  rgb2yuv ctx = None ->
  do_init_encoder ctx width height q s w = Some (ctx', w') ->
  exists p,
    i_csp p = colour_sampling ctx' /\ i_width p = width
    /\ i_height p = height /\ f_rf_constant p = get_x264_quality q
    /\ param_profile p = Some (get_profile_for_quality q)
    /\ encoders w' = match encoder ctx' with
                     | Some e => <[e := p]> (encoders w)
                     | None => encoders w
                     end
    /\ scalers w' = match rgb2yuv ctx' with
                    | Some c => <[c := encoder_converter ctx']> (scalers w)
                    | None => scalers w
                    end
    /\ pictures w' = pictures w /\ codec_ctxs w' = codec_ctxs w
    /\ csc_format ctx'
       = get_csc_format_for_x264_format (colour_sampling ctx')
    /\ log w' = Call_sws_getContext (encoder_converter ctx') (rgb2yuv ctx')
                :: Call_x264_encoder_open p (encoder ctx') :: log w.
Proof.
  intros Hnone. unfold do_init_encoder. intros H.
  step H as name w1 H1. step H as e0 w2 H2. step H as cr w3 H3.
  done_with H. subst ctx'.
  unfold preset_name in H1. simpl in H1. apply ret_inv in H1 as [_ <-].
  apply x264_encoder_open_effect in H2 as (Hs2 & Hc2 & Hp2 & He2 & Hl2).
  apply init_encoder_csc_effect in H3 as (Hf & He5 & Hc5 & Hp5 & Hs5 & Hl5);
    [|exact Hnone].
  destruct cr as [c1 r]. simpl fst in *. simpl snd in *. subst c1.
  match type of Hl2 with
  | _ = Call_x264_encoder_open ?P _ :: _ => exists P
  end.
  do 5 (split; [reflexivity|]).
  split. { rewrite He5, He2. reflexivity. }
  split. { rewrite Hs5, Hs2. destruct r; reflexivity. }
  split. { rewrite Hp5. exact Hp2. }
  split. { rewrite Hc5. exact Hc2. }
  split. { reflexivity. }
  rewrite Hl5, Hl2. reflexivity.
Qed.

Lemma clean_encoder_effect ctx w ctx' w' :
  clean_encoder ctx w = Some (ctx', w') ->
  ctx' = set_encoder (set_rgb2yuv ctx None) None
  /\ encoders w' = match encoder ctx with
                   | Some e => delete e (encoders w)
                   | None => encoders w
                   end
  /\ scalers w' = match rgb2yuv ctx with
                  | Some c => delete c (scalers w)
                  | None => scalers w
                  end
  /\ pictures w' = pictures w /\ codec_ctxs w' = codec_ctxs w
  /\ log w' = match encoder ctx with
              | Some e => Call_x264_encoder_close e :: nil
              | None => nil
              end
              ++ match rgb2yuv ctx with
                 | Some c => Call_sws_freeContext c :: nil
                 | None => nil
                 end
              ++ log w.
Proof.
  intros H. pose proof (clean_encoder_inv _ _ _ _ H) as Hctx.
  split; [exact Hctx|]. clear Hctx.
  unfold clean_encoder in H.
  step H as c1 w1 H1.
  assert (Hs : c1 = set_rgb2yuv ctx None
               /\ encoders w1 = encoders w
               /\ scalers w1 = match rgb2yuv ctx with
                               | Some c => delete c (scalers w)
                               | None => scalers w
                               end
               /\ pictures w1 = pictures w /\ codec_ctxs w1 = codec_ctxs w
               /\ log w1 = match rgb2yuv ctx with
                           | Some c => Call_sws_freeContext c :: nil
                           | None => nil
                           end ++ log w).
  { destruct (rgb2yuv ctx) as [c|] eqn:Hr.
    - step H1 as u w2 H2. apply ret_inv in H1 as [<- <-].
      apply sws_freeContext_effect in H2
        as (h & Eh & _ & He & Hc & Hp & Hs & Hl).
      inversion Eh; subst h.
      split; [reflexivity|]. split; [exact He|]. split; [exact Hs|].
      split; [exact Hp|]. split; [exact Hc | exact Hl].
    - apply ret_inv in H1 as [<- <-].
      rewrite set_rgb2yuv_None_id by exact Hr.
      split; [reflexivity|]. split; [reflexivity|]. split; [reflexivity|].
      split; [reflexivity|]. split; reflexivity. }
  destruct Hs as (-> & He1 & Hs1 & Hp1 & Hc1 & Hl1).
  change (encoder (set_rgb2yuv ctx None)) with (encoder ctx) in H.
  destruct (encoder ctx) as [e|] eqn:Hen.
  - step H as u w2 H2. apply ret_inv in H as [_ <-].
    apply x264_encoder_close_effect in H2
      as (h & Eh & _ & Hs & Hc & Hp & He & Hl).
    inversion Eh; subst h.
    split. { rewrite He. f_equal. exact He1. }
    split. { rewrite Hs. exact Hs1. }
    split. { rewrite Hp. exact Hp1. }
    split. { rewrite Hc. exact Hc1. }
    rewrite Hl, Hl1. reflexivity.
  - apply ret_inv in H as [_ <-].
    split; [exact He1|]. split; [exact Hs1|]. split; [exact Hp1|].
    split; [exact Hc1 | exact Hl1].
Qed.


Lemma set_encoding_speed_effect ctx pct w ctx' w' :
  set_encoding_speed ctx pct w = Some (ctx', w') ->
  exists e p0 n,
    encoder ctx = Some e /\ encoders w !! e = Some p0
    /\ new_preset pct = Some n
    /\ ((n = encoding_preset ctx /\ ctx' = ctx /\ w' = w)
        \/ (n <> encoding_preset ctx
            /\ ctx' = set_encoding_preset ctx n
            /\ exists name,
                 0 <= n
                 /\ nth_error x264_preset_names (Z.to_nat n) = Some name
                 /\ let param :=
                      x264_param_apply_profile
                        (x264_param_default_preset name
                           (Some "zerolatency"%string))
                        (Some "baseline"%string) in
                    w' = with_log
                           (with_encoders w
                              (<[e := reconfigured p0 param]> (encoders w)))
                           (Call_x264_encoder_reconfig e param :: log w))).
Proof.
  unfold set_encoding_speed. intros H.
  step H as p0 w1 Hpar. step H as n w2 Hn.
  apply x264_encoder_parameters_inv in Hpar as (-> & e & He & Hp0).
  destruct (new_preset pct) as [n0|] eqn:Hnew; [|discriminate].
  apply ret_inv in Hn as [<- <-].
  exists e, p0, n0. split; [exact He|]. split; [exact Hp0|].
  split; [reflexivity|].
  destruct (n0 =? encoding_preset ctx) eqn:Hsame.
  - apply ret_inv in H as [<- <-]. apply Z.eqb_eq in Hsame. left. auto.
  - apply Z.eqb_neq in Hsame. right.
    split; [exact Hsame|].
    cbv zeta in H. step H as name w3 Hname. step H as u w4 Hre.
    apply ret_inv in H as [<- <-]. split; [reflexivity|].
    change (encoding_preset (set_encoding_preset ctx n0)) with n0 in Hname.
    change (encoder (set_encoding_preset ctx n0)) with (encoder ctx) in Hre.
    unfold preset_name in Hname.
    destruct (n0 <? 0) eqn:Hneg; [discriminate|].
    apply Z.ltb_ge in Hneg.
    destruct (nth_error x264_preset_names (Z.to_nat n0)) as [nm|] eqn:Hnth;
      [|discriminate].
    apply ret_inv in Hname as [<- <-].
    exists nm. split; [exact Hneg|]. split; [reflexivity|].
    apply x264_encoder_reconfig_effect in Hre as (h & p1 & Eh & Hp1 & ->).
    rewrite He in Eh. inversion Eh; subst h.
    rewrite Hp0 in Hp1. inversion Hp1; subst p1. reflexivity.
Qed.

Lemma update_picture_effect pic f w u w' :
  update_picture pic f w = Some (u, w') ->
  exists h p, pic = Some h /\ pictures w !! h = Some p
              /\ encoders w' = encoders w /\ scalers w' = scalers w
              /\ codec_ctxs w' = codec_ctxs w
              /\ pictures w' = <[h := f p]> (pictures w)
              /\ log w' = log w.
Proof. intros H. prim_inv H. eexists _, _. repeat split; eauto. Qed.

Lemma x264_encoder_encode_effect e pic w fp w' :
  x264_encoder_encode e pic w = Some (fp, w') ->
  encoders w' = encoders w /\ scalers w' = scalers w
  /\ codec_ctxs w' = codec_ctxs w /\ pictures w' = pictures w.
Proof. intros H. prim_inv H; auto. Qed.

Lemma fprintf_stderr_effect msg w u w' :
  fprintf_stderr msg w = Some (u, w') ->
  encoders w' = encoders w /\ scalers w' = scalers w
  /\ codec_ctxs w' = codec_ctxs w /\ pictures w' = pictures w
  /\ log w' = Call_stderr msg :: log w.
Proof. intros H. prim_inv H; auto. Qed.

Lemma free_csc_image_effect image w u w' :
  free_csc_image image w = Some (u, w') ->
  exists h, image = Some h /\ is_Some (pictures w !! h)
            /\ encoders w' = encoders w /\ scalers w' = scalers w
            /\ codec_ctxs w' = codec_ctxs w
            /\ pictures w' = delete h (pictures w).
Proof.
  intros H. prim_inv H. eexists.
  split; [reflexivity|]. split; [eauto|]. auto.
Qed.

(** [compress_image] leaves the encoder as it is, whatever the quality
    override, and frees the picture it is given. *)
Lemma compress_image_effect ctx pic_in o quality_override w r w' :
  compress_image ctx pic_in o quality_override w = Some (r, w') ->
  exists h, pic_in = Some h
            /\ encoders w' = encoders w /\ scalers w' = scalers w
            /\ codec_ctxs w' = codec_ctxs w
            /\ pictures w' = delete h (pictures w).
Proof.
  unfold compress_image. intros H.
  assert (Hfree : forall w1 u w2,
            encoders w1 = encoders w -> scalers w1 = scalers w ->
            codec_ctxs w1 = codec_ctxs w ->
            (forall h, pic_in = Some h ->
                       delete h (pictures w1) = delete h (pictures w)) ->
            free_csc_image pic_in w1 = Some (u, w2) ->
            exists h, pic_in = Some h
                      /\ encoders w2 = encoders w /\ scalers w2 = scalers w
                      /\ codec_ctxs w2 = codec_ctxs w
                      /\ pictures w2 = delete h (pictures w)).
  { intros w1 u w2 He Hs Hc Hp Hf.
    apply free_csc_image_effect in Hf as (h & Eh & _ & He2 & Hs2 & Hc2 & Hp2).
    exists h. split; [exact Eh|].
    split; [rewrite He2; exact He|]. split; [rewrite Hs2; exact Hs|].
    split; [rewrite Hc2; exact Hc|]. rewrite Hp2. now apply Hp. }
  destruct (encoder ctx) as [e|] eqn:He;
    [destruct (rgb2yuv ctx) as [c|] eqn:Hc|].
  - step H as u1 w1 Hpts. step H as u2 w2 Hover. step H as fp w3 Henc.
    apply update_picture_effect in Hpts
      as (h & p & Eh & Hp & He1 & Hs1 & Hc1 & Hp1 & _).
    assert (Ho : encoders w2 = encoders w /\ scalers w2 = scalers w
                 /\ codec_ctxs w2 = codec_ctxs w
                 /\ delete h (pictures w2) = delete h (pictures w)).
    { destruct (0 <=? quality_override);
        [destruct (fneq (get_x264_quality quality_override)
                   (x264_quality ctx))|].
      - step Hover as param w4 Hpar. 
        apply x264_encoder_parameters_inv in Hpar as (-> & _).
        apply update_picture_effect in Hover
          as (h' & p' & Eh' & Hp' & He2 & Hs2 & Hc2 & Hp2 & _).
        rewrite Eh in Eh'. inversion Eh'; subst h'.
        split; [rewrite He2; exact He1|]. split; [rewrite Hs2; exact Hs1|].
        split; [rewrite Hc2; exact Hc1|].
        rewrite Hp2, Hp1. now rewrite !delete_insert_eq.
      - apply ret_inv in Hover as [_ <-].
        split; [exact He1|]. split; [exact Hs1|]. split; [exact Hc1|].
        rewrite Hp1. now rewrite delete_insert_eq.
      - apply ret_inv in Hover as [_ <-].
        split; [exact He1|]. split; [exact Hs1|]. split; [exact Hc1|].
        rewrite Hp1. now rewrite delete_insert_eq. }
    destruct Ho as (He2 & Hs2 & Hc2 & Hp2).
    apply x264_encoder_encode_effect in Henc as (He3 & Hs3 & Hc3 & Hp3).
    assert (Hdel : forall h0, pic_in = Some h0 ->
                     delete h0 (pictures w3) = delete h0 (pictures w)).
    { intros h0 Eh0. rewrite Eh in Eh0. inversion Eh0; subst h0.
      rewrite Hp3. exact Hp2. }
    destruct (fst fp <? 0).
    + step H as u3 w4 Hlog. step H as u4 w5 Hf. apply ret_inv in H as [_ <-].
      apply fprintf_stderr_effect in Hlog as (He4 & Hs4 & Hc4 & Hp4 & _).
      apply (Hfree w4 u4 w5); try assumption.
      * rewrite He4, He3. exact He2.
      * rewrite Hs4, Hs3. exact Hs2.
      * rewrite Hc4, Hc3. exact Hc2.
      * intros h0 Eh0. rewrite Hp4. now apply Hdel.
    + step H as u4 w5 Hf. apply ret_inv in H as [_ <-].
      apply (Hfree w3 u4 w5); try assumption.
      * rewrite He3. exact He2.
      * rewrite Hs3. exact Hs2.
      * rewrite Hc3. exact Hc2.
  - step H as u4 w5 Hf. apply ret_inv in H as [_ <-].
    apply (Hfree w u4 w5); auto.
  - step H as u4 w5 Hf. apply ret_inv in H as [_ <-].
    apply (Hfree w u4 w5); auto.
Qed.

Lemma csc_image_rgb2yuv_effect ctx in_ stride w pic w' :
  csc_image_rgb2yuv ctx in_ stride w = Some (pic, w') ->
  ((encoder ctx = None \/ rgb2yuv ctx = None) /\ pic = None /\ w' = w)
  \/ exists e c h,
       encoder ctx = Some e /\ rgb2yuv ctx = Some c /\ pic = Some h
       /\ is_Some (scalers w !! c)
       /\ encoders w' = encoders w /\ scalers w' = scalers w
       /\ codec_ctxs w' = codec_ctxs w
       /\ pictures w'
          = <[h := {| pic_csp := colour_sampling ctx;
                      pic_width := width ctx; pic_height := height ctx;
                      i_pts := 0; pic_param := None |}]> (pictures w).
Proof.
  unfold csc_image_rgb2yuv. intros H.
  destruct (encoder ctx) as [e|] eqn:He;
    [destruct (rgb2yuv ctx) as [c|] eqn:Hc|].
  - right. exists e, c.
    prim_inv H. eexists. repeat split; eauto.
  - left. apply ret_inv in H as [<- <-]. auto.
  - left. apply ret_inv in H as [<- <-]. auto.
Qed.

End WithHeaders.
End X264Effects.

(** ** What an encoder session keeps *)

Module X264SessionFacts.
Import X264 X264Props X264Facts X264DecoderFacts X264Sessions X264Effects.

Section WithHeaders.
Context `{hdr : Headers}.

(** The three ways [set_encoding_quality] goes when the conversion
    algorithm of the context is the one the code always selects: a full
    re-initialisation, nothing at all, or a reconfiguration of the live
    encoder. *)
Lemma set_encoding_quality_effect ctx pct w ctx' w' :
  csc_algo ctx = get_csc_algo_for_quality pct ->
  set_encoding_quality ctx pct w = Some (ctx', w') ->
  (supports_csc_option ctx <> 0
   /\ colour_sampling ctx <> get_x264_colour_sampling ctx pct
   /\ exists w1,
        clean_encoder ctx w
        = Some (set_encoder (set_rgb2yuv ctx None) None, w1)
        /\ do_init_encoder (set_encoder (set_rgb2yuv ctx None) None)
             (width ctx) (height ctx) pct (supports_csc_option ctx) w1
           = Some (ctx', w'))
  \/ (ctx' = ctx /\ w' = w)
  \/ exists e p0,
       encoder ctx = Some e /\ encoders w !! e = Some p0
       /\ ctx' = set_x264_quality (set_quality ctx pct) (get_x264_quality pct)
       /\ w' = with_log
                 (with_encoders w
                    (<[e := set_f_rf_constant p0 (get_x264_quality pct)]>
                       (encoders w)))
                 (Call_x264_encoder_reconfig e
                    (set_f_rf_constant p0 (get_x264_quality pct)) :: log w).
Proof.
  intros Ha. unfold set_encoding_quality.
  generalize (get_x264_quality pct). intros rf H.
  destruct (negb (supports_csc_option ctx =? 0)
            && negb (colour_sampling ctx =? get_x264_colour_sampling ctx pct))
    eqn:Hhard.
  - left. apply andb_prop in Hhard as [Hs Hc].
    apply negb_true_iff, Z.eqb_neq in Hs.
    apply negb_true_iff, Z.eqb_neq in Hc.
    split; [exact Hs|]. split; [exact Hc|].
    step H as c1 w1 Hclean.
    pose proof (clean_encoder_inv _ _ _ _ Hclean) as ->.
    exists w1. split; [exact Hclean | exact H].
  - right. step H as c1 w1 Hin. cbv zeta in H.
    assert (Htail : forall c, csc_algo c = csc_algo ctx ->
              (if negb (csc_algo c
                        =? csc_algo (set_csc_algo c
                                       (get_csc_algo_for_quality pct)))
               then cr <- init_encoder_csc
                            (set_csc_algo c (get_csc_algo_for_quality pct)) ;;
                    ret (set_rgb2yuv (fst cr) (snd cr))
               else ret (set_csc_algo c (get_csc_algo_for_quality pct)))%cmd w1
              = Some (ctx', w') ->
              ctx' = c /\ w' = w1).
    { intros c Hc Hrun.
      change (csc_algo (set_csc_algo c (get_csc_algo_for_quality pct)))
        with (get_csc_algo_for_quality pct) in Hrun.
      rewrite Hc, Ha, Z.eqb_refl in Hrun.
      change (negb true) with false in Hrun. cbv iota in Hrun.
      apply ret_inv in Hrun as [<- <-].
      split; [|reflexivity].
      rewrite <- Ha, <- Hc. apply set_csc_algo_id. }
    destruct (negb (Z.land (quality ctx) (Z.lnot 1) =? Z.land pct (Z.lnot 1))).
    + right. step Hin as p0 w2 Hpar. step Hin as u w3 Hre.
      apply ret_inv in Hin as [<- <-].
      apply x264_encoder_parameters_inv in Hpar as (-> & e & He & Hp0).
      change (encoder (set_x264_quality (set_quality ctx pct) rf))
        with (encoder ctx) in Hre.
      apply x264_encoder_reconfig_effect in Hre as (h & p1 & Eh & Hp1 & ->).
      rewrite He in Eh. inversion Eh; subst h.
      rewrite Hp0 in Hp1. inversion Hp1; subst p1.
      apply Htail in H as [-> ->]; [|reflexivity].
      exists e, p0. split; [exact He|]. split; [exact Hp0|].
      split; reflexivity.
    + left. apply ret_inv in Hin as [<- <-].
      apply Htail in H as [-> ->]; [|reflexivity]. split; reflexivity.
Qed.

(** [do_init_encoder] in a world without library objects. *)
Lemma do_init_encoder_owns ctx width height q s w ctx' w' :
  rgb2yuv ctx = None ->
  encoders w = ∅ -> scalers w = ∅ -> pictures w = ∅ ->
  do_init_encoder ctx width height q s w = Some (ctx', w') ->
  encoder_owns ctx' w' /\ csc_algo ctx' = get_csc_algo_for_quality q.
Proof.
  intros Hnone He Hs Hp H.
  pose proof (do_init_encoder_inv _ _ _ _ _ _ _ _ H)
    as [(_ & _ & _ & _ & _ & Ha & Hw & Hh) _].
  apply do_init_encoder_effect in H
    as (p & Hcsp & Hpw & Hph & _ & _ & Hen & Hsc & Hpi & _ & Hfmt & _);
    [|exact Hnone].
  split; [|exact Ha].
  unfold encoder_owns.
  split.
  { destruct (encoder ctx') as [e|].
    - exists p. rewrite Hen, He, insert_empty.
      split; [reflexivity|]. split; [exact Hcsp|].
      split; [rewrite Hw; exact Hpw | rewrite Hh; exact Hph].
    - rewrite Hen. exact He. }
  split.
  { destruct (rgb2yuv ctx') as [c|].
    - rewrite Hsc, Hs. apply insert_empty.
    - rewrite Hsc. exact Hs. }
  split; [rewrite Hpi; exact Hp | exact Hfmt].
Qed.


(** X1: through a whole session that starts in a world without library
    objects, the world holds exactly the objects of the context: at most one
    encoder, open with the colour sampling and the size the context records,
    at most one converter, from RGB24 to the pixel format of the context,
    and no picture.  No encoder, converter or picture is leaked, and the
    context never points to an object that has been released. *)
Theorem encoder_session_owns (w0 : world) (ctx : x264lib_ctx) (w : world) :
  encoders w0 = ∅ -> scalers w0 = ∅ -> pictures w0 = ∅ ->
  encoder_session w0 ctx w ->
  encoder_owns ctx w /\ csc_algo ctx = get_csc_algo_for_quality 0.
Proof.
  intros He0 Hs0 Hp0.
  induction 1 as [width height q s ctx w Hinit
                 | ctx w pct ctx' w' Hprev [Hown Ha] Hset
                 | ctx w pct ctx' w' Hprev [Hown Ha] Hset
                 | ctx w in_ stride pic_in w1 o qo r w' Hprev [Hown Ha]
                     Hcsc Hcomp].
  - apply (do_init_encoder_owns zeroed_ctx width height q s w0);
      try assumption; reflexivity.
  - apply set_encoding_quality_effect in Hset; [|exact Ha].
    destruct Hown as (Hen & Hsc & Hpi & Hfmt).
    destruct Hset as [(_ & _ & w1 & Hclean & Hinit)
                     | [[-> ->] | (e & p0 & He & Hp & -> & ->)]].
    + apply clean_encoder_effect in Hclean
        as (_ & Hen1 & Hsc1 & Hpi1 & _).
      apply (do_init_encoder_owns _ _ _ _ _ w1) in Hinit;
        [exact Hinit | reflexivity | | |].
      * rewrite Hen1. destruct (encoder ctx) as [e|].
        -- destruct Hen as (p & -> & _). apply delete_singleton_eq.
        -- exact Hen.
      * rewrite Hsc1. destruct (rgb2yuv ctx) as [c|].
        -- rewrite Hsc. apply delete_singleton_eq.
        -- exact Hsc.
      * rewrite Hpi1. exact Hpi.
    + split; [|exact Ha]. repeat split; assumption.
    + split; [|exact Ha].
      unfold encoder_owns.
      change (encoder (set_x264_quality (set_quality ctx pct)
                         (get_x264_quality pct))) with (encoder ctx).
      change (rgb2yuv (set_x264_quality (set_quality ctx pct)
                         (get_x264_quality pct))) with (rgb2yuv ctx).
      rewrite He in Hen |- *. destruct Hen as (p & Hm & Hcsp & Hpw & Hph).
      rewrite Hm, lookup_singleton_eq in Hp. inversion Hp; subst p0.
      split.
      { eexists. split; [simpl; rewrite Hm; apply insert_singleton_eq|].
        split; [exact Hcsp|]. split; [exact Hpw | exact Hph]. }
      split; [exact Hsc|]. split; [exact Hpi | exact Hfmt].
  - apply set_encoding_speed_effect in Hset
      as (e & p0 & n & He & Hp & _ & Hcases).
    destruct Hown as (Hen & Hsc & Hpi & Hfmt).
    destruct Hcases as [(_ & -> & ->)
                       | (_ & -> & name & _ & _ & ->)].
    + split; [|exact Ha]. repeat split; assumption.
    + split; [|exact Ha].
      unfold encoder_owns.
      change (encoder (set_encoding_preset ctx n)) with (encoder ctx).
      change (rgb2yuv (set_encoding_preset ctx n)) with (rgb2yuv ctx).
      rewrite He in Hen |- *. destruct Hen as (p & Hm & Hcsp & Hpw & Hph).
      rewrite Hm, lookup_singleton_eq in Hp. inversion Hp; subst p0.
      split.
      { eexists. split; [simpl; rewrite Hm; apply insert_singleton_eq|].
        split; [exact Hcsp|]. split; [exact Hpw | exact Hph]. }
      split; [exact Hsc|]. split; [exact Hpi | exact Hfmt].
  - apply compress_image_effect in Hcomp
      as (h & Eh & Hen2 & Hsc2 & _ & Hpi2).
    apply csc_image_rgb2yuv_effect in Hcsc
      as [(_ & -> & _)
         | (e & c & h' & _ & _ & -> & _ & Hen1 & Hsc1 & _ & Hpi1)];
      [discriminate|].
    inversion Eh; subst h'.
    destruct Hown as (Hen & Hsc & Hpi & Hfmt).
    split; [|exact Ha].
    unfold encoder_owns.
    rewrite Hen2, Hen1, Hsc2, Hsc1, Hpi2, Hpi1, Hpi.
    split; [exact Hen|]. split; [exact Hsc|].
    split; [|exact Hfmt].
    rewrite delete_insert_eq. apply delete_empty.
Qed.

(** X2: [clean_encoder] on a context that owns its objects returns, leaves
    the world without encoder and converter and the context without
    pointers, and a second [clean_encoder] does nothing. *)
Theorem clean_encoder_releases (ctx : x264lib_ctx) (w : world) :
  encoder_owns ctx w ->
  exists w',
    clean_encoder ctx w = Some (set_encoder (set_rgb2yuv ctx None) None, w')
    /\ encoders w' = ∅ /\ scalers w' = ∅ /\ pictures w' = ∅
    /\ clean_encoder (set_encoder (set_rgb2yuv ctx None) None) w'
       = Some (set_encoder (set_rgb2yuv ctx None) None, w').
Proof.
  intros (Hen & Hsc & Hpi & _).
  assert (Hrun : exists c' w', clean_encoder ctx w = Some (c', w')).
  { unfold clean_encoder.
    destruct (rgb2yuv ctx) as [c|] eqn:Hc.
    - unfold sws_freeContext, live_scaler, deref, record, bind, ret, get, put.
      rewrite Hsc, lookup_singleton_eq. simpl.
      destruct (encoder ctx) as [e|] eqn:Hec; [|eauto].
      destruct Hen as (p & Hm & _).
      unfold x264_encoder_close, live_encoder, deref, record, bind, ret, get,
        put.
      simpl. rewrite Hm, lookup_singleton_eq. simpl. eauto.
    - unfold bind at 1. unfold ret at 1.
      destruct (encoder ctx) as [e|] eqn:Hec; [|unfold ret; eauto].
      destruct Hen as (p & Hm & _).
      unfold x264_encoder_close, live_encoder, deref, record, bind, ret, get,
        put.
      simpl. rewrite Hm, lookup_singleton_eq. simpl. eauto. }
  destruct Hrun as (c' & w' & Hrun).
  pose proof (clean_encoder_effect _ _ _ _ Hrun)
    as (-> & Hen1 & Hsc1 & Hpi1 & _).
  exists w'. split; [exact Hrun|].
  split.
  { rewrite Hen1. destruct (encoder ctx) as [e|].
    - destruct Hen as (p & -> & _). apply delete_singleton_eq.
    - exact Hen. }
  split.
  { rewrite Hsc1. destruct (rgb2yuv ctx) as [c|].
    - rewrite Hsc. apply delete_singleton_eq.
    - exact Hsc. }
  split; [rewrite Hpi1; exact Hpi | reflexivity].
Qed.

End WithHeaders.
End X264SessionFacts.

(** ** Encoding frames, changing speed, re-initialising *)

Module X264EncoderMore.
Import X264 X264Props X264Facts X264DecoderFacts X264Sessions X264Effects.
Import X264FrameFacts.

Section WithHeaders.
Context `{hdr : Headers}.




(** X4: without encoder or converter [csc_image_rgb2yuv] calls no library
    and returns NULL, and handing that NULL to [compress_image] is
    undefined: its guard for this very case frees the picture first. *)
Theorem encode_frame_uninitialised (ctx : x264lib_ctx) (w : world)
  (in_ : ptr) (stride : Z) (o : outbuf) (quality_override : Z) :
  encoder ctx = None \/ rgb2yuv ctx = None ->
  csc_image_rgb2yuv ctx in_ stride w = Some (None, w)
  /\ forall w1, compress_image ctx None o quality_override w1 = None.
Proof.
  intros Hun. split.
  - unfold csc_image_rgb2yuv.
    destruct Hun as [-> | Hr]; [reflexivity|].
    rewrite Hr. now destruct (encoder ctx).
  - intros w1. unfold compress_image.
    destruct Hun as [-> | Hr]; [reflexivity|].
    rewrite Hr. now destruct (encoder ctx).
Qed.

End WithHeaders.
End X264EncoderMore.

Module X264Reconfiguration.
Import X264 X264Props X264Facts X264DecoderFacts X264Sessions X264Effects.
Import X264SessionFacts.

Section WithHeaders.
Context `{hdr : Headers}.

(** X5: [set_encoding_speed] changes nothing of the context but the preset
    index (the preset name kept in [ctx->preset] stays the one of
    [do_init_encoder]), and asking for the same speed again returns without
    a call to the encoder. *)
Theorem set_encoding_speed_settles (ctx : x264lib_ctx) (pct : Z)
  (w : world) (ctx' : x264lib_ctx) (w' : world) :
  set_encoding_speed ctx pct w = Some (ctx', w') ->
  ctx' = set_encoding_preset ctx (encoding_preset ctx')
  /\ new_preset pct = Some (encoding_preset ctx')
  /\ set_encoding_speed ctx' pct w' = Some (ctx', w').
Proof.
  intros H.
  destruct (set_encoding_speed_effect _ _ _ _ _ H)
    as (e & p0 & n & He & Hp & Hn & Hcases).
  assert (Hsame : forall c wa pa,
            encoder c = Some e -> encoders wa !! e = Some pa ->
            encoding_preset c = n ->
            set_encoding_speed c pct wa = Some (c, wa)).
  { intros c wa pa Hce Hpa Hcn. unfold set_encoding_speed.
    rewrite Hce.
    rewrite (bind_run _ _ _ _ _ (x264_encoder_parameters_live _ _ _ Hpa)).
    unfold deref. rewrite Hn. unfold bind at 1. unfold ret at 1.
    rewrite Hcn, Z.eqb_refl. reflexivity. }
  destruct Hcases as [(En & -> & ->) | (Hne & -> & name & _ & _ & Hw)].
  - split; [now destruct ctx|]. split; [now rewrite <- En|].
    apply (Hsame _ _ p0); auto.
  - split; [reflexivity|]. split; [exact Hn|].
    cbv zeta in Hw. subst w'.
    eapply Hsame; [exact He| |reflexivity].
    simpl. apply lookup_insert_eq.
Qed.

(** X6: when [set_encoding_speed] changes the preset, the block it hands to
    [x264_encoder_reconfig] is the preset's default block with the baseline
    profile: neither the quantizer nor the profile of the context is written
    into it, so the encoder goes on with the default rate-control constant
    while the context still records its own. *)
Theorem set_encoding_speed_forgets_quality (ctx : x264lib_ctx) (pct : Z)
  (w : world) (ctx' : x264lib_ctx) (w' : world) :
  set_encoding_speed ctx pct w = Some (ctx', w') ->
  encoding_preset ctx' <> encoding_preset ctx ->
  exists e name,
    encoder ctx = Some e
    /\ nth_error x264_preset_names (Z.to_nat (encoding_preset ctx'))
       = Some name
    /\ log w' = Call_x264_encoder_reconfig e
                  {| param_preset := name;
                     param_tune := Some "zerolatency"%string;
                     param_profile := Some "baseline"%string;
                     i_threads := i_threads x264_param_default;
                     i_width := i_width x264_param_default;
                     i_height := i_height x264_param_default;
                     i_csp := i_csp x264_param_default;
                     i_log_level := i_log_level x264_param_default;
                     f_rf_constant := f_rf_constant x264_param_default |}
                :: log w
    /\ engine_quantizer ctx' w' = Some (f_rf_constant x264_param_default)
    /\ x264_quality ctx' = x264_quality ctx
    /\ profile ctx' = profile ctx.
Proof.
  intros H Hch.
  destruct (set_encoding_speed_effect _ _ _ _ _ H)
    as (e & p0 & n & He & Hp & Hn & Hcases).
  destruct Hcases as [(En & -> & ->) | (Hne & -> & name & _ & Hname & Hw)];
    [congruence|].
  cbv zeta in Hw. subst w'. exists e, name.
  split; [exact He|]. split; [exact Hname|].
  split; [reflexivity|].
  split; [|split; reflexivity].
  unfold engine_quantizer. simpl. rewrite He. simpl.
  now rewrite lookup_insert_eq.
Qed.

(** X7: a quality that moves the colour sampling closes the encoder and
    frees the converter before it opens the new ones, in this order, with a
    block that carries the new sampling, quantizer and profile and the old
    size; the preset index goes back to 2; and when the new encoder cannot
    be opened the context is left without one. *)
Theorem set_encoding_quality_reopens (ctx : x264lib_ctx) (pct : Z)
  (w : world) (ctx' : x264lib_ctx) (w' : world) (e c : handle) :
  supports_csc_option ctx <> 0 ->
  colour_sampling ctx <> get_x264_colour_sampling ctx pct ->
  encoder ctx = Some e -> rgb2yuv ctx = Some c ->
  set_encoding_quality ctx pct w = Some (ctx', w') ->
  exists p,
    log w' = Call_sws_getContext (encoder_converter ctx') (rgb2yuv ctx')
             :: Call_x264_encoder_open p (encoder ctx')
             :: Call_x264_encoder_close e
             :: Call_sws_freeContext c :: log w
    /\ i_csp p = get_x264_colour_sampling ctx pct
    /\ colour_sampling ctx' = get_x264_colour_sampling ctx pct
    /\ f_rf_constant p = get_x264_quality pct
    /\ param_profile p = Some (get_profile_for_quality pct)
    /\ i_width p = width ctx /\ i_height p = height ctx
    /\ quality ctx' = pct /\ encoding_preset ctx' = 2
    /\ (encoder ctx' = None -> encoders w' = delete e (encoders w)).
Proof.
  intros Hs Hcs He Hc H.
  unfold set_encoding_quality in H.
  replace (negb (supports_csc_option ctx =? 0)
           && negb (colour_sampling ctx =? get_x264_colour_sampling ctx pct))
    with true in H.
  2:{ symmetry. apply andb_true_iff.
      split; apply negb_true_iff, Z.eqb_neq; auto. }
  step H as c1 w1 H1.
  destruct (clean_encoder_effect _ _ _ _ H1)
    as (-> & Hen1 & Hsc1 & _ & _ & Hlog1).
  rewrite He in Hen1, Hlog1. rewrite Hc in Hlog1. simpl in Hlog1.
  change (width (set_encoder (set_rgb2yuv ctx None) None))
    with (width ctx) in H.
  change (height (set_encoder (set_rgb2yuv ctx None) None))
    with (height ctx) in H.
  change (supports_csc_option (set_encoder (set_rgb2yuv ctx None) None))
    with (supports_csc_option ctx) in H.
  assert (Hnone : rgb2yuv (set_encoder (set_rgb2yuv ctx None) None) = None)
    by reflexivity.
  destruct (do_init_encoder_effect _ _ _ _ _ _ _ _ Hnone H)
    as (p & Hcsp & Hw & Hh & Hrf & Hprof & Hen2 & _ & _ & _ & _ & Hlog2).
  destruct (do_init_encoder_inv _ _ _ _ _ _ _ _ H)
    as ((Hq & Hsup & Hsamp & _) & _).
  exists p.
  split; [rewrite Hlog2, Hlog1; reflexivity|].
  assert (Hsamp' : colour_sampling ctx' = get_x264_colour_sampling ctx pct).
  { rewrite Hsamp. unfold get_x264_colour_sampling. rewrite Hsup. reflexivity. }
  split; [rewrite Hcsp; exact Hsamp'|].
  split; [exact Hsamp'|].
  split; [exact Hrf|]. split; [exact Hprof|].
  split; [exact Hw|]. split; [exact Hh|].
  split; [exact Hq|].
  split.
  - clear -H. unfold do_init_encoder in H.
    step H as name wa Ha. step H as e0 wb Hb. step H as cr wc Hc.
    done_with H. subst ctx'.
    apply init_encoder_csc_inv in Hc as [-> _]. reflexivity.
  - intros Hno. rewrite Hno in Hen2. rewrite Hen2. exact Hen1.
Qed.

(** X8: both setters read the encoder's parameters first; on a context whose
    encoder could not be opened that is a NULL dereference. *)
Theorem setters_need_an_encoder (ctx : x264lib_ctx) (pct : Z) (w : world) :
  encoder ctx = None ->
  set_encoding_speed ctx pct w = None
  /\ (colour_sampling ctx = get_x264_colour_sampling ctx pct ->
      Z.land (quality ctx) (Z.lnot 1) <> Z.land pct (Z.lnot 1) ->
      set_encoding_quality ctx pct w = None).
Proof.
  intros He. split.
  - unfold set_encoding_speed. rewrite He. reflexivity.
  - intros Hs Hq. unfold set_encoding_quality.
    rewrite <- Hs, Z.eqb_refl, andb_false_r.
    apply Z.eqb_neq in Hq. rewrite Hq. simpl negb. cbv iota.
    rewrite He. reflexivity.
Qed.

End WithHeaders.
End X264Reconfiguration.

(** ** The decoder *)

Module X264DecoderEffects.
Import X264 X264Props X264Facts X264DecoderFacts X264Sessions X264Effects.

Section WithHeaders.
Context `{hdr : Headers}.

Ltac prim :=
  unfold sws_getContext, sws_freeContext, avcodec_find_decoder,
    avcodec_alloc_context3, avcodec_open2, avcodec_close, av_free,
    avcodec_decode_video2, update_codec_ctx, fprintf_stderr in *;
  unfold live_scaler, live_codec_ctx, allocate,
    fresh, answer, record, deref, bind, ret, get, put, crash in *.

Ltac prim_inv H :=
  prim; repeat (case_match; simplify_eq/=);
  try (inversion H; clear H; subst; simpl).

Lemma avcodec_find_decoder_effect id w r w' :
  avcodec_find_decoder id w = Some (r, w') ->
  (r = Some id \/ r = None)
  /\ encoders w' = encoders w /\ scalers w' = scalers w
  /\ codec_ctxs w' = codec_ctxs w /\ pictures w' = pictures w
  /\ log w' = Call_avcodec_find_decoder id r :: log w.
Proof. intros H. prim_inv H; auto 10. Qed.

Lemma avcodec_alloc_context3_effect w r w' :
  avcodec_alloc_context3 w = Some (r, w') ->
  encoders w' = encoders w /\ scalers w' = scalers w
  /\ pictures w' = pictures w
  /\ codec_ctxs w' = match r with
                     | Some h => <[h := avcodec_context_default]> (codec_ctxs w)
                     | None => codec_ctxs w
                     end
  /\ log w' = Call_avcodec_alloc_context3 r :: log w.
Proof. intros H. prim_inv H; auto 10. Qed.

Lemma update_codec_ctx_effect c f w u w' :
  update_codec_ctx c f w = Some (u, w') ->
  exists h a, c = Some h /\ codec_ctxs w !! h = Some a
              /\ encoders w' = encoders w /\ scalers w' = scalers w
              /\ pictures w' = pictures w
              /\ codec_ctxs w' = <[h := f a]> (codec_ctxs w)
              /\ log w' = log w.
Proof. intros H. prim_inv H; eauto 10. Qed.

Lemma avcodec_open2_effect c w r w' :
  avcodec_open2 c w = Some (r, w') ->
  exists h a, c = Some h /\ codec_ctxs w !! h = Some a
              /\ encoders w' = encoders w /\ scalers w' = scalers w
              /\ pictures w' = pictures w
              /\ codec_ctxs w'
                 = <[h := if r <? 0 then a else set_av_opened a true]>
                     (codec_ctxs w)
              /\ log w' = Call_avcodec_open2 h r :: log w.
Proof.
  intros H. prim_inv H.
  all: eexists _, _.
  all: split; [reflexivity|].
  all: split; [eassumption|].
  all: split; [reflexivity|].
  all: split; [reflexivity|].
  all: split; [reflexivity|].
  all: split; [|reflexivity].
  all: try reflexivity.
  all: symmetry; apply insert_id; assumption.
Qed.

Lemma avcodec_close_effect c w u w' :
  avcodec_close c w = Some (u, w') ->
  exists h a, c = Some h /\ codec_ctxs w !! h = Some a
              /\ encoders w' = encoders w /\ scalers w' = scalers w
              /\ pictures w' = pictures w
              /\ codec_ctxs w' = <[h := set_av_opened a false]> (codec_ctxs w)
              /\ log w' = Call_avcodec_close h :: log w.
Proof. intros H. prim_inv H; eauto 10. Qed.

Lemma av_free_effect c w u w' :
  av_free c w = Some (u, w') ->
  exists h, c = Some h /\ is_Some (codec_ctxs w !! h)
            /\ encoders w' = encoders w /\ scalers w' = scalers w
            /\ pictures w' = pictures w
            /\ codec_ctxs w' = delete h (codec_ctxs w)
            /\ log w' = Call_av_free h :: log w.
Proof. intros H. prim_inv H; eexists; repeat split; eauto. Qed.

Lemma avcodec_decode_video2_effect c picture data size w r w' :
  avcodec_decode_video2 c picture data size w = Some (r, w') ->
  exists h, c = Some h /\ is_Some (codec_ctxs w !! h)
            /\ encoders w' = encoders w /\ scalers w' = scalers w
            /\ pictures w' = pictures w /\ codec_ctxs w' = codec_ctxs w.
Proof.
  unfold avcodec_decode_video2. intros H.
  step H as ha w1 H1.
  assert (Hlive : exists h, c = Some h /\ is_Some (codec_ctxs w !! h)
                            /\ w1 = w).
  { clear H. prim_inv H1; eauto. }
  destruct Hlive as (h & -> & Hl & ->).
  assert (Hans : forall wa a wb, answer wa = Some (a, wb) ->
            encoders wb = encoders wa /\ scalers wb = scalers wa
            /\ pictures wb = pictures wa /\ codec_ctxs wb = codec_ctxs wa).
  { intros wa a wb Ha. unfold answer in Ha.
    destruct (env wa); inversion Ha; subst; auto. }
  step H as len w2 H2. apply Hans in H2 as (E2 & S2 & P2 & C2).
  step H as got w3 H3. apply Hans in H3 as (E3 & S3 & P3 & C3).
  step H as d0 w4 H4. apply Hans in H4 as (E4 & S4 & P4 & C4).
  step H as d1 w5 H5. apply Hans in H5 as (E5 & S5 & P5 & C5).
  step H as d2 w6 H6. apply Hans in H6 as (E6 & S6 & P6 & C6).
  step H as l0 w7 H7. apply Hans in H7 as (E7 & S7 & P7 & C7).
  step H as l1 w8 H8. apply Hans in H8 as (E8 & S8 & P8 & C8).
  step H as l2 w9 H9. apply Hans in H9 as (E9 & S9 & P9 & C9).
  step H as u w10 H10.
  assert (Hrec : encoders w10 = encoders w9 /\ scalers w10 = scalers w9
                 /\ pictures w10 = pictures w9
                 /\ codec_ctxs w10 = codec_ctxs w9).
  { unfold record in H10. inversion H10; subst. auto. }
  destruct Hrec as (E10 & S10 & P10 & C10).
  assert (Hw : w' = w10).
  { destruct ((len <? 0) || (got =? 0));
      apply ret_inv in H as [_ Hw]; congruence. }
  subst w'. exists h. split; [reflexivity|]. split; [exact Hl|].
  repeat split; congruence.
Qed.

Lemma init_decoder_context_effect ctx width height fmt w ctx' r w' :
  init_decoder_context ctx width height fmt w = Some ((ctx', r), w') ->
  let f := if fmt <? 0 then PIX_FMT_YUV420P else fmt in
  exists y,
    encoders w' = encoders w /\ pictures w' = pictures w
    /\ scalers w' = match y with
                    | Some c => <[c := decoder_converter ctx']> (scalers w)
                    | None => scalers w
                    end
    /\ ((ctx' = decoder_base ctx width height f y None
         /\ r = 1 /\ codec_ctxs w' = codec_ctxs w
         /\ log w' = Call_stderr "codec H264 not found!"
                     :: Call_avcodec_find_decoder CODEC_ID_H264 None
                     :: Call_sws_getContext (decoder_converter ctx') y
                     :: log w)
        \/ exists h ro,
             ctx' = set_codec_ctx
                      (decoder_base ctx width height f y (Some CODEC_ID_H264))
                      (Some h)
             /\ r = (if ro <? 0 then 1 else 0)
             /\ codec_ctxs w'
                = <[h := let a := set_pix_fmt
                                    (set_av_height
                                       (set_av_width avcodec_context_default
                                          width) height) f in
                         if ro <? 0 then a else set_av_opened a true]>
                    (codec_ctxs w)
             /\ log w' = (if ro <? 0
                          then Call_stderr "could not open codec" :: nil
                          else nil)
                         ++ Call_avcodec_open2 h ro
                         :: Call_avcodec_alloc_context3 (Some h)
                         :: Call_avcodec_find_decoder CODEC_ID_H264
                              (Some CODEC_ID_H264)
                         :: Call_sws_getContext (decoder_converter ctx') y
                         :: log w).
Proof.
  intros H. unfold init_decoder_context in H. cbv zeta.
  set (f := if fmt <? 0 then PIX_FMT_YUV420P else fmt) in *.
  step H as y w1 H1.
  apply sws_getContext_effect in H1 as (E1 & C1 & P1 & S1 & L1).
  cbv zeta in S1, L1.
  step H as c w2 H2.
  apply avcodec_find_decoder_effect in H2 as (Hc & E2 & S2 & C2 & P2 & L2).
  exists y.
  simpl codec in H. simpl codec_ctx in H.
  destruct Hc as [-> | ->].
  - step H as cc w3 H3.
    apply avcodec_alloc_context3_effect in H3 as (E3 & S3 & P3 & C3 & L3).
    cbn [codec_ctx set_codec_ctx] in H.
    step H as u1 w4 H4.
    apply update_codec_ctx_effect in H4
      as (h & a1 & -> & A1 & E4 & S4 & P4 & C4 & L4).
    rewrite C3, lookup_insert_eq in A1. inversion A1; subst a1. clear A1.
    step H as u2 w5 H5.
    apply update_codec_ctx_effect in H5
      as (h5 & a2 & Eh5 & A2 & E5 & S5 & P5 & C5 & L5).
    inversion Eh5; subst h5. clear Eh5.
    rewrite C4, lookup_insert_eq in A2. inversion A2; subst a2. clear A2.
    step H as u3 w6 H6.
    apply update_codec_ctx_effect in H6
      as (h6 & a3 & Eh6 & A3 & E6 & S6 & P6 & C6 & L6).
    inversion Eh6; subst h6. clear Eh6.
    rewrite C5, lookup_insert_eq in A3. inversion A3; subst a3. clear A3.
    step H as ro w7 H7.
    apply avcodec_open2_effect in H7
      as (h7 & a4 & Eh7 & A4 & E7 & S7 & P7 & C7 & L7).
    inversion Eh7; subst h7. clear Eh7.
    rewrite C6, lookup_insert_eq in A4. inversion A4; subst a4. clear A4.
    assert (Hmap : codec_ctxs w7
                   = <[h := if ro <? 0
                            then set_pix_fmt
                                   (set_av_height
                                      (set_av_width avcodec_context_default
                                         width) height) f
                            else set_av_opened
                                   (set_pix_fmt
                                      (set_av_height
                                         (set_av_width avcodec_context_default
                                            width) height) f) true]>
                       (codec_ctxs w)).
    { rewrite C7, C6, C5, C4, C3, C2, C1.
      rewrite !insert_insert_eq. reflexivity. }
    assert (Hfin : ctx' = set_codec_ctx
                            (decoder_base ctx width height f y
                               (Some CODEC_ID_H264)) (Some h)
                   /\ r = (if ro <? 0 then 1 else 0)
                   /\ encoders w' = encoders w7 /\ scalers w' = scalers w7
                   /\ pictures w' = pictures w7
                   /\ codec_ctxs w' = codec_ctxs w7
                   /\ log w' = (if ro <? 0
                                then Call_stderr "could not open codec" :: nil
                                else nil) ++ log w7).
    { destruct (ro <? 0).
      - step H as u w8 H8. done_with H.
        apply fprintf_stderr_effect in H8 as (E8 & S8 & C8 & P8 & L8).
        inversion H; subst ctx' r.
        repeat (split; [first [reflexivity | assumption]|]). exact L8.
      - done_with H. inversion H; subst ctx' r.
        repeat (split; [reflexivity|]). reflexivity. }
    destruct Hfin as (Ectx & Er & Ef & Sf & Pf & Cf & Lf).
    split; [congruence|]. split; [congruence|].
    split.
    { rewrite Sf, S7, S6, S5, S4, S3, S2, S1. rewrite Ectx.
      reflexivity. }
    right. exists h, ro.
    split; [exact Ectx|]. split; [exact Er|].
    split.
    { rewrite Cf, Hmap. now destruct (ro <? 0). }
    rewrite Lf, L7, L6, L5, L4, L3, L2, L1. rewrite Ectx. reflexivity.
  - step H as u w3 H3. done_with H.
    apply fprintf_stderr_effect in H3 as (E3 & S3 & C3 & P3 & L3).
    inversion H; subst ctx' r.
    split; [congruence|]. split; [congruence|].
    split; [rewrite S3, S2, S1; reflexivity|].
    left. split; [reflexivity|]. split; [reflexivity|].
    split; [congruence|].
    rewrite L3, L2, L1. reflexivity.
Qed.

End WithHeaders.
End X264DecoderEffects.

Module X264DecoderSessions.
Import X264 X264Props X264Facts X264DecoderFacts X264Sessions X264Effects.
Import X264DecoderEffects X264FrameFacts.

Section WithHeaders.
Context `{hdr : Headers}.

Lemma clean_decoder_effect ctx w ctx' w' :
  clean_decoder ctx w = Some (ctx', w') ->
  ctx' = set_yuv2rgb (set_codec_ctx ctx None) None
  /\ encoders w' = encoders w /\ pictures w' = pictures w
  /\ codec_ctxs w' = match codec_ctx ctx with
                     | Some c => delete c (codec_ctxs w)
                     | None => codec_ctxs w
                     end
  /\ scalers w' = match yuv2rgb ctx with
                  | Some c => delete c (scalers w)
                  | None => scalers w
                  end
  /\ log w' = match yuv2rgb ctx with
              | Some c => Call_sws_freeContext c :: nil
              | None => nil
              end
              ++ match codec_ctx ctx with
                 | Some c => Call_av_free c :: Call_avcodec_close c :: nil
                 | None => nil
                 end
              ++ log w.
Proof.
  intros H. pose proof (clean_decoder_inv _ _ _ _ H) as Hctx.
  split; [exact Hctx|]. clear Hctx.
  unfold clean_decoder in H.
  step H as c1 w1 H1.
  assert (Hfirst : yuv2rgb c1 = yuv2rgb ctx
                   /\ encoders w1 = encoders w /\ pictures w1 = pictures w
                   /\ scalers w1 = scalers w
                   /\ codec_ctxs w1 = match codec_ctx ctx with
                                      | Some c => delete c (codec_ctxs w)
                                      | None => codec_ctxs w
                                      end
                   /\ log w1 = match codec_ctx ctx with
                               | Some c => Call_av_free c
                                           :: Call_avcodec_close c :: nil
                               | None => nil
                               end ++ log w).
  { destruct (codec_ctx ctx) as [c|] eqn:Hcc.
    - step H1 as u1 w2 H2. step H1 as u2 w3 H3. done_with H1. subst c1.
      apply avcodec_close_effect in H2
        as (h & a & Eh & _ & E2 & S2 & P2 & C2 & L2).
      inversion Eh; subst h.
      apply av_free_effect in H3 as (h & Eh' & _ & E3 & S3 & P3 & C3 & L3).
      inversion Eh'; subst h.
      split; [reflexivity|].
      split; [congruence|]. split; [congruence|]. split; [congruence|].
      split; [rewrite C3, C2; apply delete_insert_eq|].
      rewrite L3, L2. reflexivity.
    - apply ret_inv in H1 as [<- <-]. repeat split; reflexivity. }
  destruct Hfirst as (Hy & E1 & P1 & S1 & C1 & L1).
  rewrite Hy in H.
  destruct (yuv2rgb ctx) as [c|].
  - step H as u w2 H2. done_with H.
    apply sws_freeContext_effect in H2
      as (h & Eh & _ & E2 & C2 & P2 & S2 & L2).
    inversion Eh; subst h.
    split; [congruence|]. split; [congruence|]. split; [congruence|].
    split; [congruence|]. rewrite L2, L1. reflexivity.
  - apply ret_inv in H as [_ <-].
    split; [exact E1|]. split; [exact P1|]. split; [exact C1|].
    split; [exact S1 | exact L1].
Qed.

Lemma decompress_image_effect ctx data size o w r w' :
  decompress_image ctx data size o w = Some (r, w') ->
  encoders w' = encoders w /\ scalers w' = scalers w
  /\ pictures w' = pictures w /\ codec_ctxs w' = codec_ctxs w.
Proof.
  unfold decompress_image. intros H.
  destruct (codec_ctx ctx) as [c|]; [destruct (codec ctx) as [id|]|].
  - step H as res w1 Hdec.
    apply avcodec_decode_video2_effect in Hdec
      as (h & _ & _ & E1 & S1 & P1 & C1).
    cbv zeta in H.
    destruct (fst (fst res) <? 0).
    + step H as u w2 Hlog. done_with H.
      apply fprintf_stderr_effect in Hlog as (E2 & S2 & C2 & P2 & _).
      repeat split; congruence.
    + destruct (dec_outsize (copy_planes (height ctx) (snd res) 0 3 o) =? 0).
      * step H as u w2 Hlog. done_with H.
        apply fprintf_stderr_effect in Hlog as (E2 & S2 & C2 & P2 & _).
        repeat split; congruence.
      * apply ret_inv in H as [_ <-]. repeat split; assumption.
  - apply ret_inv in H as [_ <-]. repeat split; reflexivity.
  - apply ret_inv in H as [_ <-]. repeat split; reflexivity.
Qed.

Lemma init_decoder_context_owns ctx width height fmt w ctx' r w' :
  scalers w = ∅ -> codec_ctxs w = ∅ ->
  codec_ctx ctx = None ->
  init_decoder_context ctx width height fmt w = Some ((ctx', r), w') ->
  decoder_owns ctx' w'.
Proof.
  intros Hs Hc Hnone H.
  apply init_decoder_context_effect in H
    as (y & _ & _ & Hsc & Hcases).
  cbv zeta in Hcases.
  destruct Hcases as [(Ectx & _ & Hcc & _) | (h & ro & Ectx & _ & Hcc & _)].
  - unfold decoder_owns.
    assert (Ecc : codec_ctx ctx' = None) by (rewrite Ectx; exact Hnone).
    assert (Ey : yuv2rgb ctx' = y) by (rewrite Ectx; reflexivity).
    rewrite Ecc, Ey. split; [rewrite Hcc; exact Hc|].
    destruct y as [c|]; rewrite Hsc, Hs; [apply insert_empty | reflexivity].
  - unfold decoder_owns.
    assert (Ecc : codec_ctx ctx' = Some h) by (rewrite Ectx; reflexivity).
    assert (Ey : yuv2rgb ctx' = y) by (rewrite Ectx; reflexivity).
    rewrite Ecc, Ey. split.
    + eexists. split; [rewrite Hcc, Hc; apply insert_empty|].
      rewrite Ectx. destruct (ro <? 0); repeat split; reflexivity.
    + destruct y as [c|]; rewrite Hsc, Hs; [apply insert_empty | reflexivity].
Qed.

Lemma avcodec_close_runs c a w :
  codec_ctxs w !! c = Some a ->
  exists w1, avcodec_close (Some c) w = Some (tt, w1)
             /\ codec_ctxs w1 = <[c := set_av_opened a false]> (codec_ctxs w)
             /\ scalers w1 = scalers w.
Proof.
  intros Ha.
  unfold avcodec_close, update_codec_ctx, live_codec_ctx, deref, record,
    bind, ret, get, put.
  simpl. rewrite Ha. simpl. rewrite Ha. simpl. eauto.
Qed.

Lemma av_free_runs c a w :
  codec_ctxs w !! c = Some a ->
  exists w1, av_free (Some c) w = Some (tt, w1)
             /\ codec_ctxs w1 = delete c (codec_ctxs w)
             /\ scalers w1 = scalers w.
Proof.
  intros Ha.
  unfold av_free, live_codec_ctx, deref, record, bind, ret, get, put.
  simpl. rewrite Ha. simpl. eauto.
Qed.

Lemma sws_freeContext_runs c b w :
  scalers w !! c = Some b ->
  exists w1, sws_freeContext (Some c) w = Some (tt, w1).
Proof.
  intros Hb.
  unfold sws_freeContext, live_scaler, deref, record, bind, ret, get, put.
  simpl. rewrite Hb. simpl. eauto.
Qed.

Lemma clean_decoder_owned ctx w :
  decoder_owns ctx w ->
  exists w',
    clean_decoder ctx w = Some (set_yuv2rgb (set_codec_ctx ctx None) None, w')
    /\ codec_ctxs w' = ∅ /\ scalers w' = ∅
    /\ encoders w' = encoders w /\ pictures w' = pictures w.
Proof.
  intros (Hcc & Hsc).
  assert (Hrun : exists c' w', clean_decoder ctx w = Some (c', w')).
  { unfold clean_decoder.
    assert (Hsecond : forall c1 w1,
              yuv2rgb c1 = yuv2rgb ctx -> scalers w1 = scalers w ->
              exists c' w',
                match yuv2rgb c1 with
                | Some _ => (sws_freeContext (yuv2rgb c1) ;;;
                             ret (set_yuv2rgb c1 None))%cmd
                | None => ret c1
                end w1 = Some (c', w')).
    { intros c1 w1 Hy Hs1. rewrite Hy.
      destruct (yuv2rgb ctx) as [c|]; [|unfold ret; eauto].
      destruct (sws_freeContext_runs c (decoder_converter ctx) w1)
        as (w2 & Hf).
      { rewrite Hs1, Hsc. apply lookup_singleton_eq. }
      rewrite (bind_run _ _ _ _ _ Hf). unfold ret. eauto. }
    destruct (codec_ctx ctx) as [c|] eqn:Ec.
    - destruct Hcc as (a & Hm & _).
      destruct (avcodec_close_runs c a w) as (w1 & Hclose & C1 & S1).
      { rewrite Hm. apply lookup_singleton_eq. }
      destruct (av_free_runs c (set_av_opened a false) w1)
        as (w2 & Hfree & C2 & S2).
      { rewrite C1. apply lookup_insert_eq. }
      match goal with
      | |- exists c' w', bind ?m ?k w = _ =>
          assert (Hin : m w = Some (set_codec_ctx ctx None, w2))
      end.
      { rewrite (bind_run _ _ _ _ _ Hclose).
        rewrite (bind_run _ _ _ _ _ Hfree). reflexivity. }
      rewrite (bind_run _ _ _ _ _ Hin).
      apply Hsecond; [reflexivity | congruence].
    - unfold bind at 1. unfold ret at 1. apply Hsecond; reflexivity. }
  destruct Hrun as (c' & w' & Hrun).
  pose proof (clean_decoder_effect _ _ _ _ Hrun)
    as (-> & E & P & C & S & _).
  exists w'. split; [exact Hrun|].
  split.
  { rewrite C. destruct (codec_ctx ctx) as [c|].
    - destruct Hcc as (a & -> & _). apply delete_singleton_eq.
    - exact Hcc. }
  split.
  { rewrite S. destruct (yuv2rgb ctx) as [c|].
    - rewrite Hsc. apply delete_singleton_eq.
    - exact Hsc. }
  split; assumption.
Qed.

(** X9: through a whole decoder session that starts in a world without
    converter and codec context, the world holds exactly the objects of the
    context: at most one codec context, set to the size and the pixel
    format the context records, and at most one converter, from that format
    to RGB24.  This holds after a reconfiguration that failed, too. *)
Theorem decoder_session_owns (w0 : world) (ctx : x264lib_ctx) (w : world) :
  scalers w0 = ∅ -> codec_ctxs w0 = ∅ ->
  decoder_session w0 ctx w ->
  decoder_owns ctx w.
Proof.
  intros Hs0 Hc0.
  induction 1 as [width height fmt ctx w Hinit
                 | ctx w fmt ctx' w' Hprev Hown Hset
                 | ctx w in_ size o r w' Hprev Hown Hdec].
  - unfold init_decoder in Hinit.
    step Hinit as cr w1 H1. destruct cr as [c1 r1]. cbn [fst snd] in Hinit.
    destruct (r1 =? 0); apply ret_inv in Hinit as [Hc <-];
      [|discriminate].
    inversion Hc; subst c1.
    apply (init_decoder_context_owns zeroed_ctx width height fmt w0 ctx r1 w1);
      [exact Hs0 | exact Hc0 | reflexivity | exact H1].
  - unfold set_decoder_csc_format in Hset. cbv zeta in Hset.
    destruct (negb (csc_format ctx
                    =? (if fmt <? 0 then PIX_FMT_YUV420P else fmt))).
    + step Hset as c1 w1 H1.
      destruct (clean_decoder_owned ctx w Hown)
        as (w1' & Hrun & Hc1 & Hs1 & _).
      rewrite Hrun in H1. inversion H1; subst c1 w1. clear H1.
      step Hset as cr w2 H2. destruct cr as [c2 r2].
      step Hset as u w3 H3. done_with Hset. cbn [fst snd] in *. subst c2.
      assert (Hown2 : decoder_owns ctx' w2).
      { eapply init_decoder_context_owns; [exact Hs1 | exact Hc1 | | exact H2].
        reflexivity. }
      assert (Hsame : scalers w3 = scalers w2
                      /\ codec_ctxs w3 = codec_ctxs w2).
      { destruct (negb (r2 =? 0)).
        - apply fprintf_stderr_effect in H3 as (_ & S3 & C3 & _). auto.
        - apply ret_inv in H3 as [_ <-]. auto. }
      destruct Hsame as (S3 & C3).
      unfold decoder_owns. rewrite S3, C3. exact Hown2.
    + apply ret_inv in Hset as [<- <-]. exact Hown.
  - apply decompress_image_effect in Hdec as (_ & S & _ & C).
    unfold decoder_owns. rewrite S, C. exact Hown.
Qed.

(** X10: [clean_decoder] on a context that owns its objects returns, closes
    the codec context before it frees it, leaves the world without codec
    context and converter and the context without pointers to them, and a
    second [clean_decoder] does nothing. *)
Theorem clean_decoder_releases (ctx : x264lib_ctx) (w : world) :
  decoder_owns ctx w ->
  exists w',
    clean_decoder ctx w = Some (set_yuv2rgb (set_codec_ctx ctx None) None, w')
    /\ codec_ctxs w' = ∅ /\ scalers w' = ∅
    /\ log w' = match yuv2rgb ctx with
                | Some c => Call_sws_freeContext c :: nil
                | None => nil
                end
                ++ match codec_ctx ctx with
                   | Some c => Call_av_free c :: Call_avcodec_close c :: nil
                   | None => nil
                   end
                ++ log w
    /\ clean_decoder (set_yuv2rgb (set_codec_ctx ctx None) None) w'
       = Some (set_yuv2rgb (set_codec_ctx ctx None) None, w').
Proof.
  intros Hown.
  destruct (clean_decoder_owned ctx w Hown) as (w' & Hrun & Hc & Hs & _).
  exists w'. split; [exact Hrun|]. split; [exact Hc|]. split; [exact Hs|].
  split; [|reflexivity].
  apply clean_decoder_effect in Hrun as (_ & _ & _ & _ & _ & Hl). exact Hl.
Qed.

End WithHeaders.
End X264DecoderSessions.

Module X264DecoderMore.
Import X264 X264Props X264Facts X264DecoderFacts X264Sessions X264Effects.
Import X264DecoderEffects X264FrameFacts X264DecoderSessions.

Section WithHeaders.
Context `{hdr : Headers}.

(** X11: a decoder that [init_decoder] returns records the size and the
    format asked for (YUV420P for a negative format), has the H264 decoder
    and a codec context that is open and set to that size and format; its
    converter, when there is one, goes from that format to RGB24. *)
Theorem init_decoder_opens (width height fmt : Z) (w : world)
  (ctx : x264lib_ctx) (w' : world) :
  init_decoder width height fmt w = Some (Some ctx, w') ->
  let f := if fmt <? 0 then PIX_FMT_YUV420P else fmt in
  X264.width ctx = width /\ X264.height ctx = height /\ csc_format ctx = f
  /\ codec ctx = Some CODEC_ID_H264
  /\ (exists c, codec_ctx ctx = Some c
                /\ codec_ctxs w' !! c
                   = Some (set_av_opened
                             (set_pix_fmt
                                (set_av_height
                                   (set_av_width avcodec_context_default width)
                                   height) f) true))
  /\ (forall c, yuv2rgb ctx = Some c ->
                scalers w' !! c
                = Some {| srcW := width; srcH := height; srcFormat := f;
                          dstW := width; dstH := height;
                          dstFormat := PIX_FMT_RGB24;
                          sws_flags := Z.lor SWS_SINC SWS_ACCURATE_RND |}).
Proof.
  intros H f. unfold init_decoder in H.
  step H as cr w1 H1. destruct cr as [c1 r1]. cbn [fst snd] in H.
  destruct (r1 =? 0) eqn:Hr; apply ret_inv in H as [Hc <-]; [|discriminate].
  inversion Hc; subst c1. clear Hc. apply Z.eqb_eq in Hr. subst r1.
  apply init_decoder_context_effect in H1 as (y & _ & _ & Hsc & Hcases).
  cbv zeta in Hcases. fold f in Hcases.
  destruct Hcases as [(_ & Hr & _) | (h & ro & Ectx & Hr & Hcc & _)];
    [discriminate|].
  destruct (ro <? 0); [discriminate|].
  subst ctx.
  split; [reflexivity|]. split; [reflexivity|]. split; [reflexivity|].
  split; [reflexivity|].
  split.
  - exists h. split; [reflexivity|]. rewrite Hcc. apply lookup_insert_eq.
  - intros c Hy. simpl in Hy. subst y. rewrite Hsc.
    rewrite lookup_insert_eq. unfold decoder_converter. simpl.
    reflexivity.
Qed.

(** X12: when [init_decoder] returns NULL it has freed the context but none
    of the library objects it had created: the converter and the codec
    context that the calls of this run returned are still allocated, and
    nothing points to them any more. *)
Theorem init_decoder_failure_leaks (width height fmt : Z) (w w' : world) :
  init_decoder width height fmt w = Some (None, w') ->
  exists l,
    log w' = l ++ log w
    /\ (forall b c, In (Call_sws_getContext b (Some c)) l ->
                    scalers w' !! c = Some b)
    /\ (forall c, In (Call_avcodec_alloc_context3 (Some c)) l ->
                  is_Some (codec_ctxs w' !! c))
    /\ (forall c, ~ In (Call_sws_freeContext c) l)
    /\ (forall c, ~ In (Call_av_free c) l).
Proof.
  intros H. unfold init_decoder in H.
  step H as cr w1 H1. destruct cr as [c1 r1]. cbn [fst snd] in H.
  destruct (r1 =? 0) eqn:Hr; apply ret_inv in H as [Hc <-]; [discriminate|].
  clear Hc.
  apply init_decoder_context_effect in H1 as (y & _ & _ & Hsc & Hcases).
  cbv zeta in Hcases.
  destruct Hcases as [(_ & _ & Hcc & Hl) | (h & ro & _ & Er & Hcc & Hl)].
  - eexists (_ :: _ :: _ :: nil). split; [exact Hl|].
    split.
    { intros b c [Hin | [Hin | [Hin | []]]]; try discriminate.
      inversion Hin; subst. rewrite Hsc. apply lookup_insert_eq. }
    split.
    { intros c [Hin | [Hin | [Hin | []]]]; discriminate. }
    split; intros c [Hin | [Hin | [Hin | []]]]; discriminate.
  - destruct (ro <? 0); [|subst r1; discriminate].
    eexists (_ :: _ :: _ :: _ :: _ :: nil). split; [exact Hl|].
    split.
    { intros b c [Hin | [Hin | [Hin | [Hin | [Hin | []]]]]];
        try discriminate.
      inversion Hin; subst. rewrite Hsc. apply lookup_insert_eq. }
    split.
    { intros c [Hin | [Hin | [Hin | [Hin | [Hin | []]]]]];
        try discriminate.
      inversion Hin; subst. rewrite Hcc, lookup_insert_eq. eauto. }
    split; intros c [Hin | [Hin | [Hin | [Hin | [Hin | []]]]]];
      discriminate.
Qed.

(** X13: after [set_decoder_csc_format] the context records the format asked
    for, whether the re-initialisation succeeded or not; asking for the
    same format again therefore does nothing, and does not retry a
    re-initialisation that failed. *)
Theorem set_decoder_csc_format_settles (ctx : x264lib_ctx) (fmt : Z)
  (w : world) (ctx' : x264lib_ctx) (w' : world) :
  set_decoder_csc_format ctx fmt w = Some (ctx', w') ->
  csc_format ctx' = (if fmt <? 0 then PIX_FMT_YUV420P else fmt)
  /\ set_decoder_csc_format ctx' fmt w' = Some (ctx', w').
Proof.
  intros H.
  assert (Hf : csc_format ctx' = (if fmt <? 0 then PIX_FMT_YUV420P else fmt)).
  { unfold set_decoder_csc_format in H. cbv zeta in H.
    destruct (csc_format ctx
              =? (if fmt <? 0 then PIX_FMT_YUV420P else fmt)) eqn:Hs.
    - apply ret_inv in H as [<- _]. now apply Z.eqb_eq.
    - cbn [negb] in H.
      step H as c1 w1 H1. step H as cr w2 H2. destruct cr as [c2 r2].
      step H as u w3 H3. done_with H. cbn [fst snd] in *. subst c2.
      apply init_decoder_context_effect in H2 as (y & _ & _ & _ & Hcases).
      cbv zeta in Hcases.
      destruct Hcases as [(-> & _) | (h & ro & -> & _)];
        cbn [csc_format decoder_base set_codec set_yuv2rgb set_csc_algo
               set_csc_format set_codec_ctx] in *;
        destruct (fmt <? 0) eqn:Hneg;
        try rewrite Hneg; try reflexivity;
        destruct (PIX_FMT_YUV420P <? 0); reflexivity. }
  split; [exact Hf|].
  unfold set_decoder_csc_format. cbv zeta.
  rewrite Hf, Z.eqb_refl. reflexivity.
Qed.

End WithHeaders.
End X264DecoderMore.

Module X264DecoderEdges.
Import X264 X264Props X264Facts X264DecoderFacts X264Sessions X264Effects.
Import X264DecoderEffects X264FrameFacts X264DecoderSessions.

Section WithHeaders.
Context `{hdr : Headers}.

(** X14: the context that [avcodec_alloc_context3] returns is written to
    without a check: when the decoder is found and the allocation fails,
    [init_decoder_context] dereferences NULL. *)
Theorem init_decoder_context_unchecked_alloc (ctx : x264lib_ctx)
  (width height fmt : Z) (w : world) (a b : Z) (rest : list Z) :
  env w = a :: 0 :: b :: rest -> b <> 0 ->
  init_decoder_context ctx width height fmt w = None.
Proof.
  intros Henv Hb. apply Z.eqb_neq in Hb.
  unfold init_decoder_context, sws_getContext, avcodec_find_decoder,
    avcodec_alloc_context3, update_codec_ctx, live_codec_ctx.
  unfold allocate, fresh, answer, record, deref, bind, ret, get, put, crash.
  rewrite Henv.
  destruct (a =? 0); simpl; rewrite Hb; reflexivity.
Qed.

Lemma sws_getContext_fails sw sh sf dw dh df fl w a rest :
  env w = a :: rest -> a <> 0 ->
  exists w1, sws_getContext sw sh sf dw dh df fl w = Some (None, w1)
             /\ env w1 = rest /\ scalers w1 = scalers w
             /\ codec_ctxs w1 = codec_ctxs w.
Proof.
  intros Henv Ha. apply Z.eqb_neq in Ha.
  unfold sws_getContext, allocate, fresh, answer, record, bind, ret, get, put.
  rewrite Henv, Ha. simpl. eauto.
Qed.

Lemma avcodec_find_decoder_finds id w rest :
  env w = 0 :: rest ->
  exists w1, avcodec_find_decoder id w = Some (Some id, w1)
             /\ env w1 = rest /\ scalers w1 = scalers w
             /\ codec_ctxs w1 = codec_ctxs w.
Proof.
  intros Henv.
  unfold avcodec_find_decoder, answer, record, bind, ret.
  rewrite Henv. simpl. eauto.
Qed.

Lemma avcodec_alloc_context3_runs w rest :
  env w = 0 :: rest ->
  exists h w1, avcodec_alloc_context3 w = Some (Some h, w1)
               /\ env w1 = rest /\ scalers w1 = scalers w
               /\ codec_ctxs w1
                  = <[h := avcodec_context_default]> (codec_ctxs w).
Proof.
  intros Henv.
  unfold avcodec_alloc_context3, allocate, fresh, answer, record, bind, ret,
    get, put.
  rewrite Henv. simpl. eauto 10.
Qed.

Lemma update_codec_ctx_runs h a f w :
  codec_ctxs w !! h = Some a ->
  exists w1, update_codec_ctx (Some h) f w = Some (tt, w1)
             /\ env w1 = env w /\ scalers w1 = scalers w
             /\ codec_ctxs w1 = <[h := f a]> (codec_ctxs w).
Proof.
  intros Ha.
  unfold update_codec_ctx, live_codec_ctx, deref, bind, ret, get, put.
  simpl. rewrite Ha. simpl. eauto 10.
Qed.

Lemma avcodec_open2_opens h a w ro rest :
  codec_ctxs w !! h = Some a -> env w = ro :: rest -> 0 <= ro ->
  exists w1, avcodec_open2 (Some h) w = Some (ro, w1)
             /\ scalers w1 = scalers w.
Proof.
  intros Ha Henv Hro. apply Z.ltb_ge in Hro.
  unfold avcodec_open2, update_codec_ctx, live_codec_ctx, deref, answer,
    record, bind, ret, get, put.
  simpl. rewrite Ha. simpl. rewrite Henv. simpl. rewrite Hro. simpl.
  rewrite Ha. simpl. eauto.
Qed.

(** X15: the result of [sws_getContext] is not checked either, but it is not
    used: when only the converter cannot be created, [init_decoder]
    succeeds and returns a decoder without converter. *)
Theorem init_decoder_without_converter (width height fmt : Z) (w : world)
  (a ro : Z) (rest : list Z) :
  env w = a :: 0 :: 0 :: ro :: rest -> a <> 0 -> 0 <= ro ->
  exists ctx w',
    init_decoder width height fmt w = Some (Some ctx, w')
    /\ yuv2rgb ctx = None /\ scalers w' = scalers w
    /\ ~ refuses_decoding ctx.
Proof.
  intros Henv Ha Hro.
  assert (Hin : exists ctx w7,
            init_decoder_context zeroed_ctx width height fmt w
            = Some ((ctx, 0), w7)
            /\ yuv2rgb ctx = None /\ scalers w7 = scalers w
            /\ ~ refuses_decoding ctx).
  { unfold init_decoder_context. cbv zeta.
    match goal with
    | |- context [sws_getContext ?sw ?sh ?sf ?dw ?dh ?df ?fl] =>
        destruct (sws_getContext_fails sw sh sf dw dh df fl w _ _ Henv Ha)
          as (w1 & H1 & E1 & S1 & C1)
    end.
    destruct (avcodec_find_decoder_finds CODEC_ID_H264 w1 _ E1)
      as (w2 & H2 & E2 & S2 & C2).
    destruct (avcodec_alloc_context3_runs w2 _ E2)
      as (h & w3 & H3 & E3 & S3 & C3).
    destruct (update_codec_ctx_runs h avcodec_context_default
                (fun a => set_av_width a width) w3)
      as (w4 & H4 & E4 & S4 & C4).
    { rewrite C3. apply lookup_insert_eq. }
    destruct (update_codec_ctx_runs h
                (set_av_width avcodec_context_default width)
                (fun a => set_av_height a height) w4)
      as (w5 & H5 & E5 & S5 & C5).
    { rewrite C4. apply lookup_insert_eq. }
    destruct (update_codec_ctx_runs h
                (set_av_height (set_av_width avcodec_context_default width)
                   height)
                (fun a => set_pix_fmt a
                            (if fmt <? 0 then PIX_FMT_YUV420P else fmt)) w5)
      as (w6 & H6 & E6 & S6 & C6).
    { rewrite C5. apply lookup_insert_eq. }
    destruct (avcodec_open2_opens h
                (set_pix_fmt
                   (set_av_height (set_av_width avcodec_context_default width)
                      height) (if fmt <? 0 then PIX_FMT_YUV420P else fmt))
                w6 ro rest) as (w7 & H7 & S7).
    { rewrite C6. apply lookup_insert_eq. }
    { rewrite E6, E5, E4. exact E3. }
    { exact Hro. }
    rewrite (bind_run _ _ _ _ _ H1).
    rewrite (bind_run _ _ _ _ _ H2).
    cbn [codec set_codec].
    rewrite (bind_run _ _ _ _ _ H3).
    cbn [codec_ctx set_codec_ctx].
    rewrite (bind_run _ _ _ _ _ H4).
    rewrite (bind_run _ _ _ _ _ H5).
    rewrite (bind_run _ _ _ _ _ H6).
    rewrite (bind_run _ _ _ _ _ H7).
    apply Z.ltb_ge in Hro. rewrite Hro.
    eexists _, w7. split; [reflexivity|]. split; [reflexivity|].
    split; [congruence|].
    unfold refuses_decoding. simpl. intros [?|?]; discriminate. }
  destruct Hin as (ctx & w7 & Hin & Hy & Hs & Href).
  unfold init_decoder.
  rewrite (bind_run _ _ _ _ _ Hin). cbn [fst snd].
  exists ctx, w7. split; [reflexivity|]. split; [exact Hy|].
  split; [exact Hs | exact Href].
Qed.

(** X16: when the decoder takes the packet without producing a picture,
    [decompress_image] hands out NULL planes and zero strides and leaves
    [*outsize] as the caller had it; the result is 3 only if that cell held
    0, otherwise it is 0, the result of a successful decoding. *)
Theorem decompress_image_without_picture (ctx : x264lib_ctx)
  (data : ptr) (size : Z) (o : decoded) (w : world)
  (len : Z) (picture : AVFrame) (w1 : world)
  (r : Z) (o' : decoded) (w' : world) :
  codec ctx <> None ->
  avcodec_decode_video2 (codec_ctx ctx) frame_defaults data size w
  = Some ((len, 0, picture), w1) ->
  0 <= len ->
  length (dec_out o) = 3%nat -> length (dec_outstride o) = 3%nat ->
  INT_MIN <= dec_outsize o <= INT_MAX ->
  decompress_image ctx data size o w = Some ((r, o'), w') ->
  o' = {| dec_out := NULL :: NULL :: NULL :: nil;
          dec_outsize := dec_outsize o;
          dec_outstride := 0 :: 0 :: 0 :: nil |}
  /\ r = (if dec_outsize o =? 0 then 3 else 0).
Proof.
  intros Hcodec Hdec Hlen Ho Hs Hrange H.
  pose proof (avcodec_decode_video2_inv _ _ _ _ _ _ _ _ _ Hdec
                (or_intror eq_refl)) as ->.
  pose proof (avcodec_decode_video2_effect _ _ _ _ _ _ _ Hdec)
    as (h & Hcc & _).
  unfold decompress_image in H. rewrite Hcc in H.
  destruct (codec ctx) as [id|]; [|congruence].
  rewrite <- Hcc in H.
  rewrite (bind_run _ _ _ _ _ Hdec) in H.
  cbv zeta in H. cbn [fst snd] in H.
  apply Z.ltb_ge in Hlen. rewrite Hlen in H.
  assert (Hcopy : copy_planes (height ctx) frame_defaults 0 3 o
                  = {| dec_out := NULL :: NULL :: NULL :: nil;
                       dec_outsize := dec_outsize o;
                       dec_outstride := 0 :: 0 :: 0 :: nil |}).
  { destruct o as [po so to]. simpl in Ho, Hs, Hrange |- *.
    destruct po as [|p0 [|p1 [|p2 [|]]]]; try discriminate.
    destruct to as [|t0 [|t1 [|t2 [|]]]]; try discriminate.
    assert (Hw : wrap_int (so + wrap_int (height ctx * 0)) = so).
    { rewrite Z.mul_0_r. change (wrap_int 0) with 0. rewrite Z.add_0_r.
      unfold wrap_int. unfold INT_MIN, INT_MAX in Hrange.
      rewrite Z.mod_small; lia. }
    cbn -[wrap_int Z.mul Z.add]. rewrite !Hw. reflexivity. }
  rewrite Hcopy in H. cbn [dec_outsize] in H.
  destruct (dec_outsize o =? 0).
  - step H as u w2 Hlog. done_with H. inversion H; subst. auto.
  - done_with H. inversion H; subst. auto.
Qed.

End WithHeaders.
End X264DecoderEdges.

(** * More of vpxlib.c *)

Module VpxFrames.
Import Vpx VpxProps VpxFacts.

Section WithHeaders.
Context `{hdr : Headers}.

Ltac prim :=
  unfold vpx_img_free, vpx_codec_encode, vpx_codec_get_cx_data,
    vpx_codec_decode, vpx_codec_get_frame, codec_error, update_image in *;
  unfold live_image, answer, record, deref, bind, ret, get, put, crash in *.

Ltac prim_inv H :=
  prim; repeat (case_match; simplify_eq/=);
  try (inversion H; clear H; subst; simpl).

Lemma update_image_effect image f w u w' :
  update_image image f w = Some (u, w') ->
  exists h i, image = Some h /\ images w !! h = Some i
              /\ images w' = <[h := f i]> (images w) /\ log w' = log w.
Proof. intros H. prim_inv H; eauto 10. Qed.

Lemma vpx_codec_encode_effect image w r w' :
  vpx_codec_encode image w = Some (r, w') ->
  exists h, image = Some h /\ images w' = images w
            /\ log w' = Call_vpx_codec_encode h r :: log w.
Proof. intros H. prim_inv H; eauto 10. Qed.

Lemma codec_error_effect s w u w' :
  codec_error s w = Some (u, w') ->
  images w' = images w /\ log w' = Call_printf s :: log w.
Proof. intros H. prim_inv H; auto. Qed.

Lemma vpx_img_free_effect image w u w' :
  vpx_img_free image w = Some (u, w') ->
  exists h i, image = Some h /\ images w !! h = Some i
              /\ images w' = (if self_allocd i then delete h (images w)
                              else <[h := release_data i]> (images w))
              /\ log w' = Call_vpx_img_free h :: log w.
Proof.
  intros H. prim_inv H.
  all: eexists _, _; split; [reflexivity|]; split; [eassumption|].
  all: match goal with Hs : self_allocd _ = _ |- _ => rewrite Hs end.
  all: split; reflexivity.
Qed.

Lemma answer_effect w a w' :
  answer w = Some (a, w') -> images w' = images w /\ log w' = log w.
Proof.
  unfold answer. intros H. destruct (env w); inversion H; subst; auto.
Qed.

Lemma vpx_codec_get_cx_data_effect w r w' :
  vpx_codec_get_cx_data w = Some (r, w') ->
  images w' = images w /\ log w' = Call_vpx_codec_get_cx_data r :: log w.
Proof.
  unfold vpx_codec_get_cx_data. intros H.
  step H as a w1 H1. apply answer_effect in H1 as (I1 & L1).
  step H as k w2 H2. apply answer_effect in H2 as (I2 & L2).
  step H as b w3 H3. apply answer_effect in H3 as (I3 & L3).
  step H as s w4 H4. apply answer_effect in H4 as (I4 & L4).
  cbv zeta in H. step H as u w5 H5. done_with H. subst r.
  unfold record in H5. inversion H5; subst. simpl.
  split; congruence.
Qed.

Lemma vpx_codec_decode_effect data size w r w' :
  vpx_codec_decode data size w = Some (r, w') ->
  images w' = images w /\ log w' = Call_vpx_codec_decode data size r :: log w.
Proof.
  unfold vpx_codec_decode. intros H.
  step H as a w1 H1. apply answer_effect in H1 as (I1 & L1).
  step H as u w2 H2. done_with H. subst r.
  unfold record in H2. inversion H2; subst. simpl. split; congruence.
Qed.

Lemma vpx_codec_get_frame_effect w r w' :
  vpx_codec_get_frame w = Some (r, w') ->
  images w' = images w /\ log w' = Call_vpx_codec_get_frame r :: log w
  /\ match r with
     | Some img => exists p0 p1 p2 s0 s1 s2 h,
         img = {| frame_planes := p0 :: p1 :: p2 :: NULL :: nil;
                  frame_stride := s0 :: s1 :: s2 :: 0 :: nil;
                  frame_h := h |}
     | None => True
     end.
Proof.
  unfold vpx_codec_get_frame. intros H.
  step H as a w1 H1. apply answer_effect in H1 as (I1 & L1).
  step H as p0 w2 H2. apply answer_effect in H2 as (I2 & L2).
  step H as p1 w3 H3. apply answer_effect in H3 as (I3 & L3).
  step H as p2 w4 H4. apply answer_effect in H4 as (I4 & L4).
  step H as s0 w5 H5. apply answer_effect in H5 as (I5 & L5).
  step H as s1 w6 H6. apply answer_effect in H6 as (I6 & L6).
  step H as s2 w7 H7. apply answer_effect in H7 as (I7 & L7).
  step H as h w8 H8. apply answer_effect in H8 as (I8 & L8).
  cbv zeta in H. step H as u w9 H9. done_with H. subst r.
  unfold record in H9. inversion H9; subst. simpl.
  split; [congruence|]. split; [congruence|].
  destruct (a =? 0); [|exact I]. eauto 10.
Qed.

(** X17: on every path on which [compress_image] of vpxlib.c returns, the
    image had its chroma shifts and depth set before the encoder saw it and
    is freed once, as the last call; the result is the encoder's own error
    code, 1 for a packet that is not a frame, or 0, and only with 0 are the
    output cells written, with the buffer and the size of the packet. *)
Theorem vpx_compress_image_outcomes (ctx : vpx_context)
  (image : option handle) (o : outbuf) (w : world)
  (r : Z) (o' : outbuf) (w' : world) :
  compress_image ctx image o w = Some ((r, o'), w') ->
  exists h i l,
    image = Some h /\ images w !! h = Some i
    /\ images w' = (if self_allocd i then delete h (images w)
                    else <[h := release_data (set_encoding_fields i)]>
                           (images w))
    /\ log w' = Call_vpx_img_free h :: l ++ log w
    /\ (forall h', ~ In (Call_vpx_img_free h') l)
    /\ ((r <> 0 /\ o' = o
         /\ l = Call_printf "vpx_codec_encode"
                :: Call_vpx_codec_encode h r :: nil)
        \/ exists pkt,
             l = Call_vpx_codec_get_cx_data (Some pkt)
                 :: Call_vpx_codec_encode h 0 :: nil
             /\ ((kind pkt <> VPX_CODEC_CX_FRAME_PKT /\ r = 1 /\ o' = o)
                 \/ (kind pkt = VPX_CODEC_CX_FRAME_PKT /\ r = 0
                     /\ o' = {| out := frame_buf pkt;
                                outsz := wrap_int (frame_sz pkt) |}))).
Proof.
  unfold compress_image. intros H.
  step H as u1 w1 Hset.
  apply update_image_effect in Hset as (h & i & -> & Hi & I1 & L1).
  step H as e w2 Henc.
  apply vpx_codec_encode_effect in Henc as (h2 & Eh & I2 & L2).
  inversion Eh; subst h2. clear Eh.
  assert (Hfree : forall wa u wb,
            images wa = images w1 ->
            vpx_img_free (Some h) wa = Some (u, wb) ->
            images wb = (if self_allocd i then delete h (images w)
                         else <[h := release_data (set_encoding_fields i)]>
                                (images w))
            /\ log wb = Call_vpx_img_free h :: log wa).
  { intros wa u wb Hsame Hf.
    apply vpx_img_free_effect in Hf as (h3 & i3 & Eh & Hi3 & I3 & L3).
    inversion Eh; subst h3. clear Eh.
    rewrite Hsame, I1, lookup_insert_eq in Hi3. inversion Hi3; subst i3.
    split; [|exact L3].
    rewrite I3, Hsame, I1. simpl.
    destruct (self_allocd i).
    - apply delete_insert_eq.
    - apply insert_insert_eq. }
  exists h, i.
  destruct (e =? 0) eqn:He; cbn [negb] in H.
  - apply Z.eqb_eq in He. subst e.
    step H as p w3 Hdata.
    apply vpx_codec_get_cx_data_effect in Hdata as (I3 & L3).
    step H as pkt w4 Hpkt.
    destruct p as [pkt0|]; [|discriminate].
    apply ret_inv in Hpkt as [-> <-].
    exists (Call_vpx_codec_get_cx_data (Some pkt)
            :: Call_vpx_codec_encode h 0 :: nil).
    split; [reflexivity|]. split; [exact Hi|].
    destruct (kind pkt =? VPX_CODEC_CX_FRAME_PKT) eqn:Hk; cbn [negb] in H.
    + apply Z.eqb_eq in Hk.
      step H as u3 w5 Hf. done_with H. inversion H; subst r o'.
      apply Hfree in Hf as (If & Lf); [|congruence].
      split; [exact If|].
      split; [rewrite Lf, L3, L2, L1; reflexivity|].
      split; [intros h' [Hin | [Hin | []]]; discriminate|].
      right. exists pkt. split; [reflexivity|]. right. auto.
    + apply Z.eqb_neq in Hk.
      step H as u3 w5 Hf. done_with H. inversion H; subst r o'.
      apply Hfree in Hf as (If & Lf); [|congruence].
      split; [exact If|].
      split; [rewrite Lf, L3, L2, L1; reflexivity|].
      split; [intros h' [Hin | [Hin | []]]; discriminate|].
      right. exists pkt. split; [reflexivity|]. left. auto.
  - apply Z.eqb_neq in He.
    step H as u2 w3 Hlog.
    apply codec_error_effect in Hlog as (I3 & L3).
    step H as u3 w4 Hf. done_with H. inversion H; subst r o'.
    apply Hfree in Hf as (If & Lf); [|congruence].
    exists (Call_printf "vpx_codec_encode"
            :: Call_vpx_codec_encode h e :: nil).
    split; [reflexivity|]. split; [exact Hi|].
    split; [exact If|].
    split; [rewrite Lf, L3, L2, L1; reflexivity|].
    split; [intros h' [Hin | [Hin | []]]; discriminate|].
    left. auto.
Qed.

Lemma vpx_codec_get_cx_data_null w a rest :
  env w = a :: rest -> a <> 0 ->
  exists w1, vpx_codec_get_cx_data w = Some (None, w1).
Proof.
  intros Henv Ha. apply Z.eqb_neq in Ha.
  unfold vpx_codec_get_cx_data, answer, record, bind, ret.
  rewrite Henv. simpl.
  destruct rest as [|k [|b [|s rest]]]; simpl; rewrite Ha; eauto.
Qed.

(** X18: [compress_image] of vpxlib.c checks neither the image it is given
    nor the packet it gets: a NULL image (which [csc_image_rgb2yuv] returns
    when the allocation fails) is written to at once, and when the encoder
    succeeds but has no packet for the frame, the NULL packet is read. *)
Theorem vpx_compress_image_unchecked (ctx : vpx_context) (o : outbuf)
  (w : world) :
  compress_image ctx None o w = None
  /\ forall h i a rest,
       images w !! h = Some i -> env w = 0 :: a :: rest -> a <> 0 ->
       compress_image ctx (Some h) o w = None.
Proof.
  split; [reflexivity|].
  intros h i a rest Hi Henv Ha.
  unfold compress_image.
  assert (H1 : update_image (Some h) set_encoding_fields w
               = Some (tt, with_images w
                             (<[h := set_encoding_fields i]> (images w)))).
  { unfold update_image, live_image, deref, bind, ret, get, put.
    simpl. now rewrite Hi. }
  rewrite (bind_run _ _ _ _ _ H1).
  set (w1 := with_images w _).
  assert (H2 : vpx_codec_encode (Some h) w1
               = Some (0, with_log (with_env w1 (a :: rest))
                            (Call_vpx_codec_encode h 0 :: log w1))).
  { unfold vpx_codec_encode, live_image, answer, record, deref, bind, ret,
      get.
    simpl. rewrite lookup_insert_eq. simpl. rewrite Henv. reflexivity. }
  rewrite (bind_run _ _ _ _ _ H2). cbn [Z.eqb negb].
  destruct (vpx_codec_get_cx_data_null
              (with_log (with_env w1 (a :: rest))
                 (Call_vpx_codec_encode h 0 :: log w1)) a rest eq_refl Ha)
    as (w3 & H3).
  rewrite (bind_run _ _ _ _ _ H3). reflexivity.
Qed.

Lemma wrap_int_idem z : wrap_int (wrap_int z) = wrap_int z.
Proof.
  unfold wrap_int.
  replace ((z + 2 ^ 31) mod 2 ^ 32 - 2 ^ 31 + 2 ^ 31)
    with ((z + 2 ^ 31) mod 2 ^ 32) by lia.
  now rewrite Z.mod_mod by lia.
Qed.

(** X19: when [decompress_image] of vpxlib.c returns 0 the three planes and
    strides are those of the frame the decoder returned and the size is the
    sum of the three plane sizes in [int] arithmetic; the cell is cleared
    first, so nothing of what the caller's cells held is left.  The images
    of the encoder side are not touched on any path. *)
Theorem vpx_decompress_image_frame (ctx : vpx_context) (data : ptr)
  (size : Z) (o : decoded) (w : world) (r : Z) (o' : decoded) (w' : world) :
  length (dec_out o) = 3%nat -> length (dec_outstride o) = 3%nat ->
  decompress_image ctx data size o w = Some ((r, o'), w') ->
  images w' = images w
  /\ (r = 0 ->
      exists p0 p1 p2 s0 s1 s2 h,
        log w' = Call_vpx_codec_get_frame
                   (Some {| frame_planes := p0 :: p1 :: p2 :: NULL :: nil;
                            frame_stride := s0 :: s1 :: s2 :: 0 :: nil;
                            frame_h := h |})
                 :: Call_vpx_codec_decode data size 0 :: log w
        /\ o' = {| dec_out := p0 :: p1 :: p2 :: nil;
                   dec_outsize :=
                     wrap_int (wrap_int (wrap_int (s0 * h)
                                         + wrap_int (s1 * h))
                               + wrap_int (s2 * h));
                   dec_outstride := s0 :: s1 :: s2 :: nil |}).
Proof.
  intros Ho Hs. unfold decompress_image. intros H.
  step H as r0 w1 Hdec.
  apply vpx_codec_decode_effect in Hdec as (I1 & L1).
  destruct (r0 =? 0) eqn:Hr0; cbn [negb] in H.
  - apply Z.eqb_eq in Hr0. subst r0.
    step H as img w2 Hframe.
    apply vpx_codec_get_frame_effect in Hframe as (I2 & L2 & Himg).
    destruct img as [img|].
    + done_with H. inversion H; subst r o'. clear H.
      split; [congruence|]. intros _.
      destruct Himg as (p0 & p1 & p2 & s0 & s1 & s2 & h & ->).
      exists p0, p1, p2, s0, s1, s2, h.
      split; [rewrite L2, L1; reflexivity|].
      destruct o as [po so to]. simpl in Ho, Hs.
      destruct po as [|q0 [|q1 [|q2 [|]]]]; try discriminate.
      destruct to as [|t0 [|t1 [|t2 [|]]]]; try discriminate.
      cbn -[wrap_int Z.mul Z.add].
      rewrite Z.add_0_l, wrap_int_idem. reflexivity.
    + step H as u w3 Hlog. done_with H. inversion H; subst r o'.
      apply codec_error_effect in Hlog as (I3 & _).
      split; [congruence | discriminate].
  - step H as u w2 Hlog. done_with H. inversion H; subst r o'.
    apply codec_error_effect in Hlog as (I2 & _).
    split; [congruence | discriminate].
Qed.

End WithHeaders.
End VpxFrames.

(** * The life of a vpx context *)

Module VpxLifeFacts.
Import VpxLife.

Section WithHeaders.
Context `{hdr : Headers} `{vhdr : VpxHeaders}.

Ltac prim :=
  unfold vpx_codec_enc_config_default, vpx_codec_enc_init,
    vpx_codec_dec_init, vpx_codec_destroy, sws_getContext, codec_error,
    malloc_context, free_context, malloc_image, vpx_img_alloc, sws_scale
    in *;
  unfold live_struct, live_image, set_image, fresh, answer, record, deref,
    bind, ret, get, put, crash in *.

Ltac prim_inv H :=
  prim; repeat (case_match; simplify_eq/=);
  try (inversion H; clear H; subst; simpl).

Lemma live_struct_effect p w u w' :
  live_struct p w = Some (u, w') -> p ∈ structs w /\ w' = w.
Proof.
  unfold live_struct, bind, get, ret, crash. intros H.
  destruct (bool_decide (p ∈ structs w)) eqn:Hd; [|discriminate].
  apply bool_decide_eq_true in Hd. inversion H; subst.
  split; [exact Hd | reflexivity].
Qed.

Lemma life_answer_effect w a w' :
  answer w = Some (a, w') ->
  frames w' = frames w /\ structs w' = structs w /\ codecs w' = codecs w
  /\ scalers w' = scalers w /\ calls w' = calls w.
Proof.
  unfold answer. intros H.
  destruct (answers w); inversion H; subst; auto 10.
Qed.

Lemma malloc_context_effect w h w' :
  malloc_context w = Some (h, w') ->
  h = next w /\ frames w' = frames w /\ codecs w' = codecs w
  /\ scalers w' = scalers w
  /\ structs w' = {[ h ]} ∪ structs w
  /\ calls w' = Call_malloc h :: calls w.
Proof. intros H. prim_inv H; auto 10. Qed.

Lemma free_context_effect p w u w' :
  free_context p w = Some (u, w') ->
  p ∈ structs w
  /\ frames w' = frames w /\ codecs w' = codecs w /\ scalers w' = scalers w
  /\ structs w' = structs w ∖ {[ p ]}
  /\ calls w' = Call_free p :: calls w.
Proof.
  intros H. prim_inv H.
  split; [|auto 10].
  match goal with Hd : bool_decide _ = true |- _ =>
    apply bool_decide_eq_true in Hd; exact Hd end.
Qed.

Lemma vpx_codec_enc_config_default_effect w rc w' :
  vpx_codec_enc_config_default w = Some (rc, w') ->
  snd rc = vpx_enc_cfg_default /\ next w' = next w
  /\ frames w' = frames w /\ structs w' = structs w
  /\ codecs w' = codecs w /\ scalers w' = scalers w
  /\ calls w' = Call_vpx_codec_enc_config_default (fst rc) :: calls w.
Proof. intros H. prim_inv H; auto 10. Qed.

Lemma vpx_codec_enc_init_effect ctx cfg w r w' :
  vpx_codec_enc_init ctx cfg w = Some (r, w') ->
  ctx ∈ structs w
  /\ frames w' = frames w /\ structs w' = structs w
  /\ scalers w' = scalers w
  /\ codecs w' = (if r =? 0 then <[ctx := Encoding cfg]> (codecs w)
                  else codecs w)
  /\ calls w' = Call_vpx_codec_enc_init ctx cfg r :: calls w.
Proof.
  unfold vpx_codec_enc_init. intros H.
  step H as u0 w0 H0. apply live_struct_effect in H0 as [Hin ->].
  step H as a w1 H1. apply life_answer_effect in H1 as (F1 & S1 & C1 & Sc1 & L1).
  step H as wg w2 H2. apply ret_inv in H2 as [-> <-].
  step H as u3 w3 H3. step H as u4 w4 H4. done_with H. subst a.
  unfold put in H3. inversion H3; subst w3. clear H3.
  unfold record in H4. inversion H4; subst. clear H4. simpl.
  split; [exact Hin|].
  destruct (r =? 0); simpl; repeat split; congruence.
Qed.

Lemma vpx_codec_dec_init_effect ctx w r w' :
  vpx_codec_dec_init ctx w = Some (r, w') ->
  ctx ∈ structs w
  /\ frames w' = frames w /\ structs w' = structs w
  /\ scalers w' = scalers w
  /\ codecs w' = (if r =? 0 then <[ctx := Decoding]> (codecs w)
                  else codecs w)
  /\ calls w' = Call_vpx_codec_dec_init ctx r :: calls w.
Proof.
  unfold vpx_codec_dec_init. intros H.
  step H as u0 w0 H0. apply live_struct_effect in H0 as [Hin ->].
  step H as a w1 H1. apply life_answer_effect in H1 as (F1 & S1 & C1 & Sc1 & L1).
  step H as wg w2 H2. apply ret_inv in H2 as [-> <-].
  step H as u3 w3 H3. step H as u4 w4 H4. done_with H. subst a.
  unfold put in H3. inversion H3; subst w3. clear H3.
  unfold record in H4. inversion H4; subst. clear H4. simpl.
  split; [exact Hin|].
  destruct (r =? 0); simpl; repeat split; congruence.
Qed.

Lemma vpx_codec_destroy_effect ctx w u w' :
  vpx_codec_destroy ctx w = Some (u, w') ->
  ctx ∈ structs w
  /\ frames w' = frames w /\ structs w' = structs w
  /\ scalers w' = scalers w
  /\ codecs w' = delete ctx (codecs w)
  /\ calls w' = Call_vpx_codec_destroy ctx :: calls w.
Proof.
  intros H. prim_inv H.
  split; [|auto 10].
  match goal with Hd : bool_decide _ = true |- _ =>
    apply bool_decide_eq_true in Hd; exact Hd end.
Qed.

Lemma life_sws_getContext_effect sw sh sf dw dh df fl w r w' :
  sws_getContext sw sh sf dw dh df fl w = Some (r, w') ->
  let c := {| X264.srcW := sw; X264.srcH := sh; X264.srcFormat := sf;
              X264.dstW := dw; X264.dstH := dh; X264.dstFormat := df;
              X264.sws_flags := fl |} in
  frames w' = frames w /\ structs w' = structs w /\ codecs w' = codecs w
  /\ scalers w' = match r with
                  | Some h => <[h := c]> (scalers w)
                  | None => scalers w
                  end
  /\ calls w' = Call_sws_getContext c r :: calls w.
Proof. intros H. prim_inv H; auto 10. Qed.

Lemma life_codec_error_effect s w u w' :
  codec_error s w = Some (u, w') ->
  frames w' = frames w /\ structs w' = structs w /\ codecs w' = codecs w
  /\ scalers w' = scalers w /\ calls w' = Call_printf s :: calls w.
Proof. intros H. prim_inv H; auto 10. Qed.

Lemma record_effect c w u w' :
  record c w = Some (u, w') ->
  frames w' = frames w /\ structs w' = structs w /\ codecs w' = codecs w
  /\ scalers w' = scalers w /\ calls w' = c :: calls w.
Proof. intros H. prim_inv H; auto 10. Qed.

(** X20: the bitrate [init_encoder] of vpxlib.c asks for is the default one
    scaled by the ratio of the frame area to the default area, computed in
    [unsigned int]: it is [width * height * rate] modulo 2^32, divided by
    the default area.  It is the exact quotient as long as the product is
    below 2^32, and the default bitrate itself at the default size. *)
Theorem target_bitrate_scales (width height : Z) (cfg : vpx_codec_enc_cfg_t) :
  0 < g_w cfg -> 0 < g_h cfg ->
  target_bitrate width height cfg
  = Some ((width * height * rc_target_bitrate cfg) mod 2 ^ 32
          / (g_w cfg * g_h cfg))
  /\ (0 <= width * height * rc_target_bitrate cfg < 2 ^ 32 ->
      target_bitrate width height cfg
      = Some (width * height * rc_target_bitrate cfg
              / (g_w cfg * g_h cfg)))
  /\ (width = g_w cfg -> height = g_h cfg ->
      0 <= rc_target_bitrate cfg ->
      width * height * rc_target_bitrate cfg < 2 ^ 32 ->
      target_bitrate width height cfg = Some (rc_target_bitrate cfg)).
Proof.
  intros Hw Hh.
  assert (Hgen : target_bitrate width height cfg
                 = Some ((width * height * rc_target_bitrate cfg) mod 2 ^ 32
                         / (g_w cfg * g_h cfg))).
  { unfold target_bitrate.
    replace (g_w cfg =? 0) with false by (symmetry; apply Z.eqb_neq; lia).
    replace (g_h cfg =? 0) with false by (symmetry; apply Z.eqb_neq; lia).
    cbn [orb]. f_equal.
    rewrite Z.div_div by lia. f_equal.
    unfold to_uint, wrap_int.
    replace ((width * height + 2 ^ 31) mod 2 ^ 32 - 2 ^ 31)
      with ((width * height + 2 ^ 31) mod 2 ^ 32 + (-1) * 2 ^ 31 ) by lia.
    rewrite <- (Z.add_mod_idemp_l ((width * height + 2 ^ 31) mod 2 ^ 32))
      by lia.
    rewrite Z.mod_mod by lia.
    rewrite Z.add_mod_idemp_l by lia.
    replace (width * height + 2 ^ 31 + -1 * 2 ^ 31) with (width * height)
      by lia.
    rewrite Z.mul_mod_idemp_l by lia. reflexivity. }
  split; [exact Hgen|]. split.
  - intros Hr. rewrite Hgen. now rewrite Z.mod_small by exact Hr.
  - intros -> -> Hr Hlt. rewrite Hgen.
    rewrite Z.mod_small by nia.
    f_equal. replace (g_w cfg * g_h cfg * rc_target_bitrate cfg)
      with (rc_target_bitrate cfg * (g_w cfg * g_h cfg)) by lia.
    apply Z.div_mul. nia.
Qed.

(** X21: a context returned by [init_encoder] of vpxlib.c is allocated and
    holds the size asked for; its codec was initialised with that size and
    the scaled bitrate; its converter, if [sws_getContext] returned one,
    goes from RGB24 to YUV420P; and the member [yuv2rgb] holds whatever
    the block held before, as nothing is assigned to it. *)
Theorem vpx_init_encoder_configures (garbage : option handle)
  (width height : Z) (w : world) (ctx : context) (w' : world) :
  init_encoder garbage width height w = Some (Some ctx, w') ->
  self ctx ∈ structs w'
  /\ Vpx.width (fields ctx) = width /\ Vpx.height (fields ctx) = height
  /\ Vpx.yuv2rgb (fields ctx) = garbage
  /\ (exists rate,
        target_bitrate width height vpx_enc_cfg_default = Some rate
        /\ codecs w' !! self ctx
           = Some (Encoding {| g_w := to_uint width; g_h := to_uint height;
                               rc_target_bitrate := rate |}))
  /\ (forall c, Vpx.rgb2yuv (fields ctx) = Some c ->
        scalers w' !! c
        = Some {| X264.srcW := width; X264.srcH := height;
                  X264.srcFormat := PIX_FMT_RGB24;
                  X264.dstW := width; X264.dstH := height;
                  X264.dstFormat := PIX_FMT_YUV420P;
                  X264.sws_flags := SWS_FAST_BILINEAR |}).
Proof.
  unfold init_encoder. intros H.
  step H as rc w1 H1.
  apply vpx_codec_enc_config_default_effect in H1
    as (Hcfg & N1 & F1 & S1 & C1 & Sc1 & L1).
  destruct (fst rc =? 0); cbn [negb] in H;
    [|apply ret_inv in H as [H _]; discriminate].
  step H as rate w2 H2.
  destruct (target_bitrate width height (snd rc)) as [rate0|] eqn:Hrate;
    [|discriminate].
  apply ret_inv in H2 as [-> <-].
  cbv zeta in H.
  step H as p w3 H3.
  apply malloc_context_effect in H3 as (_ & F3 & C3 & Sc3 & S3 & L3).
  step H as r w4 H4.
  apply vpx_codec_enc_init_effect in H4 as (Hin & F4 & S4 & Sc4 & C4 & L4).
  destruct (r =? 0); cbn [negb] in H.
  - step H as y w5 H5. done_with H. inversion H; subst ctx. clear H.
    apply life_sws_getContext_effect in H5 as (F5 & S5 & C5 & Sc5 & L5).
    cbv zeta in Sc5. cbn [self fields Vpx.width Vpx.height Vpx.yuv2rgb
                           Vpx.rgb2yuv].
    split; [rewrite S5, S4; exact Hin|].
    split; [reflexivity|]. split; [reflexivity|]. split; [reflexivity|].
    split.
    + exists rate. split; [rewrite <- Hcfg; exact Hrate|].
      rewrite C5, C4. apply lookup_insert_eq.
    + intros c ->. rewrite Sc5. apply lookup_insert_eq.
  - step H as u w5 H5. step H as u2 w6 H6.
    apply ret_inv in H as [H _]. discriminate.
Qed.


Lemma removed_not_in (p : handle) (s : gset handle) : p ∉ s ∖ {[ p ]}.
Proof.
  intros Hin. apply elem_of_difference in Hin as [_ Hn].
  apply Hn. now apply elem_of_singleton.
Qed.

Lemma added_removed (p : handle) (s : gset handle) :
  p ∉ s -> ({[ p ]} ∪ s) ∖ {[ p ]} = s.
Proof.
  intros Hp. apply set_eq. intros x.
  rewrite elem_of_difference, elem_of_union, !elem_of_singleton.
  split.
  - intros [[-> | Hx] Hne]; [now contradiction Hne | exact Hx].
  - intros Hx. split; [now right|]. intros ->. now apply Hp.
Qed.

Lemma live_struct_runs p w :
  p ∈ structs w -> live_struct p w = Some (tt, w).
Proof.
  intros Hin. unfold live_struct, bind, get, ret.
  now rewrite bool_decide_eq_true_2.
Qed.

Lemma clean_runs (p : handle) (w : world) :
  p ∈ structs w ->
  exists w',
    (vpx_codec_destroy p ;;; free_context p)%cmd w = Some (tt, w')
    /\ frames w' = frames w /\ scalers w' = scalers w
    /\ structs w' = structs w ∖ {[ p ]}
    /\ codecs w' = delete p (codecs w)
    /\ calls w' = Call_free p :: Call_vpx_codec_destroy p :: calls w.
Proof.
  intros Hin.
  assert (H1 : vpx_codec_destroy p w
               = Some (tt, with_calls
                             (with_codecs w (delete p (codecs w)))
                             (Call_vpx_codec_destroy p :: calls w))).
  { unfold vpx_codec_destroy.
    rewrite (bind_run _ _ _ _ _ (live_struct_runs p w Hin)).
    reflexivity. }
  rewrite (bind_run _ _ _ _ _ H1).
  set (w1 := with_calls _ _).
  assert (Hin1 : p ∈ structs w1) by exact Hin.
  unfold free_context.
  rewrite (bind_run _ _ _ _ _ (live_struct_runs p w1 Hin1)).
  eexists. split; [reflexivity|]. simpl. auto 10.
Qed.


Lemma init_decoder_inv garbage width height w ctx w' :
  init_decoder garbage width height w = Some (Some ctx, w') ->
  self ctx ∈ structs w'
  /\ fields ctx = {| Vpx.rgb2yuv := garbage;
                     Vpx.yuv2rgb := Vpx.yuv2rgb (fields ctx);
                     Vpx.width := width; Vpx.height := height |}
  /\ codecs w' !! self ctx = Some Decoding
  /\ (forall c, Vpx.yuv2rgb (fields ctx) = Some c ->
        scalers w' !! c
        = Some {| X264.srcW := width; X264.srcH := height;
                  X264.srcFormat := PIX_FMT_YUV420P;
                  X264.dstW := width; X264.dstH := height;
                  X264.dstFormat := PIX_FMT_RGB24;
                  X264.sws_flags := SWS_FAST_BILINEAR |}).
Proof.
  unfold init_decoder. intros H.
  step H as p w3 H3.
  apply malloc_context_effect in H3 as (_ & F3 & C3 & Sc3 & S3 & L3).
  step H as r w4 H4.
  apply vpx_codec_dec_init_effect in H4 as (Hin & F4 & S4 & Sc4 & C4 & L4).
  destruct (r =? 0); cbn [negb] in H.
  - step H as y w5 H5. done_with H. inversion H; subst ctx. clear H.
    apply life_sws_getContext_effect in H5 as (F5 & S5 & C5 & Sc5 & L5).
    cbv zeta in Sc5. cbn [self fields Vpx.width Vpx.height Vpx.yuv2rgb
                           Vpx.rgb2yuv].
    split; [rewrite S5, S4; exact Hin|].
    split; [reflexivity|].
    split; [rewrite C5, C4; apply lookup_insert_eq|].
    intros c ->. rewrite Sc5. apply lookup_insert_eq.
  - step H as u w5 H5. step H as u1 w6 H6. step H as u2 w7 H7.
    apply ret_inv in H as [H _]. discriminate.
Qed.

(** X22: [clean_encoder] and [clean_decoder] of vpxlib.c destroy the codec
    and free the block, and nothing else: on a context that [init_encoder]
    or [init_decoder] has returned they are defined, and afterwards the
    converter the initialisation had created is still allocated, with the
    block that pointed to it gone. *)
Theorem vpx_clean_leaves_converter (garbage : option handle)
  (width height : Z) (w : world) (ctx : context) (w1 : world) :
  (init_encoder garbage width height w = Some (Some ctx, w1) ->
   exists w2,
     clean_encoder ctx w1 = Some (tt, w2)
     /\ (self ctx ∉ structs w2) /\ codecs w2 !! self ctx = None
     /\ calls w2 = Call_free (self ctx)
                   :: Call_vpx_codec_destroy (self ctx) :: calls w1
     /\ forall c, Vpx.rgb2yuv (fields ctx) = Some c ->
                  is_Some (scalers w2 !! c))
  /\ (init_decoder garbage width height w = Some (Some ctx, w1) ->
      exists w2,
        clean_decoder ctx w1 = Some (tt, w2)
        /\ (self ctx ∉ structs w2) /\ codecs w2 !! self ctx = None
        /\ calls w2 = Call_free (self ctx)
                      :: Call_vpx_codec_destroy (self ctx) :: calls w1
        /\ forall c, Vpx.yuv2rgb (fields ctx) = Some c ->
                     is_Some (scalers w2 !! c)).
Proof.
  split; intros H.
  - apply vpx_init_encoder_configures in H as (Hin & _ & _ & _ & _ & Hconv).
    destruct (clean_runs (self ctx) w1 Hin)
      as (w2 & Hrun & _ & Sc & S & C & L).
    exists w2. split; [exact Hrun|].
    split; [rewrite S; apply removed_not_in|].
    split; [rewrite C; apply lookup_delete_eq|].
    split; [exact L|].
    intros c Hc. rewrite Sc, (Hconv c Hc). eauto.
  - apply init_decoder_inv in H as (Hin & _ & _ & Hconv).
    destruct (clean_runs (self ctx) w1 Hin)
      as (w2 & Hrun & _ & Sc & S & C & L).
    exists w2. split; [exact Hrun|].
    split; [rewrite S; apply removed_not_in|].
    split; [rewrite C; apply lookup_delete_eq|].
    split; [exact L|].
    intros c Hc. rewrite Sc, (Hconv c Hc). eauto.
Qed.

(** X23: when [init_encoder] or [init_decoder] of vpxlib.c returns NULL,
    the block it had allocated is freed again and no codec and no
    converter is left behind. *)
Theorem vpx_init_failure_frees (garbage : option handle)
  (width height : Z) (w w' : world) :
  next w ∉ structs w ->
  init_encoder garbage width height w = Some (None, w')
  \/ init_decoder garbage width height w = Some (None, w') ->
  structs w' = structs w /\ codecs w' = codecs w
  /\ scalers w' = scalers w.
Proof.
  intros Hfresh [H|H].
  - unfold init_encoder in H.
    step H as rc w1 H1.
    apply vpx_codec_enc_config_default_effect in H1
      as (Hcfg & N1 & F1 & S1 & C1 & Sc1 & L1).
    destruct (fst rc =? 0); cbn [negb] in H.
    + step H as rate w2 H2.
      destruct (target_bitrate width height (snd rc)) as [rate0|];
        [|discriminate].
      apply ret_inv in H2 as [-> <-]. cbv zeta in H.
      step H as p w3 H3.
      apply malloc_context_effect in H3 as (Hp & F3 & C3 & Sc3 & S3 & L3).
      step H as r w4 H4.
      apply vpx_codec_enc_init_effect in H4
        as (Hin & F4 & S4 & Sc4 & C4 & L4).
      destruct (r =? 0); cbn [negb] in H.
      * step H as y w5 H5. apply ret_inv in H as [H _]. discriminate.
      * step H as u w5 H5. step H as u2 w6 H6. done_with H.
        apply life_codec_error_effect in H5 as (F5 & S5 & C5 & Sc5 & L5).
        apply free_context_effect in H6 as (_ & F6 & C6 & Sc6 & S6 & L6).
        split; [|split; congruence].
        rewrite S6, S5, S4, S3, S1, Hp, N1.
        apply added_removed, Hfresh.
    + done_with H. repeat split; assumption.
  - unfold init_decoder in H.
    step H as p w3 H3.
    apply malloc_context_effect in H3 as (Hp & F3 & C3 & Sc3 & S3 & L3).
    step H as r w4 H4.
    apply vpx_codec_dec_init_effect in H4 as (Hin & F4 & S4 & Sc4 & C4 & L4).
    destruct (r =? 0); cbn [negb] in H.
    + step H as y w5 H5. apply ret_inv in H as [H _]. discriminate.
    + step H as u w5 H5. step H as u1 w6 H6. step H as u2 w7 H7.
      done_with H.
      apply life_codec_error_effect in H5 as (F5 & S5 & C5 & Sc5 & L5).
      apply record_effect in H6 as (F6 & S6 & C6 & Sc6 & L6).
      apply free_context_effect in H7 as (_ & F7 & C7 & Sc7 & S7 & L7).
      split; [|split; congruence].
      rewrite S7, S6, S5, S4, S3, Hp.
      apply added_removed, Hfresh.
Qed.

End WithHeaders.
End VpxLifeFacts.

(** * The life of a vpx image *)

Module VpxImageFacts.
Import VpxLife VpxLifeFacts.

Section WithHeaders.
Context `{hdr : Headers} `{vhdr : VpxHeaders}.

Lemma set_image_effect h i w u w' :
  set_image h i w = Some (u, w') ->
  w' = with_frames w
         (Vpx.with_images (frames w) (<[h := i]> (Vpx.images (frames w)))).
Proof.
  unfold set_image, bind, get, put. intros H. inversion H. reflexivity.
Qed.

Lemma live_image_effect h w i w' :
  live_image h w = Some (i, w') ->
  Vpx.images (frames w) !! h = Some i /\ w' = w.
Proof.
  unfold live_image, bind, get, deref, ret, crash. intros H.
  destruct (Vpx.images (frames w) !! h); inversion H; subst. auto.
Qed.

Lemma image_answer_effect w a w' :
  answer w = Some (a, w') ->
  frames w' = frames w /\ scalers w' = scalers w /\ calls w' = calls w
  /\ next w' = next w.
Proof.
  unfold answer. intros H.
  destruct (answers w); inversion H; subst; auto 10.
Qed.

Lemma malloc_image_effect w h w' :
  malloc_image w = Some (h, w') ->
  h = next w /\ scalers w' = scalers w
  /\ frames w' = Vpx.with_images (frames w)
                   (<[h := blank_image]> (Vpx.images (frames w)))
  /\ calls w' = Call_malloc h :: calls w.
Proof.
  unfold malloc_image. intros H.
  step H as h0 w1 H1. unfold fresh in H1. inversion H1; subst h0 w1.
  clear H1.
  step H as u w2 H2. apply set_image_effect in H2. subst w2.
  step H as u3 w3 H3. unfold record in H3. inversion H3; subst w3. clear H3.
  apply ret_inv in H as [<- <-]. simpl. auto.
Qed.

Lemma vpx_img_alloc_effect image d_w d_h w ok w' :
  vpx_img_alloc image d_w d_h w = Some (ok, w') ->
  scalers w' = scalers w
  /\ Vpx.log (frames w') = Vpx.log (frames w)
  /\ Vpx.env (frames w') = Vpx.env (frames w)
  /\ calls w' = Call_vpx_img_alloc image VPX_IMG_FMT_I420 d_w d_h ok
                :: calls w
  /\ exists i,
       Vpx.images (frames w') = <[image := i]> (Vpx.images (frames w))
       /\ (ok = true ->
           Vpx.d_w i = d_w /\ Vpx.d_h i = d_h
           /\ Vpx.img_data_live i = true /\ Vpx.self_allocd i = false)
       /\ (ok = false -> i = blank_image).
Proof.
  unfold vpx_img_alloc. intros H.
  step H as i0 w0 H0. apply live_image_effect in H0 as [_ ->].
  step H as a w1 H1. apply image_answer_effect in H1 as (F1 & S1 & L1 & _).
  step H as iw w2 H2. apply image_answer_effect in H2 as (F2 & S2 & L2 & _).
  step H as ih w3 H3. apply image_answer_effect in H3 as (F3 & S3 & L3 & _).
  step H as p0 w4 H4. apply image_answer_effect in H4 as (F4 & S4 & L4 & _).
  step H as p1 w5 H5. apply image_answer_effect in H5 as (F5 & S5 & L5 & _).
  step H as p2 w6 H6. apply image_answer_effect in H6 as (F6 & S6 & L6 & _).
  step H as s0 w7 H7. apply image_answer_effect in H7 as (F7 & S7 & L7 & _).
  step H as s1 w8 H8. apply image_answer_effect in H8 as (F8 & S8 & L8 & _).
  step H as s2 w9 H9. apply image_answer_effect in H9 as (F9 & S9 & L9 & _).
  cbv zeta in H.
  step H as u w10 H10. apply set_image_effect in H10. subst w10.
  step H as u2 w11 H11. unfold record in H11. inversion H11; subst w11.
  clear H11. apply ret_inv in H as [<- <-]. simpl.
  assert (Hf : frames w9 = frames w) by congruence.
  split; [congruence|]. split; [now rewrite Hf|]. split; [now rewrite Hf|].
  split; [congruence|].
  eexists. split; [rewrite Hf; reflexivity|].
  destruct (a =? 0); split; intros E; try discriminate; simpl; auto.
Qed.

Lemma sws_scale_effect c src stride image w u w' :
  sws_scale c src stride image w = Some (u, w') ->
  exists h, c = Some h /\ is_Some (scalers w !! h)
            /\ frames w' = frames w /\ scalers w' = scalers w
            /\ calls w' = Call_sws_scale h src stride image :: calls w.
Proof.
  unfold sws_scale. intros H.
  step H as h w0 H0. destruct c as [c|]; [|discriminate].
  apply ret_inv in H0 as [-> <-].
  step H as wg w1 H1. apply ret_inv in H1 as [<- <-].
  step H as b w2 H2.
  destruct (scalers w !! h) as [b0|] eqn:Hb; [|discriminate].
  apply ret_inv in H2 as [<- <-].
  step H as i w3 H3. apply live_image_effect in H3 as [_ ->].
  unfold record in H. inversion H; subst. simpl.
  exists h. rewrite Hb. eauto 10.
Qed.

(** What [csc_image_rgb2yuv] of vpxlib.c does, on its two paths. *)
Lemma vpx_csc_image_rgb2yuv_effect ctx in_ stride w r w' :
  csc_image_rgb2yuv ctx in_ stride w = Some (r, w') ->
  scalers w' = scalers w
  /\ Vpx.log (frames w') = Vpx.log (frames w)
  /\ Vpx.env (frames w') = Vpx.env (frames w)
  /\ ((r = None
       /\ Vpx.images (frames w')
          = <[next w := blank_image]> (Vpx.images (frames w))
       /\ calls w' = Call_printf "Failed to allocate image"
                     :: Call_vpx_img_alloc (next w) VPX_IMG_FMT_I420
                          (Vpx.width ctx) (Vpx.height ctx) false
                     :: Call_malloc (next w) :: calls w)
      \/ (r = Some (next w)
          /\ exists c i,
               Vpx.rgb2yuv ctx = Some c /\ is_Some (scalers w !! c)
               /\ Vpx.images (frames w')
                  = <[next w := i]> (Vpx.images (frames w))
               /\ Vpx.img_w i = Vpx.width ctx
               /\ Vpx.img_h i = Vpx.height ctx
               /\ Vpx.d_w i = Vpx.width ctx /\ Vpx.d_h i = Vpx.height ctx
               /\ Vpx.img_data_live i = true
               /\ Vpx.self_allocd i = false
               /\ calls w' = Call_sws_scale c in_ stride (next w)
                             :: Call_vpx_img_alloc (next w) VPX_IMG_FMT_I420
                                  (Vpx.width ctx) (Vpx.height ctx) true
                             :: Call_malloc (next w) :: calls w)).
Proof.
  unfold csc_image_rgb2yuv. intros H.
  step H as h w1 H1.
  apply malloc_image_effect in H1 as (-> & S1 & F1 & L1).
  step H as ok w2 H2.
  apply vpx_img_alloc_effect in H2
    as (S2 & G2 & E2 & L2 & i & I2 & Hok & Hfail).
  assert (Himg : Vpx.images (frames w2)
                 = <[next w := i]> (Vpx.images (frames w))).
  { rewrite I2, F1. simpl. apply insert_insert_eq. }
  assert (Hlog : Vpx.log (frames w2) = Vpx.log (frames w))
    by (rewrite G2, F1; reflexivity).
  assert (Henv : Vpx.env (frames w2) = Vpx.env (frames w))
    by (rewrite E2, F1; reflexivity).
  destruct ok; cbn [negb] in H.
  - destruct (Hok eq_refl) as (Dw & Dh & Live & Own).
    step H as u w3 H3.
    apply sws_scale_effect in H3 as (c & Hc & Hlive & F3 & S3 & L3).
    step H as i3 w4 H4. apply live_image_effect in H4 as [Hi3 ->].
    step H as u5 w5 H5. apply set_image_effect in H5. subst w5.
    done_with H. subst r.
    rewrite F3, Himg, lookup_insert_eq in Hi3. inversion Hi3; subst i3.
    simpl.
    split; [congruence|].
    rewrite F3. split; [exact Hlog|]. split; [exact Henv|].
    right. split; [reflexivity|].
    exists c, (set_size i (Vpx.width ctx) (Vpx.height ctx)).
    split; [exact Hc|]. split; [rewrite <- S1, <- S2; exact Hlive|].
    split; [rewrite Himg; apply insert_insert_eq|].
    split; [reflexivity|]. split; [reflexivity|]. split; [reflexivity|].
    split; [reflexivity|]. split; [exact Live|]. split; [exact Own|].
    rewrite L3, L2, L1. reflexivity.
  - step H as u w3 H3. done_with H. subst r.
    unfold record in H3. inversion H3; subst. simpl.
    split; [congruence|]. split; [exact Hlog|]. split; [exact Henv|].
    left. split; [reflexivity|].
    split; [rewrite Himg, (Hfail eq_refl); reflexivity|].
    rewrite L2, L1. reflexivity.
Qed.



(** X25: when [csc_image_rgb2yuv] of vpxlib.c returns NULL because
    [vpx_img_alloc] failed, the descriptor it had allocated for the image
    is still allocated: the failure path prints a message and returns. *)
Theorem vpx_csc_image_rgb2yuv_failure_leaks (ctx : Vpx.vpx_context)
  (in_ : ptr) (stride : Z) (w w' : world) :
  csc_image_rgb2yuv ctx in_ stride w = Some (None, w') ->
  exists h,
    calls w' = Call_printf "Failed to allocate image"
               :: Call_vpx_img_alloc h VPX_IMG_FMT_I420 (Vpx.width ctx)
                    (Vpx.height ctx) false
               :: Call_malloc h :: calls w
    /\ is_Some (Vpx.images (frames w') !! h).
Proof.
  intros H.
  apply vpx_csc_image_rgb2yuv_effect in H
    as (_ & _ & _ & [(_ & Himg & Hl) | (Hr & _)]); [|discriminate].
  exists (next w). split; [exact Hl|].
  rewrite Himg, lookup_insert_eq. eauto.
Qed.


Lemma answer_pops w a rest :
  answers w = a :: rest -> answer w = Some (a, with_answers w rest).
Proof. unfold answer. now intros ->. Qed.

Lemma answer_runs w : exists a w', answer w = Some (a, w').
Proof. unfold answer. destruct (answers w); eauto. Qed.

Lemma vpx_img_alloc_succeeds image i d_w d_h w rest :
  Vpx.images (frames w) !! image = Some i -> answers w = 0 :: rest ->
  exists w1, vpx_img_alloc image d_w d_h w = Some (true, w1).
Proof.
  intros Hi Hans. unfold vpx_img_alloc.
  assert (Hlive : live_image image w = Some (i, w)).
  { unfold live_image, bind, get, deref. now rewrite Hi. }
  rewrite (bind_run _ _ _ _ _ Hlive).
  rewrite (bind_run _ _ _ _ _ (answer_pops w 0 rest Hans)).
  destruct (answer_runs (with_answers w rest)) as (iw & w2 & H2).
  rewrite (bind_run _ _ _ _ _ H2).
  destruct (answer_runs w2) as (ih & w3 & H3).
  rewrite (bind_run _ _ _ _ _ H3).
  destruct (answer_runs w3) as (p0 & w4 & H4).
  rewrite (bind_run _ _ _ _ _ H4).
  destruct (answer_runs w4) as (p1 & w5 & H5).
  rewrite (bind_run _ _ _ _ _ H5).
  destruct (answer_runs w5) as (p2 & w6 & H6).
  rewrite (bind_run _ _ _ _ _ H6).
  destruct (answer_runs w6) as (s0 & w7 & H7).
  rewrite (bind_run _ _ _ _ _ H7).
  destruct (answer_runs w7) as (s1 & w8 & H8).
  rewrite (bind_run _ _ _ _ _ H8).
  destruct (answer_runs w8) as (s2 & w9 & H9).
  rewrite (bind_run _ _ _ _ _ H9).
  cbv zeta. eexists. reflexivity.
Qed.

(** X26: [init_encoder] of vpxlib.c does not check what [sws_getContext]
    returns: when only the converter cannot be created it returns a
    context whose [rgb2yuv] is NULL, and on that context
    [csc_image_rgb2yuv] hands the NULL converter to [sws_scale] as soon as
    the image is allocated. *)
Theorem vpx_unchecked_converter (garbage : option handle)
  (width height : Z) (w : world) (a : Z) (rest : list Z) :
  answers w = 0 :: 0 :: a :: rest -> a <> 0 ->
  0 < g_w vpx_enc_cfg_default -> 0 < g_h vpx_enc_cfg_default ->
  exists ctx w1,
    init_encoder garbage width height w = Some (Some ctx, w1)
    /\ Vpx.rgb2yuv (fields ctx) = None
    /\ forall in_ stride w2 rest2,
         answers w2 = 0 :: rest2 ->
         csc_image_rgb2yuv (fields ctx) in_ stride w2 = None.
Proof.
  intros Hans Ha Hgw Hgh.
  assert (Hrun : exists p w1,
            init_encoder garbage width height w
            = Some (Some {| self := p;
                            fields := {| Vpx.rgb2yuv := None;
                                         Vpx.yuv2rgb := garbage;
                                         Vpx.width := width;
                                         Vpx.height := height |} |}, w1)).
  { unfold init_encoder.
    assert (H1 : vpx_codec_enc_config_default w
                 = Some ((0, vpx_enc_cfg_default),
                         with_calls (with_answers w (0 :: a :: rest))
                           (Call_vpx_codec_enc_config_default 0 :: calls w))).
    { unfold vpx_codec_enc_config_default.
      rewrite (bind_run _ _ _ _ _ (answer_pops w 0 _ Hans)). reflexivity. }
    rewrite (bind_run _ _ _ _ _ H1). cbn [fst snd Z.eqb negb].
    set (w1 := with_calls _ _).
    assert (Hrate : exists rate,
              target_bitrate width height vpx_enc_cfg_default = Some rate).
    { unfold target_bitrate.
      replace (g_w vpx_enc_cfg_default =? 0) with false
        by (symmetry; apply Z.eqb_neq; lia).
      replace (g_h vpx_enc_cfg_default =? 0) with false
        by (symmetry; apply Z.eqb_neq; lia).
      cbn [orb]. eauto. }
    destruct Hrate as (rate & ->). cbn [deref].
    unfold bind at 1. unfold ret at 1. cbv zeta.
    assert (H3 : malloc_context w1
                 = Some (next w1,
                         with_calls
                           (with_structs
                              (with_next w1 (Pos.succ (next w1)))
                              ({[ next w1 ]} ∪ structs w1))
                           (Call_malloc (next w1) :: calls w1)))
      by reflexivity.
    rewrite (bind_run _ _ _ _ _ H3).
    set (w3 := with_calls (with_structs _ _) _).
    set (cfg := {| g_w := to_uint width; g_h := to_uint height;
                   rc_target_bitrate := rate |}).
    assert (Hin : next w1 ∈ structs w3).
    { unfold w3. simpl. apply elem_of_union_l. now apply elem_of_singleton. }
    assert (H4 : exists w4,
              vpx_codec_enc_init (next w1) cfg w3 = Some (0, w4)
              /\ answers w4 = a :: rest).
    { unfold vpx_codec_enc_init.
      rewrite (bind_run _ _ _ _ _ (live_struct_runs _ _ Hin)).
      assert (Ha3 : answers w3 = 0 :: a :: rest) by reflexivity.
      rewrite (bind_run _ _ _ _ _ (answer_pops w3 0 _ Ha3)).
      eexists. split; [reflexivity|]. reflexivity. }
    destruct H4 as (w4 & H4 & Ha4).
    rewrite (bind_run _ _ _ _ _ H4). cbn [Z.eqb negb].
    assert (H5 : exists w5,
              sws_getContext width height PIX_FMT_RGB24 width height
                PIX_FMT_YUV420P SWS_FAST_BILINEAR w4 = Some (None, w5)).
    { unfold sws_getContext. cbv zeta.
      rewrite (bind_run _ _ _ _ _ (answer_pops w4 a _ Ha4)).
      replace (a =? 0) with false by (symmetry; apply Z.eqb_neq; exact Ha).
      eexists. reflexivity. }
    destruct H5 as (w5 & H5).
    rewrite (bind_run _ _ _ _ _ H5). eauto. }
  destruct Hrun as (p & w1 & Hrun).
  eexists _, w1. split; [exact Hrun|]. split; [reflexivity|].
  intros in_ stride w2 rest2 Hans2.
  unfold csc_image_rgb2yuv. cbn [fields Vpx.rgb2yuv Vpx.width Vpx.height].
  assert (H1 : malloc_image w2
               = Some (next w2,
                       with_calls
                         (with_frames (with_next w2 (Pos.succ (next w2)))
                            (Vpx.with_images (frames w2)
                               (<[next w2 := blank_image]>
                                  (Vpx.images (frames w2)))))
                         (Call_malloc (next w2) :: calls w2)))
    by reflexivity.
  rewrite (bind_run _ _ _ _ _ H1).
  set (w3 := with_calls _ _).
  destruct (vpx_img_alloc_succeeds (next w2) blank_image width height w3
              rest2) as (w4 & H4).
  { unfold w3. simpl. apply lookup_insert_eq. }
  { exact Hans2. }
  rewrite (bind_run _ _ _ _ _ H4). reflexivity.
Qed.

End WithHeaders.
End VpxImageFacts.

Module VpxRgbFacts.
Import CNum VpxLife VpxLifeFacts VpxImageFacts.

Section WithHeaders.
Context `{hdr : Headers} `{vhdr : VpxHeaders}.





End WithHeaders.
End VpxRgbFacts.

(** * The quantizer, and what the context records of it *)

Section QuantizerOrder.

(** X28: the quantizer never grows with the quality percentage, over all
    [int] arguments, and every quantizer from 1 to 50 is the quantizer of
    some percentage in [0,100]. *)
Theorem get_x264_quality_antitone_onto (p q : Z) :
  p <= q ->
  (exists a b,
     get_x264_quality p = float_of_int a
     /\ get_x264_quality q = float_of_int b
     /\ 1 <= b <= a /\ a <= 50)
  /\ (forall k, 1 <= k <= 50 ->
        exists pct, 0 <= pct <= 100
                    /\ get_x264_quality pct = float_of_int k).
Proof.
  intros Hpq. split.
  - exists ((5050 - 49 * MIN 100 (MAX 0 p)) / 100),
           ((5050 - 49 * MIN 100 (MAX 0 q)) / 100).
    pose proof (MIN_MAX_range p) as Hp.
    pose proof (MIN_MAX_range q) as Hq.
    split; [rewrite get_x264_quality_clamps;
            now apply get_x264_quality_percent|].
    split; [rewrite get_x264_quality_clamps;
            now apply get_x264_quality_percent|].
    assert (Hmono : MIN 100 (MAX 0 p) <= MIN 100 (MAX 0 q)).
    { unfold MIN, MAX.
      destruct (0 >? p) eqn:Hp0; destruct (0 >? q) eqn:Hq0;
        cbn [Z.ltb Z.compare];
        try destruct (100 <? p) eqn:Hp1; try destruct (100 <? q) eqn:Hq1;
        lia. }
    split; [split|].
    + apply Z.div_le_lower_bound; lia.
    + apply Z.div_le_mono; lia.
    + apply Z.lt_succ_r, Z.div_lt_upper_bound; lia.
  - intros k Hk.
    exists (Z.min 100 ((5050 - 100 * k) / 49)).
    split.
    + split; [|lia].
      apply Z.min_glb; [lia|]. apply Z.div_pos; lia.
    + apply sf_eqb_eq.
      assert (Hall : forallb
                       (fun k => (k <? 1)
                                 || sf_eqb
                                      (get_x264_quality
                                         (Z.min 100 ((5050 - 100 * k) / 49)))
                                      (float_of_int k))
                       (below 51) = true)
        by (vm_compute; reflexivity).
      pose proof (forallb_below _ 51 Hall k ltac:(lia)) as Hone.
      cbv beta in Hone.
      replace (k <? 1) with false in Hone by (symmetry; apply Z.ltb_ge; lia).
      exact Hone.
Qed.

End QuantizerOrder.

Module X264Recorded.
Import X264 X264Props X264Facts X264Sessions X264Records X264Effects.
Import X264SessionFacts.

Section WithHeaders.
Context `{hdr : Headers}.

Lemma do_init_encoder_recorded ctx width height q s w ctx' w' :
  rgb2yuv ctx = None ->
  do_init_encoder ctx width height q s w = Some (ctx', w') ->
  recorded ctx'.
Proof.
  intros Hnone H.
  pose proof (do_init_encoder_inv _ _ _ _ _ _ _ _ H)
    as [(Hq & _ & Hc & Hx & _ & Ha & _) _].
  apply do_init_encoder_effect in H
    as (p & _ & _ & _ & _ & _ & _ & _ & _ & _ & Hfmt & _); [|exact Hnone].
  unfold recorded, get_encoder_quality, get_encoder_pixel_format.
  rewrite Hq. split; [exact Hx|]. split; [exact Hc|].
  split; [exact Hfmt | exact Ha].
Qed.

(** X29: through a whole encoder session the quantizer in the context is
    the one of the quality [get_encoder_quality] reports, the colour
    sampling is the one selected for that quality, the pixel format
    [get_encoder_pixel_format] reports is the one of that colour sampling,
    and the conversion algorithm is SWS_SINC | SWS_ACCURATE_RND. *)
Theorem encoder_session_recorded (w0 : world) (ctx : x264lib_ctx)
  (w : world) :
  encoder_session w0 ctx w ->
  x264_quality ctx = get_x264_quality (get_encoder_quality ctx)
  /\ colour_sampling ctx
     = get_x264_colour_sampling ctx (get_encoder_quality ctx)
  /\ get_encoder_pixel_format ctx
     = get_csc_format_for_x264_format (colour_sampling ctx)
  /\ csc_algo ctx = Z.lor SWS_SINC SWS_ACCURATE_RND.
Proof.
  change (encoder_session w0 ctx w -> recorded ctx).
  induction 1 as [width height q s ctx w Hinit
                 | ctx w pct ctx' w' Hprev IH Hset
                 | ctx w pct ctx' w' Hprev IH Hset
                 | ctx w in_ stride pic_in w1 o qo r w' Hprev IH
                     Hcsc Hcomp].
  - eapply do_init_encoder_recorded; [|exact Hinit]. reflexivity.
  - destruct IH as (Hx & Hc & Hf & Ha).
    pose proof (set_encoding_quality_inv _ _ _ _ _ Hset)
      as (Hsup & _ & _ & Hcases).
    apply set_encoding_quality_effect in Hset; [|exact Ha].
    destruct Hset as [(_ & _ & w1 & Hclean & Hinit)
                     | [[-> ->] | (e & p0 & He & Hp & Ectx & _)]].
    + eapply do_init_encoder_recorded; [|exact Hinit]. reflexivity.
    + repeat split; assumption.
    + assert (Hsamp : colour_sampling ctx'
                      = get_x264_colour_sampling ctx' pct).
      { destruct Hcases as [(_ & Hs & _) | ([H0 | Hs] & Hsame & _)].
        - exact Hs.
        - rewrite Hsame, Hc.
          unfold get_x264_colour_sampling. rewrite Hsup, H0. reflexivity.
        - rewrite Hsame, Hs.
          symmetry. apply get_x264_colour_sampling_flag. exact Hsup. }
      unfold recorded, get_encoder_quality, get_encoder_pixel_format.
      assert (Hq : quality ctx' = pct) by (rewrite Ectx; reflexivity).
      rewrite Hq.
      split; [rewrite Ectx; reflexivity|]. split; [exact Hsamp|].
      split; [rewrite Ectx; exact Hf | rewrite Ectx; exact Ha].
  - apply set_encoding_speed_effect in Hset
      as (e & p0 & n & _ & _ & _ & Hcases).
    destruct Hcases as [(_ & -> & _) | (_ & -> & _)]; exact IH.
  - exact IH.
Qed.

End WithHeaders.
End X264Recorded.

(** * Runs of the properties above *)

Section MoreEncoderRuns.
Import X264 X264Props X264Facts X264Sessions Samples MoreSamples.
Import X264SessionFacts X264EncoderMore X264Reconfiguration.
#[local] Existing Instance headers_2012.

Lemma opened50_speed5_run :
  set_encoding_speed (fst opened50) 5 (snd opened50)
  = Some (fst opened50_speed5, snd opened50_speed5).
Proof. vm_compute. reflexivity. Qed.

Lemma opened50_do_init_run :
  do_init_encoder zeroed_ctx 640 480 50 1 world0
  = Some (fst opened50, snd opened50).
Proof. vm_compute. reflexivity. Qed.

Lemma encoder_session_owns_witness :
  encoder_session world0 (fst opened50_then95) (snd opened50_then95)
  /\ encoder_owns (fst opened50_then95) (snd opened50_then95).
Proof.
  assert (H : encoder_session world0 (fst opened50_then95)
                (snd opened50_then95)).
  { eapply session_quality.
    - apply session_open with (width := 640) (height := 480) (q := 50)
                              (s := 1).
      exact opened50_run.
    - exact opened50_then95_run. }
  split; [exact H|].
  exact (proj1 (encoder_session_owns world0 _ _ eq_refl eq_refl eq_refl H)).
Defined.

Lemma clean_encoder_releases_witness :
  encoder_owns (fst opened50) (snd opened50)
  /\ exists w',
       clean_encoder (fst opened50) (snd opened50)
       = Some (set_encoder (set_rgb2yuv (fst opened50) None) None, w')
       /\ encoders w' = ∅ /\ scalers w' = ∅.
Proof.
  assert (H : encoder_owns (fst opened50) (snd opened50)).
  { exact (proj1 (do_init_encoder_owns zeroed_ctx 640 480 50 1 world0 _ _
                    eq_refl eq_refl eq_refl eq_refl opened50_do_init_run)). }
  split; [exact H|].
  destruct (clean_encoder_releases _ _ H) as (w' & Hrun & He & Hs & _).
  exists w'. split; [exact Hrun|]. split; [exact He | exact Hs].
Defined.


Lemma encode_frame_uninitialised_witness :
  (encoder zeroed_ctx = None \/ rgb2yuv zeroed_ctx = None)
  /\ csc_image_rgb2yuv zeroed_ctx 4096 1920 world0 = Some (None, world0)
  /\ compress_image zeroed_ctx None {| out := NULL; outsz := 0 |} (-1) world0
     = None.
Proof.
  assert (H : encoder zeroed_ctx = None \/ rgb2yuv zeroed_ctx = None)
    by (left; reflexivity).
  destruct (encode_frame_uninitialised zeroed_ctx world0 4096 1920
              {| out := NULL; outsz := 0 |} (-1) H) as [H1 H2].
  split; [exact H|]. split; [exact H1 | exact (H2 world0)].
Defined.

Lemma set_encoding_speed_settles_witness :
  set_encoding_speed (fst opened50) 5 (snd opened50)
  = Some (fst opened50_speed5, snd opened50_speed5)
  /\ set_encoding_speed (fst opened50_speed5) 5 (snd opened50_speed5)
     = Some (fst opened50_speed5, snd opened50_speed5).
Proof.
  split; [exact opened50_speed5_run|].
  exact (proj2 (proj2 (set_encoding_speed_settles _ _ _ _ _
                         opened50_speed5_run))).
Defined.

Lemma set_encoding_speed_forgets_quality_witness :
  set_encoding_speed (fst opened50) 5 (snd opened50)
  = Some (fst opened50_speed5, snd opened50_speed5)
  /\ encoding_preset (fst opened50_speed5) <> encoding_preset (fst opened50)
  /\ engine_quantizer (fst opened50_speed5) (snd opened50_speed5)
     = Some (f_rf_constant x264_param_default)
  /\ x264_quality (fst opened50_speed5) = x264_quality (fst opened50).
Proof.
  assert (Hne : encoding_preset (fst opened50_speed5)
                <> encoding_preset (fst opened50))
    by (vm_compute; discriminate).
  split; [exact opened50_speed5_run|]. split; [exact Hne|].
  destruct (set_encoding_speed_forgets_quality _ _ _ _ _
              opened50_speed5_run Hne)
    as (e & name & _ & _ & _ & Hq & Hx & _).
  split; [exact Hq | exact Hx].
Defined.

Lemma set_encoding_quality_reopens_witness :
  set_encoding_quality (fst opened50) 95 (snd opened50)
  = Some (fst opened50_then95, snd opened50_then95)
  /\ colour_sampling (fst opened50)
     <> get_x264_colour_sampling (fst opened50) 95
  /\ encoding_preset (fst opened50_then95) = 2
  /\ exists p,
       log (snd opened50_then95)
       = Call_sws_getContext (encoder_converter (fst opened50_then95))
           (rgb2yuv (fst opened50_then95))
         :: Call_x264_encoder_open p (encoder (fst opened50_then95))
         :: Call_x264_encoder_close 1%positive
         :: Call_sws_freeContext 2%positive :: log (snd opened50).
Proof.
  assert (Hs : supports_csc_option (fst opened50) <> 0)
    by (vm_compute; discriminate).
  assert (Hcs : colour_sampling (fst opened50)
                <> get_x264_colour_sampling (fst opened50) 95)
    by (vm_compute; discriminate).
  assert (He : encoder (fst opened50) = Some 1%positive)
    by (vm_compute; reflexivity).
  assert (Hc : rgb2yuv (fst opened50) = Some 2%positive)
    by (vm_compute; reflexivity).
  split; [exact opened50_then95_run|]. split; [exact Hcs|].
  destruct (set_encoding_quality_reopens _ _ _ _ _ _ _ Hs Hcs He Hc
              opened50_then95_run)
    as (p & Hl & _ & _ & _ & _ & _ & _ & _ & Hpre & _).
  split; [exact Hpre|]. exists p. exact Hl.
Defined.

Lemma setters_need_an_encoder_witness :
  encoder zeroed_ctx = None
  /\ set_encoding_speed zeroed_ctx 50 world0 = None.
Proof.
  assert (H : encoder zeroed_ctx = None) by reflexivity.
  split; [exact H|].
  exact (proj1 (setters_need_an_encoder zeroed_ctx 50 world0 H)).
Defined.

End MoreEncoderRuns.

Section MoreDecoderRuns.
Import X264 X264Props X264Facts X264Sessions Samples MoreSamples.
Import X264DecoderSessions X264DecoderMore X264DecoderEdges.
#[local] Existing Instance headers_2012.

Lemma decoder420_context_run :
  init_decoder_context zeroed_ctx 640 480 PIX_FMT_YUV420P world_open2_fails
  = Some ((fst decoder420, 0), snd decoder420).
Proof. vm_compute. reflexivity. Qed.

Lemma decoder_refused_run :
  init_decoder 640 480 PIX_FMT_YUV420P world_first_open2_fails
  = Some (None, decoder_refused).
Proof. vm_compute. reflexivity. Qed.

Lemma decoder_session_owns_witness :
  decoder_session world_open2_fails (fst decoder_failed444)
    (snd decoder_failed444)
  /\ decoder_owns (fst decoder_failed444) (snd decoder_failed444).
Proof.
  assert (H : decoder_session world_open2_fails (fst decoder_failed444)
                (snd decoder_failed444)).
  { eapply dsession_format.
    - apply dsession_open with (width := 640) (height := 480)
                               (csc_fmt := PIX_FMT_YUV420P).
      exact decoder420_run.
    - exact decoder_failed444_run. }
  split; [exact H|].
  exact (decoder_session_owns world_open2_fails _ _ eq_refl eq_refl H).
Defined.

Lemma clean_decoder_releases_witness :
  decoder_owns (fst decoder420) (snd decoder420)
  /\ exists w',
       clean_decoder (fst decoder420) (snd decoder420)
       = Some (set_yuv2rgb (set_codec_ctx (fst decoder420) None) None, w')
       /\ codec_ctxs w' = ∅ /\ scalers w' = ∅.
Proof.
  assert (H : decoder_owns (fst decoder420) (snd decoder420)).
  { exact (init_decoder_context_owns zeroed_ctx 640 480 PIX_FMT_YUV420P
             world_open2_fails _ _ _ eq_refl eq_refl eq_refl
             decoder420_context_run). }
  split; [exact H|].
  destruct (clean_decoder_releases _ _ H) as (w' & Hrun & Hc & Hs & _).
  exists w'. split; [exact Hrun|]. split; [exact Hc | exact Hs].
Defined.

Lemma init_decoder_opens_witness :
  init_decoder 640 480 PIX_FMT_YUV420P world_open2_fails
  = Some (Some (fst decoder420), snd decoder420)
  /\ X264.width (fst decoder420) = 640
  /\ X264.height (fst decoder420) = 480
  /\ codec (fst decoder420) = Some CODEC_ID_H264.
Proof.
  split; [exact decoder420_run|].
  destruct (init_decoder_opens _ _ _ _ _ _ decoder420_run)
    as (Hw & Hh & _ & Hc & _).
  split; [exact Hw|]. split; [exact Hh | exact Hc].
Defined.

Lemma init_decoder_failure_leaks_witness :
  init_decoder 640 480 PIX_FMT_YUV420P world_first_open2_fails
  = Some (None, decoder_refused)
  /\ exists l,
       log decoder_refused = l ++ log world_first_open2_fails
       /\ (forall b c, In (Call_sws_getContext b (Some c)) l ->
                       scalers decoder_refused !! c = Some b)
       /\ (forall c, In (Call_avcodec_alloc_context3 (Some c)) l ->
                     is_Some (codec_ctxs decoder_refused !! c)).
Proof.
  split; [exact decoder_refused_run|].
  destruct (init_decoder_failure_leaks _ _ _ _ _ decoder_refused_run)
    as (l & Hl & Hs & Hc & _).
  exists l. split; [exact Hl|]. split; [exact Hs | exact Hc].
Defined.

Lemma set_decoder_csc_format_settles_witness :
  set_decoder_csc_format (fst decoder420) PIX_FMT_YUV444P (snd decoder420)
  = Some (fst decoder_failed444, snd decoder_failed444)
  /\ set_decoder_csc_format (fst decoder_failed444) PIX_FMT_YUV444P
       (snd decoder_failed444)
     = Some (fst decoder_failed444, snd decoder_failed444).
Proof.
  split; [exact decoder_failed444_run|].
  exact (proj2 (set_decoder_csc_format_settles _ _ _ _ _
                  decoder_failed444_run)).
Defined.

Lemma init_decoder_context_unchecked_alloc_witness :
  1 <> 0
  /\ init_decoder_context zeroed_ctx 640 480 PIX_FMT_YUV420P
       (with_env world0 (0 :: 0 :: 1 :: nil)) = None.
Proof.
  assert (H : 1 <> 0) by lia.
  split; [exact H|].
  exact (init_decoder_context_unchecked_alloc zeroed_ctx 640 480
           PIX_FMT_YUV420P (with_env world0 (0 :: 0 :: 1 :: nil))
           0 1 nil eq_refl H).
Defined.

Lemma init_decoder_without_converter_witness :
  1 <> 0 /\ 0 <= 0
  /\ exists ctx w',
       init_decoder 640 480 PIX_FMT_YUV420P
         (with_env world0 (1 :: 0 :: 0 :: 0 :: nil)) = Some (Some ctx, w')
       /\ yuv2rgb ctx = None.
Proof.
  assert (H : 1 <> 0) by lia.
  assert (H0 : 0 <= 0) by lia.
  split; [exact H|]. split; [exact H0|].
  destruct (init_decoder_without_converter 640 480 PIX_FMT_YUV420P
              (with_env world0 (1 :: 0 :: 0 :: 0 :: nil)) 1 0 nil
              eq_refl H H0) as (ctx & w' & Hrun & Hy & _).
  exists ctx, w'. split; [exact Hrun | exact Hy].
Defined.

Lemma decompress_image_without_picture_witness :
  codec (fst decoder420) <> None
  /\ exists o' w',
       decompress_image (fst decoder420) packet 1377 stale_cells
         world_no_picture = Some ((0, o'), w')
       /\ o' = {| dec_out := NULL :: NULL :: NULL :: nil;
                  dec_outsize := 1377;
                  dec_outstride := 0 :: 0 :: 0 :: nil |}.
Proof.
  assert (Hc : codec (fst decoder420) <> None) by (vm_compute; discriminate).
  assert (Hdec : { w1 | avcodec_decode_video2 (codec_ctx (fst decoder420))
                          frame_defaults packet 1377 world_no_picture
                        = Some ((5, 0, frame_defaults), w1) }).
  { eexists. vm_compute. reflexivity. }
  destruct Hdec as [w1 Hdec].
  assert (Hrun : { res | decompress_image (fst decoder420) packet 1377
                           stale_cells world_no_picture = Some res }).
  { eexists. vm_compute. reflexivity. }
  destruct Hrun as [[[r o'] w'] Hrun].
  assert (Hlen : 0 <= 5) by lia.
  assert (Hrange : INT_MIN <= dec_outsize stale_cells <= INT_MAX)
    by (vm_compute; split; discriminate).
  destruct (decompress_image_without_picture (fst decoder420) packet 1377
              stale_cells world_no_picture 5 frame_defaults w1 r o' w'
              Hc Hdec Hlen eq_refl eq_refl Hrange Hrun) as [Ho Hr].
  split; [exact Hc|].
  exists o', w'. split; [|exact Ho].
  rewrite Hrun. rewrite Hr. reflexivity.
Defined.

End MoreDecoderRuns.

Section MoreVpxRuns.
Import Vpx VpxProps VpxSamples VpxFrames.
#[local] Existing Instance headers_2012.

Lemma vpx_compress_image_outcomes_witness :
  exists r o' w',
    compress_image a_context (Some 2%positive) stale
      (world_with (0 :: 0 :: 0 :: 8192 :: 1377 :: nil)) = Some ((r, o'), w')
    /\ exists h l, Some 2%positive = Some h
                   /\ log w' = Call_vpx_img_free h :: l ++ nil.
Proof.
  assert (Hrun : { res | compress_image a_context (Some 2%positive) stale
                           (world_with (0 :: 0 :: 0 :: 8192 :: 1377 :: nil))
                         = Some res }).
  { eexists. vm_compute. reflexivity. }
  destruct Hrun as [[[r o'] w'] Hrun].
  exists r, o', w'. split; [exact Hrun|].
  destruct (vpx_compress_image_outcomes _ _ _ _ _ _ _ Hrun)
    as (h & i & l & Eh & _ & _ & Hl & _).
  exists h, l. split; [exact Eh | exact Hl].
Defined.

Lemma vpx_compress_image_unchecked_witness :
  images (world_with (0 :: 1 :: nil)) !! 2%positive = Some an_image
  /\ compress_image a_context None stale (world_with (0 :: 1 :: nil)) = None
  /\ compress_image a_context (Some 2%positive) stale
       (world_with (0 :: 1 :: nil)) = None.
Proof.
  assert (Hi : images (world_with (0 :: 1 :: nil)) !! 2%positive
               = Some an_image) by (vm_compute; reflexivity).
  assert (Ha : 1 <> 0) by lia.
  destruct (vpx_compress_image_unchecked a_context stale
              (world_with (0 :: 1 :: nil))) as [H1 H2].
  split; [exact Hi|]. split; [exact H1|].
  exact (H2 2%positive an_image 1 nil Hi eq_refl Ha).
Defined.

Lemma vpx_decompress_image_frame_witness :
  exists r o' w',
    decompress_image a_context packet 1377 cleared
      (world_with (0 :: 0 :: 4096 :: 311296 :: 388096 :: 640 :: 320 :: 320
                   :: 480 :: nil)) = Some ((r, o'), w')
    /\ images w'
       = images (world_with (0 :: 0 :: 4096 :: 311296 :: 388096 :: 640
                             :: 320 :: 320 :: 480 :: nil)).
Proof.
  assert (Hrun : { res | decompress_image a_context packet 1377 cleared
                           (world_with (0 :: 0 :: 4096 :: 311296 :: 388096
                                        :: 640 :: 320 :: 320 :: 480 :: nil))
                         = Some res }).
  { eexists. vm_compute. reflexivity. }
  destruct Hrun as [[[r o'] w'] Hrun].
  exists r, o', w'. split; [exact Hrun|].
  exact (proj1 (vpx_decompress_image_frame a_context packet 1377 cleared _
                  r o' w' eq_refl eq_refl Hrun)).
Defined.

End MoreVpxRuns.

Section MoreQuantizerRuns.
Import X264 X264Props X264Sessions X264Records Samples MoreSamples.
Import X264Recorded.
#[local] Existing Instance headers_2012.

Lemma get_x264_quality_antitone_onto_witness :
  50 <= 51
  /\ exists a b,
       get_x264_quality 50 = float_of_int a
       /\ get_x264_quality 51 = float_of_int b
       /\ 1 <= b <= a /\ a <= 50.
Proof.
  assert (H : 50 <= 51) by lia.
  split; [exact H|].
  exact (proj1 (get_x264_quality_antitone_onto 50 51 H)).
Defined.

Lemma encoder_session_recorded_witness :
  encoder_session world0 (fst opened50_then95) (snd opened50_then95)
  /\ recorded (fst opened50_then95).
Proof.
  assert (H : encoder_session world0 (fst opened50_then95)
                (snd opened50_then95)).
  { eapply session_quality.
    - apply session_open with (width := 640) (height := 480) (q := 50)
                              (s := 1).
      exact opened50_run.
    - exact opened50_then95_run. }
  split; [exact H|].
  exact (encoder_session_recorded world0 _ _ H).
Defined.

End MoreQuantizerRuns.

Section VpxLifeRuns.
Import CNum VpxLife MoreSamples.
Import VpxLifeFacts VpxImageFacts VpxRgbFacts.
#[local] Existing Instance headers_2012.
#[local] Existing Instance vpx_headers_2012.

Lemma vpx_encoder_run :
  init_encoder None 640 480 (empty_world nil)
  = Some (Some (fst vpx_encoder), snd vpx_encoder).
Proof. vm_compute. reflexivity. Qed.

Lemma vpx_refused_run :
  init_encoder None 640 480 (empty_world (0 :: 1 :: nil))
  = Some (None, vpx_refused).
Proof. vm_compute. reflexivity. Qed.

Lemma target_bitrate_scales_witness :
  0 < g_w vpx_enc_cfg_default /\ 0 < g_h vpx_enc_cfg_default
  /\ target_bitrate 4096 4096 vpx_enc_cfg_default = Some 0
  /\ (0 <= 640 * 480 * rc_target_bitrate vpx_enc_cfg_default < 2 ^ 32 ->
      target_bitrate 640 480 vpx_enc_cfg_default = Some 1024).
Proof.
  assert (Hw : 0 < g_w vpx_enc_cfg_default) by (vm_compute; reflexivity).
  assert (Hh : 0 < g_h vpx_enc_cfg_default) by (vm_compute; reflexivity).
  split; [exact Hw|]. split; [exact Hh|].
  split.
  - exact (proj1 (target_bitrate_scales 4096 4096 vpx_enc_cfg_default
                    Hw Hh)).
  - exact (proj1 (proj2 (target_bitrate_scales 640 480 vpx_enc_cfg_default
                           Hw Hh))).
Defined.

Lemma vpx_init_encoder_configures_witness :
  init_encoder None 640 480 (empty_world nil)
  = Some (Some (fst vpx_encoder), snd vpx_encoder)
  /\ Vpx.width (fields (fst vpx_encoder)) = 640
  /\ exists rate,
       target_bitrate 640 480 vpx_enc_cfg_default = Some rate
       /\ codecs (snd vpx_encoder) !! self (fst vpx_encoder)
          = Some (Encoding {| g_w := to_uint 640; g_h := to_uint 480;
                              rc_target_bitrate := rate |}).
Proof.
  split; [exact vpx_encoder_run|].
  destruct (vpx_init_encoder_configures _ _ _ _ _ _ vpx_encoder_run)
    as (_ & Hw & _ & _ & Hrate & _).
  split; [exact Hw | exact Hrate].
Defined.

Lemma vpx_clean_leaves_converter_witness :
  init_encoder None 640 480 (empty_world nil)
  = Some (Some (fst vpx_encoder), snd vpx_encoder)
  /\ exists w2,
       clean_encoder (fst vpx_encoder) (snd vpx_encoder) = Some (tt, w2)
       /\ forall c, Vpx.rgb2yuv (fields (fst vpx_encoder)) = Some c ->
                    is_Some (scalers w2 !! c).
Proof.
  split; [exact vpx_encoder_run|].
  destruct (proj1 (vpx_clean_leaves_converter None 640 480 (empty_world nil)
                     (fst vpx_encoder) (snd vpx_encoder)) vpx_encoder_run)
    as (w2 & Hrun & _ & _ & _ & Hleft).
  exists w2. split; [exact Hrun | exact Hleft].
Defined.

Lemma vpx_init_failure_frees_witness :
  init_encoder None 640 480 (empty_world (0 :: 1 :: nil))
  = Some (None, vpx_refused)
  /\ structs vpx_refused = structs (empty_world (0 :: 1 :: nil))
  /\ scalers vpx_refused = scalers (empty_world (0 :: 1 :: nil)).
Proof.
  assert (Hfresh : next (empty_world (0 :: 1 :: nil))
                   ∉ structs (empty_world (0 :: 1 :: nil)))
    by apply not_elem_of_empty.
  split; [exact vpx_refused_run|].
  destruct (vpx_init_failure_frees None 640 480 _ _ Hfresh
              (or_introl vpx_refused_run)) as (Hs & _ & Hsc).
  split; [exact Hs | exact Hsc].
Defined.



Lemma vpx_csc_image_rgb2yuv_failure_leaks_witness :
  exists w',
    csc_image_rgb2yuv (fields (fst vpx_encoder)) 4096 1920
      (with_answers (snd vpx_encoder) (1 :: nil)) = Some (None, w')
    /\ exists h, is_Some (Vpx.images (frames w') !! h).
Proof.
  assert (H1 : { w' | csc_image_rgb2yuv (fields (fst vpx_encoder)) 4096 1920
                        (with_answers (snd vpx_encoder) (1 :: nil))
                      = Some (None, w') }).
  { eexists. vm_compute. reflexivity. }
  destruct H1 as [w' H1].
  exists w'. split; [exact H1|].
  destruct (vpx_csc_image_rgb2yuv_failure_leaks _ _ _ _ _ H1)
    as (h & _ & Hlive).
  exists h. exact Hlive.
Defined.

Lemma vpx_unchecked_converter_witness :
  1 <> 0
  /\ exists ctx w1,
       init_encoder None 640 480 (empty_world (0 :: 0 :: 1 :: nil))
       = Some (Some ctx, w1)
       /\ Vpx.rgb2yuv (fields ctx) = None
       /\ csc_image_rgb2yuv (fields ctx) 4096 1920 (empty_world (0 :: nil))
          = None.
Proof.
  assert (Ha : 1 <> 0) by lia.
  assert (Hw : 0 < g_w vpx_enc_cfg_default) by (vm_compute; reflexivity).
  assert (Hh : 0 < g_h vpx_enc_cfg_default) by (vm_compute; reflexivity).
  split; [exact Ha|].
  destruct (vpx_unchecked_converter None 640 480
              (empty_world (0 :: 0 :: 1 :: nil)) 1 nil eq_refl Ha Hw Hh)
    as (ctx & w1 & Hrun & Hnull & Hcsc).
  exists ctx, w1. split; [exact Hrun|]. split; [exact Hnull|].
  exact (Hcsc 4096 1920 (empty_world (0 :: nil)) nil eq_refl).
Defined.


End VpxLifeRuns.
